(** * Pawsitive Care: the appointment subsystem, embedded and verified

    A shallow embedding of the appointment code of the clinic application
    (builder, repositories, strategies, service, observers, booking view)
    and of the role model of [accounts/models.py], followed by the
    properties established about it.

    Conventions of the embedding.
    - A naive [datetime] is an integer number of microseconds, a [date] an
      integer number of days, a [timedelta] an integer number of
      microseconds (possibly zero or negative, as in Python).
    - The relational store is a record of tables; the appointment table is a
      finite map from primary keys to rows.
    - Code that writes to the store, sends mail or raises is a function
      [World -> Result A * World]: an exception keeps the writes made before
      it, as in Python outside a transaction.
    - Mail texts are kept as templates with their arguments instead of
      rendered strings; the recipients are kept as they are.
    - The bookkeeping columns [created_at] and [updated_at] depend on the
      wall clock and are not part of the rows.
    - A foreign key of the model takes [None] or an instance of the class
      it points to; any other value is refused when it is assigned, with a
      [ValueError] whose text is shortened here.
    - [send_mail] is taken to deliver: the message is in the outbox when
      the call returns. What the callers do when the mail backend refuses
      a message is not part of the model.
    - The [post_save] receiver of [vet_patterns/observer.py] walks the
      observer list of that module's [AppointmentSubject]; nothing in the
      repository ever attaches an observer to it, so the receiver does
      nothing and is left out. *)

From stdpp Require Import gmap strings list sorting pretty.
From Stdlib Require Import ZArith Lia Ascii.

Local Open Scope string_scope.
Local Open Scope Z_scope.

(* ===================================================================== *)
(** * Dates and times *)
(* ===================================================================== *)

Abbreviation datetime := Z.
Abbreviation date := Z.
Abbreviation timedelta := Z.

Definition timedelta_minutes (m : Z) : timedelta := m * 60000000.
Definition timedelta_hours (h : Z) : timedelta := h * 3600000000.
Definition DAY : timedelta := timedelta_hours 24.

(** [datetime.combine(date, time)] for a time of day given as an offset. *)
Definition combine (d : date) (time_of_day : timedelta) : datetime :=
  d * DAY + time_of_day.

(** [dt.date()] *)
Definition date_of (dt : datetime) : date := dt / DAY.

(** [dt.replace(hour=h, minute=0, second=0, microsecond=0)] *)
Definition replace_hour (dt : datetime) (h : Z) : datetime :=
  combine (date_of dt) (timedelta_hours h).

(* ===================================================================== *)
(** * accounts/models.py *)
(* ===================================================================== *)

Record CustomUser := {
  user_id : Z;
  username : string;
  first_name : string;
  last_name : string;
  email : string;
  phone : string;
  address : string;
  role : string
}.

Definition ROLE_CHOICES : list (string * string) :=
  [("admin", "Admin"); ("vet", "Veterinarian"); ("staff", "Staff");
   ("client", "Client")].

(** [default='client'] of the [role] field. *)
Definition role_default : string := "client".

(** A user built without an explicit role gets the field's default. *)
Definition new_user (uid : Z) (uname fname lname mail ph addr : string)
    (given_role : option string) : CustomUser :=
  {| user_id := uid; username := uname; first_name := fname;
     last_name := lname; email := mail; phone := ph; address := addr;
     role := default role_default given_role |}.

(** Validation of a field with [choices]: the value is one of the keys. *)
Definition role_is_choice (r : string) : bool :=
  existsb (fun c => String.eqb (fst c) r) ROLE_CHOICES.

Definition is_admin (self : CustomUser) : bool := String.eqb (role self) "admin".
Definition is_vet (self : CustomUser) : bool := String.eqb (role self) "vet".
Definition is_staff_member (self : CustomUser) : bool := String.eqb (role self) "staff".
Definition is_client (self : CustomUser) : bool := String.eqb (role self) "client".

(** [str.strip()] on ASCII text: the white space of Python's [str.isspace]
    below 128 is tab to carriage return, the four separators and the
    space. *)
Definition is_space (c : ascii) : bool :=
  let n := N_of_ascii c in
  (((9 <=? n) && (n <=? 13)) || ((28 <=? n) && (n <=? 32)))%N.

Fixpoint lstrip (s : string) : string :=
  match s with
  | EmptyString => EmptyString
  | String c rest => if is_space c then lstrip rest else s
  end.

Fixpoint rstrip (s : string) : string :=
  match s with
  | EmptyString => EmptyString
  | String c rest =>
      match rstrip rest with
      | EmptyString => if is_space c then EmptyString else String c EmptyString
      | kept => String c kept
      end
  end.

Definition strip (s : string) : string := lstrip (rstrip s).

(** [AbstractUser.get_full_name]: the two names with a space between,
    stripped. *)
Definition get_full_name (u : CustomUser) : string :=
  strip (first_name u ++ " " ++ last_name u).

(** The profile of a veterinarian: a row of its own that points to the
    user account. *)
Record Veterinarian := { veterinarian_id : Z; veterinarian_user : CustomUser }.

(* ===================================================================== *)
(** * appoinments/models.py *)
(* ===================================================================== *)

Record Pet := { pet_id : Z; pet_name : string; owner : CustomUser }.

Record ServiceType := { service_id : Z; service_name : string }.

Record ClinicBranch := { branch_id : Z; branch_name : string; is_active : bool }.

(** The columns of an appointment row. *)
Record Appointment := {
  pet : Pet;
  service_type : ServiceType;
  veterinarian : CustomUser;
  date_time : datetime;
  clinic_branch : ClinicBranch;
  notes : string;
  status : string
}.

Definition with_status (s : string) (a : Appointment) : Appointment :=
  {| pet := pet a; service_type := service_type a;
     veterinarian := veterinarian a; date_time := date_time a;
     clinic_branch := clinic_branch a; notes := notes a; status := s |}.

Definition with_date_time (t : datetime) (a : Appointment) : Appointment :=
  {| pet := pet a; service_type := service_type a;
     veterinarian := veterinarian a; date_time := t;
     clinic_branch := clinic_branch a; notes := notes a; status := status a |}.

Definition with_notes (n : string) (a : Appointment) : Appointment :=
  {| pet := pet a; service_type := service_type a;
     veterinarian := veterinarian a; date_time := date_time a;
     clinic_branch := clinic_branch a; notes := n; status := status a |}.

Definition with_veterinarian (v : CustomUser) (a : Appointment) : Appointment :=
  {| pet := pet a; service_type := service_type a;
     veterinarian := v; date_time := date_time a;
     clinic_branch := clinic_branch a; notes := notes a; status := status a |}.

(** A model instance in memory: its primary key, its columns, and the
    attributes the strategies attach to it, which are no columns of the
    model and are therefore never written. *)
Record AppointmentObj := {
  pk : Z;
  fields : Appointment;
  treatment_notes : option string;
  diagnosis : option string;
  follow_up_date : option datetime;
  cancellation_reason : option string
}.

Definition loaded (k : Z) (a : Appointment) : AppointmentObj :=
  {| pk := k; fields := a; treatment_notes := None; diagnosis := None;
     follow_up_date := None; cancellation_reason := None |}.

Definition with_fields (a : Appointment) (o : AppointmentObj) : AppointmentObj :=
  {| pk := pk o; fields := a; treatment_notes := treatment_notes o;
     diagnosis := diagnosis o; follow_up_date := follow_up_date o;
     cancellation_reason := cancellation_reason o |}.

(** The text of a message, as the template that produced it and the values
    filled in. *)
Inductive MailText :=
  | MsgConfirmed (vet : string) (when : datetime)
  | MsgCancelled (vet : string) (when : datetime)
  | MsgCompleted (vet : string)
  | MsgPending (vet : string) (when : datetime)
  | MsgStatusUpdated
  | MsgReminder (vet : string) (when : datetime)
  | MsgRescheduled (old_datetime new_datetime : datetime)
      (reason pet_name vet : string)
  | MsgCancellation (when : datetime) (pet_name vet reason : string)
  | MsgNoShow (when : datetime) (pet_name vet : string)
  | MsgReferral (old_vet pet_name owner_name : string) (when : datetime)
      (reason notes : string)
  | MsgVetUpdate (pet_name owner_name : string) (when : datetime)
      (status : string).

Record AppointmentNotification := {
  notification_appointment : Z;
  notification_type : string;
  notification_message : MailText;
  is_sent : bool
}.

(** One call of [send_mail(subject, message, from_email, recipient_list)]. *)
Record Email := {
  mail_subject : string;
  mail_message : MailText;
  mail_from : string;
  mail_to : list string
}.

(* ===================================================================== *)
(** * Python values held by the builder *)
(* ===================================================================== *)

(** The builder keeps whatever it is given; [VNone] is [None]. *)
Inductive PyVal :=
  | VNone
  | VStr (s : string)
  | VDatetime (t : datetime)
  | VPet (p : Pet)
  | VUser (u : CustomUser)
  | VService (s : ServiceType)
  | VBranch (b : ClinicBranch)
  | VVeterinarian (v : Veterinarian).

(** [bool(v)]: [None] and the empty string are false, a date and a model
    instance are true. *)
Definition truthy (v : PyVal) : bool :=
  match v with
  | VNone => false
  | VStr s => negb (String.eqb s "")
  | _ => true
  end.

(** The keyword arguments of [Appointment(...)], and the attributes of the
    instance made from them as long as it has not been saved. *)
Record AppointmentInit := {
  init_pet : PyVal;
  init_service_type : PyVal;
  init_veterinarian : PyVal;
  init_date_time : PyVal;
  init_clinic_branch : PyVal;
  init_notes : PyVal;
  init_status : PyVal
}.

(* ===================================================================== *)
(** * Exceptions *)
(* ===================================================================== *)

Inductive Exception :=
  | ValueError (msg : string)
  | AttributeError (attr : string)
  | KeyError (key : string)
  | ValidationError (msg : string)
  | ImportError (name : string)
  | ObjectDoesNotExist
  | Http404
  | IntegrityError
  | DatabaseError.

Inductive Result (A : Type) :=
  | Ok (a : A)
  | Raise (e : Exception).
Arguments Ok {A} a.
Arguments Raise {A} e.

(** Assigning [v] to a foreign key of the model: [None] and an instance of
    the related class are taken, anything else is refused with a
    [ValueError] (whose text, which quotes the value, is shortened here). *)
Definition assign_foreign_key (field : string) (is_instance : PyVal -> bool)
    (v : PyVal) : Result unit :=
  match v with
  | VNone => Ok tt
  | _ =>
      if is_instance v then Ok tt
      else Raise (ValueError ("Cannot assign to Appointment." +:+ field))
  end.

Definition is_pet (v : PyVal) : bool :=
  match v with VPet _ => true | _ => false end.
Definition is_service (v : PyVal) : bool :=
  match v with VService _ => true | _ => false end.
Definition is_user (v : PyVal) : bool :=
  match v with VUser _ => true | _ => false end.
Definition is_branch (v : PyVal) : bool :=
  match v with VBranch _ => true | _ => false end.

(** [Appointment(...)] with keyword arguments: the fields are set in the order of the class,
    and the first foreign key that is refused ends the construction. *)
Definition Appointment_init (kwargs : AppointmentInit) : Result AppointmentInit :=
  match assign_foreign_key "pet" is_pet (init_pet kwargs) with
  | Raise e => Raise e
  | Ok _ =>
  match assign_foreign_key "service_type" is_service (init_service_type kwargs) with
  | Raise e => Raise e
  | Ok _ =>
  match assign_foreign_key "veterinarian" is_user (init_veterinarian kwargs) with
  | Raise e => Raise e
  | Ok _ =>
  match assign_foreign_key "clinic_branch" is_branch (init_clinic_branch kwargs) with
  | Raise e => Raise e
  | Ok _ => Ok kwargs
  end end end end.

(* ===================================================================== *)
(** * patterns/builder.py *)
(* ===================================================================== *)

Module AppointmentBuilder.

(** The dictionary [self._appointment]. *)
Record t := {
  b_pet : PyVal;
  b_service_type : PyVal;
  b_veterinarian : PyVal;
  b_date_time : PyVal;
  b_clinic_branch : PyVal;
  b_notes : PyVal;
  b_status : PyVal
}.

Definition reset : t :=
  {| b_pet := VNone; b_service_type := VNone; b_veterinarian := VNone;
     b_date_time := VNone; b_clinic_branch := VNone;
     b_notes := VStr ""; b_status := VStr "pending" |}.

(** [AppointmentBuilder()] *)
Definition init : t := reset.

Definition set_pet (v : PyVal) (self : t) : t :=
  {| b_pet := v; b_service_type := b_service_type self;
     b_veterinarian := b_veterinarian self; b_date_time := b_date_time self;
     b_clinic_branch := b_clinic_branch self; b_notes := b_notes self;
     b_status := b_status self |}.

Definition set_service (v : PyVal) (self : t) : t :=
  {| b_pet := b_pet self; b_service_type := v;
     b_veterinarian := b_veterinarian self; b_date_time := b_date_time self;
     b_clinic_branch := b_clinic_branch self; b_notes := b_notes self;
     b_status := b_status self |}.

Definition set_veterinarian (v : PyVal) (self : t) : t :=
  {| b_pet := b_pet self; b_service_type := b_service_type self;
     b_veterinarian := v; b_date_time := b_date_time self;
     b_clinic_branch := b_clinic_branch self; b_notes := b_notes self;
     b_status := b_status self |}.

Definition set_datetime (v : PyVal) (self : t) : t :=
  {| b_pet := b_pet self; b_service_type := b_service_type self;
     b_veterinarian := b_veterinarian self; b_date_time := v;
     b_clinic_branch := b_clinic_branch self; b_notes := b_notes self;
     b_status := b_status self |}.

Definition set_clinic_branch (v : PyVal) (self : t) : t :=
  {| b_pet := b_pet self; b_service_type := b_service_type self;
     b_veterinarian := b_veterinarian self; b_date_time := b_date_time self;
     b_clinic_branch := v; b_notes := b_notes self;
     b_status := b_status self |}.

Definition set_notes (v : PyVal) (self : t) : t :=
  {| b_pet := b_pet self; b_service_type := b_service_type self;
     b_veterinarian := b_veterinarian self; b_date_time := b_date_time self;
     b_clinic_branch := b_clinic_branch self; b_notes := v;
     b_status := b_status self |}.

Definition set_status (v : PyVal) (self : t) : t :=
  {| b_pet := b_pet self; b_service_type := b_service_type self;
     b_veterinarian := b_veterinarian self; b_date_time := b_date_time self;
     b_clinic_branch := b_clinic_branch self; b_notes := b_notes self;
     b_status := v |}.

(** [build] makes the instance first and resets the builder after: when
    [Appointment(...)] raises, the builder keeps what it held. *)
Definition build (self : t) : Result AppointmentInit * t :=
  match Appointment_init
          {| init_pet := b_pet self; init_service_type := b_service_type self;
             init_veterinarian := b_veterinarian self;
             init_date_time := b_date_time self;
             init_clinic_branch := b_clinic_branch self;
             init_notes := b_notes self; init_status := b_status self |}
  with
  | Ok appointment => (Ok appointment, reset)
  | Raise e => (Raise e, self)
  end.

(** The one-argument methods of the class, looked up by name as Python
    does on attribute access; a name the class does not define has no
    entry. *)
Definition setter (name : string) : option (PyVal -> t -> t) :=
  if String.eqb name "set_pet" then Some set_pet
  else if String.eqb name "set_service" then Some set_service
  else if String.eqb name "set_veterinarian" then Some set_veterinarian
  else if String.eqb name "set_datetime" then Some set_datetime
  else if String.eqb name "set_clinic_branch" then Some set_clinic_branch
  else if String.eqb name "set_notes" then Some set_notes
  else if String.eqb name "set_status" then Some set_status
  else None.

(** A call of one of the seven setters. *)
Inductive call :=
  | SetPet (v : PyVal)
  | SetService (v : PyVal)
  | SetVeterinarian (v : PyVal)
  | SetDatetime (v : PyVal)
  | SetClinicBranch (v : PyVal)
  | SetNotes (v : PyVal)
  | SetStatus (v : PyVal).



End AppointmentBuilder.

(* ===================================================================== *)
(** * The world: tables, mail, registered observers *)
(* ===================================================================== *)

(** The two observer classes of [patterns/observer.py]. An instance is
    told apart from another of the same class by its identity. *)
Inductive ObserverClass := EmailNotificationObserver | ReminderObserver.

Record Observer := { observer_oid : Z; observer_class : ObserverClass }.

(** The three observer classes of [patterns/vet_patterns/observer.py]. *)
Inductive VetObserverClass :=
  VetScheduleObserver | EmergencyAlertObserver | AppointmentReminderObserver.

Record VetObserver := { vet_observer_oid : Z; vet_observer_class : VetObserverClass }.

Global Instance ObserverClass_eq_dec : EqDecision ObserverClass.
Proof. solve_decision. Defined.
Global Instance Observer_eq_dec : EqDecision Observer.
Proof. solve_decision. Defined.
Global Instance VetObserverClass_eq_dec : EqDecision VetObserverClass.
Proof. solve_decision. Defined.
Global Instance VetObserver_eq_dec : EqDecision VetObserver.
Proof. solve_decision. Defined.

Record World := {
  (** table [Appointment], by primary key *)
  appointments : gmap Z Appointment;
  (** the next value of the table's key sequence *)
  next_pk : Z;
  (** table [AppointmentNotification], oldest row first *)
  notification_log : list AppointmentNotification;
  (** the mails handed to [send_mail], oldest first *)
  outbox : list Email;
  (** tables [Pet], [ServiceType], the user model, [ClinicBranch] *)
  pets : gmap Z Pet;
  service_types : gmap Z ServiceType;
  users : gmap Z CustomUser;
  clinic_branches : gmap Z ClinicBranch;
  (** [settings.DEFAULT_FROM_EMAIL] *)
  DEFAULT_FROM_EMAIL : string;
  (** [AppointmentSubject._observers] of [patterns/observer.py] *)
  subject_observers : list Observer;
  (** [AppointmentComponentFactory._observers] *)
  factory_observers : list VetObserver;
  (** [AppointmentDirector._builder] of the factory's director *)
  director_builder : AppointmentBuilder.t;
  (** the reading of [datetime.now()] *)
  clock : datetime
}.

Definition set_appointments (m : gmap Z Appointment) (w : World) : World :=
  {| appointments := m; next_pk := next_pk w;
     notification_log := notification_log w; outbox := outbox w;
     pets := pets w; service_types := service_types w; users := users w;
     clinic_branches := clinic_branches w;
     DEFAULT_FROM_EMAIL := DEFAULT_FROM_EMAIL w;
     subject_observers := subject_observers w;
     factory_observers := factory_observers w;
     director_builder := director_builder w; clock := clock w |}.

Definition set_next_pk (k : Z) (w : World) : World :=
  {| appointments := appointments w; next_pk := k;
     notification_log := notification_log w; outbox := outbox w;
     pets := pets w; service_types := service_types w; users := users w;
     clinic_branches := clinic_branches w;
     DEFAULT_FROM_EMAIL := DEFAULT_FROM_EMAIL w;
     subject_observers := subject_observers w;
     factory_observers := factory_observers w;
     director_builder := director_builder w; clock := clock w |}.

Definition set_notification_log (l : list AppointmentNotification) (w : World) : World :=
  {| appointments := appointments w; next_pk := next_pk w;
     notification_log := l; outbox := outbox w;
     pets := pets w; service_types := service_types w; users := users w;
     clinic_branches := clinic_branches w;
     DEFAULT_FROM_EMAIL := DEFAULT_FROM_EMAIL w;
     subject_observers := subject_observers w;
     factory_observers := factory_observers w;
     director_builder := director_builder w; clock := clock w |}.

Definition set_outbox (l : list Email) (w : World) : World :=
  {| appointments := appointments w; next_pk := next_pk w;
     notification_log := notification_log w; outbox := l;
     pets := pets w; service_types := service_types w; users := users w;
     clinic_branches := clinic_branches w;
     DEFAULT_FROM_EMAIL := DEFAULT_FROM_EMAIL w;
     subject_observers := subject_observers w;
     factory_observers := factory_observers w;
     director_builder := director_builder w; clock := clock w |}.

Definition set_subject_observers (l : list Observer) (w : World) : World :=
  {| appointments := appointments w; next_pk := next_pk w;
     notification_log := notification_log w; outbox := outbox w;
     pets := pets w; service_types := service_types w; users := users w;
     clinic_branches := clinic_branches w;
     DEFAULT_FROM_EMAIL := DEFAULT_FROM_EMAIL w;
     subject_observers := l;
     factory_observers := factory_observers w;
     director_builder := director_builder w; clock := clock w |}.

Definition set_factory_observers (l : list VetObserver) (w : World) : World :=
  {| appointments := appointments w; next_pk := next_pk w;
     notification_log := notification_log w; outbox := outbox w;
     pets := pets w; service_types := service_types w; users := users w;
     clinic_branches := clinic_branches w;
     DEFAULT_FROM_EMAIL := DEFAULT_FROM_EMAIL w;
     subject_observers := subject_observers w;
     factory_observers := l;
     director_builder := director_builder w; clock := clock w |}.

Definition set_director_builder (b : AppointmentBuilder.t) (w : World) : World :=
  {| appointments := appointments w; next_pk := next_pk w;
     notification_log := notification_log w; outbox := outbox w;
     pets := pets w; service_types := service_types w; users := users w;
     clinic_branches := clinic_branches w;
     DEFAULT_FROM_EMAIL := DEFAULT_FROM_EMAIL w;
     subject_observers := subject_observers w;
     factory_observers := factory_observers w;
     director_builder := b; clock := clock w |}.

(* ===================================================================== *)
(** * The monad of effects *)
(* ===================================================================== *)

Definition M (A : Type) : Type := World -> Result A * World.

Definition ret {A} (a : A) : M A := fun w => (Ok a, w).

Definition raise {A} (e : Exception) : M A := fun w => (Raise e, w).

Definition bind {A B} (m : M A) (k : A -> M B) : M B :=
  fun w =>
    match m w with
    | (Ok a, w') => k a w'
    | (Raise e, w') => (Raise e, w')
    end.

Notation "x <- m ;; k" := (bind m (fun x => k))
  (at level 100, m at next level, right associativity).
Notation "m ;;; k" := (bind m (fun _ => k))
  (at level 100, right associativity).

(** [try: body except <handled>: handler] *)
Definition try_except {A} (body : M A) (handled : Exception -> bool)
    (handler : Exception -> M A) : M A :=
  fun w =>
    match body w with
    | (Ok a, w') => (Ok a, w')
    | (Raise e, w') => if handled e then handler e w' else (Raise e, w')
    end.

Definition is_ObjectDoesNotExist (e : Exception) : bool :=
  match e with ObjectDoesNotExist => true | _ => false end.

Definition is_ValueError (e : Exception) : bool :=
  match e with ValueError _ => true | _ => false end.

(** Whether a run ended in a [ValueError]. *)
Definition raises_ValueError {A} (r : Result A) : bool :=
  match r with Raise e => is_ValueError e | Ok _ => false end.

Definition get_world : M World := fun w => (Ok w, w).

(** A result computed without the world, returned or raised. *)
Definition of_result {A} (r : Result A) : M A := fun w => (r, w).

Definition modify (f : World -> World) : M unit := fun w => (Ok tt, f w).

(** [for x in xs: body(x)] *)
Fixpoint for_each {A} (xs : list A) (body : A -> M unit) : M unit :=
  match xs with
  | [] => ret tt
  | x :: rest => body x ;;; for_each rest body
  end.

(* ===================================================================== *)
(** * The object-relational layer, as far as the code uses it *)
(* ===================================================================== *)

(** [send_mail(subject, message, settings.DEFAULT_FROM_EMAIL, recipients)] *)
Definition send_mail (subject : string) (message : MailText)
    (recipient_list : list string) : M unit :=
  fun w =>
    (Ok tt,
     set_outbox (outbox w ++
       [{| mail_subject := subject; mail_message := message;
           mail_from := DEFAULT_FROM_EMAIL w; mail_to := recipient_list |}]) w).

(** The rows of the appointment table. *)
Definition all_rows (w : World) : list Appointment :=
  snd <$> map_to_list (appointments w).

(** [Appointment.objects.get(id=...)] *)
Definition objects_get (appointment_id : Z) : M AppointmentObj :=
  fun w =>
    match appointments w !! appointment_id with
    | Some a => (Ok (loaded appointment_id a), w)
    | None => (Raise ObjectDoesNotExist, w)
    end.

(** [instance.save()] of an instance that has a primary key: all columns
    are written. *)
Definition save (o : AppointmentObj) : M unit :=
  modify (fun w => set_appointments (<[pk o := fields o]> (appointments w)) w).

(** Copy one named column from [src] into [dst]. *)
Definition write_column (src : Appointment) (dst : Appointment) (column : string)
    : Appointment :=
  if String.eqb column "pet" then
    {| pet := pet src; service_type := service_type dst;
       veterinarian := veterinarian dst; date_time := date_time dst;
       clinic_branch := clinic_branch dst; notes := notes dst;
       status := status dst |}
  else if String.eqb column "service_type" then
    {| pet := pet dst; service_type := service_type src;
       veterinarian := veterinarian dst; date_time := date_time dst;
       clinic_branch := clinic_branch dst; notes := notes dst;
       status := status dst |}
  else if String.eqb column "veterinarian" then with_veterinarian (veterinarian src) dst
  else if String.eqb column "date_time" then with_date_time (date_time src) dst
  else if String.eqb column "clinic_branch" then
    {| pet := pet dst; service_type := service_type dst;
       veterinarian := veterinarian dst; date_time := date_time dst;
       clinic_branch := clinic_branch src; notes := notes dst;
       status := status dst |}
  else if String.eqb column "notes" then with_notes (notes src) dst
  else if String.eqb column "status" then with_status (status src) dst
  else dst.

(** [instance.save(update_fields=[...])]: only the named columns of the
    stored row change; a row that is gone is an error. *)
Definition save_update_fields (update_fields : list string) (o : AppointmentObj)
    : M unit :=
  fun w =>
    match appointments w !! pk o with
    | Some stored =>
        (Ok tt,
         set_appointments
           (<[pk o := fold_left (write_column (fields o)) update_fields stored]>
              (appointments w)) w)
    | None => (Raise DatabaseError, w)
    end.

(** [instance.delete()]: the row goes, and with it the notification rows
    that point to it ([on_delete=CASCADE]). *)
Definition instance_delete (o : AppointmentObj) : M unit :=
  modify (fun w =>
    set_notification_log
      (filter (fun n => notification_appointment n <> pk o) (notification_log w))
      (set_appointments (delete (pk o) (appointments w)) w)).

Definition as_pet (v : PyVal) : option Pet :=
  match v with VPet p => Some p | _ => None end.
Definition as_user (v : PyVal) : option CustomUser :=
  match v with VUser u => Some u | _ => None end.
Definition as_datetime (v : PyVal) : option datetime :=
  match v with VDatetime t => Some t | _ => None end.
Definition as_branch (v : PyVal) : option ClinicBranch :=
  match v with VBranch b => Some b | _ => None end.
Definition as_str (v : PyVal) : option string :=
  match v with VStr s => Some s | _ => None end.
Definition as_service (v : PyVal) : option ServiceType :=
  match v with VService s => Some s | _ => None end.

(** The row an unsaved instance stands for, when every column has a value
    the column can hold (no column of the model is nullable). *)
Definition columns_of (i : AppointmentInit) : option Appointment :=
  p ← as_pet (init_pet i);
  s ← as_service (init_service_type i);
  v ← as_user (init_veterinarian i);
  t ← as_datetime (init_date_time i);
  b ← as_branch (init_clinic_branch i);
  n ← as_str (init_notes i);
  st ← as_str (init_status i);
  Some {| pet := p; service_type := s; veterinarian := v; date_time := t;
          clinic_branch := b; notes := n; status := st |}.

(** [instance.save()] of an unsaved instance: a new row under the next
    key. Nothing looks at the rows already there. *)
Definition insert_new (i : AppointmentInit) : M AppointmentObj :=
  fun w =>
    match columns_of i with
    | Some a =>
        (Ok (loaded (next_pk w) a),
         set_next_pk (next_pk w + 1)
           (set_appointments (<[next_pk w := a]> (appointments w)) w))
    | None => (Raise IntegrityError, w)
    end.

(** [Appointment.objects.create] with keyword arguments: the instance is made, then
    saved. *)
Definition objects_create (kwargs : AppointmentInit) : M AppointmentObj :=
  appointment <- of_result (Appointment_init kwargs) ;;
  insert_new appointment.

(** [AppointmentNotification.objects.create(...)] *)
Definition notification_create (n : AppointmentNotification) : M unit :=
  modify (fun w => set_notification_log (notification_log w ++ [n]) w).

(** The two orders the queries sort by. *)
Definition by_date_time (a b : Appointment) : Prop := date_time a <= date_time b.
Definition by_date_time_desc (a b : Appointment) : Prop := date_time b <= date_time a.

Global Instance by_date_time_dec : RelDecision by_date_time.
Proof. intros a b. unfold by_date_time. apply _. Defined.
Global Instance by_date_time_desc_dec : RelDecision by_date_time_desc.
Proof. intros a b. unfold by_date_time_desc. apply _. Defined.

(* ===================================================================== *)
(** * Slot loops *)
(* ===================================================================== *)

(** The loop both slot finders run:
<<
    while <continue>(current_slot):
        if <available>(current_slot): slots.append(current_slot)
        current_slot += step
    return slots
>>
    [fuel] bounds the number of tests of the loop condition; [None] means
    the loop was still running when the fuel ran out. *)
Fixpoint slot_loop (fuel : nat) (continue available : datetime -> bool)
    (step : timedelta) (current_slot : datetime) (slots : list datetime)
    : option (list datetime) :=
  match fuel with
  | O => None
  | S fuel' =>
      if continue current_slot then
        slot_loop fuel' continue available step (current_slot + step)
          (if available current_slot then slots ++ [current_slot] else slots)
      else Some slots
  end.

(* ===================================================================== *)
(** * patterns/repository.py *)
(* ===================================================================== *)

Module AppointmentRepository.

(** [Appointment.objects.filter(veterinarian=vet, date_time__date=date,
    status='confirmed').order_by('date_time')] *)
Definition existing_appointments (w : World) (vet : CustomUser) (d : date)
    : list Appointment :=
  merge_sort by_date_time
    (filter (fun a => user_id (veterinarian a) = user_id vet /\
                      date_of (date_time a) = d /\
                      status a = "confirmed")
            (all_rows w)).

(** The inner [for appt in existing_appointments] with its [break]. *)
Fixpoint is_available (duration : timedelta) (current_slot : datetime)
    (existing : list Appointment) : bool :=
  match existing with
  | [] => true
  | appt :: rest =>
      if (current_slot <? date_time appt + duration) &&
         (date_time appt <? current_slot + duration)
      then false
      else is_available duration current_slot rest
  end.

Definition get_available_slots (fuel : nat) (w : World) (vet : CustomUser)
    (d : date) (duration : timedelta) : option (list datetime) :=
  let existing := existing_appointments w vet d in
  let start_time := combine d (timedelta_hours 9) in
  let end_time := combine d (timedelta_hours 17) in
  slot_loop fuel
    (fun current_slot => current_slot + duration <=? end_time)
    (fun current_slot => is_available duration current_slot existing)
    duration start_time [].

(** The default of the [duration] parameter. *)
Definition default_duration : timedelta := timedelta_minutes 30.

End AppointmentRepository.

(* ===================================================================== *)
(** * patterns/vet_patterns/repository.py *)
(* ===================================================================== *)

Module DjangoAppointmentRepository.

Definition get_by_id (appointment_id : Z) : M (option AppointmentObj) :=
  try_except
    (appointment <- objects_get appointment_id ;; ret (Some appointment))
    is_ObjectDoesNotExist
    (fun _ => ret None).

(** [repository.save(appointment)] for an instance that has a key. *)
Definition save (appointment : AppointmentObj) : M AppointmentObj :=
  save appointment ;;; ret appointment.

(** [repository.save(appointment)] for an instance fresh from the builder. *)
Definition save_new (appointment : AppointmentInit) : M AppointmentObj :=
  insert_new appointment.

Definition delete (appointment_id : Z) : M bool :=
  try_except
    (appointment <- objects_get appointment_id ;;
     instance_delete appointment ;;;
     ret true)
    is_ObjectDoesNotExist
    (fun _ => ret false).

Definition update_status (appointment_id : Z) (new_status : string) : M bool :=
  try_except
    (appointment <- objects_get appointment_id ;;
     let appointment := with_fields (with_status new_status (fields appointment)) appointment in
     save_update_fields ["status"] appointment ;;;
     ret true)
    is_ObjectDoesNotExist
    (fun _ => ret false).

(** [Appointment.objects.filter(veterinarian_id=vet_id,
    date_time__range=(day_start, day_end)).values_list('date_time',
    flat=True)], in the model's default order (latest first). *)
Definition existing_appointments (w : World) (vet_id : Z)
    (day_start day_end : datetime) : list datetime :=
  date_time <$>
    merge_sort by_date_time_desc
      (filter (fun a => user_id (veterinarian a) = vet_id /\
                        day_start <= date_time a <= day_end)
              (all_rows w)).

Definition get_available_slots (fuel : nat) (w : World) (vet_id : Z)
    (d : datetime) : option (list datetime) :=
  let start_hour := 8 in
  let end_hour := 18 in
  let slot_duration := timedelta_minutes 30 in
  let day_start := replace_hour d start_hour in
  let day_end := replace_hour d end_hour in
  let existing := existing_appointments w vet_id day_start day_end in
  slot_loop fuel
    (fun current_slot => current_slot <? day_end)
    (fun current_slot => bool_decide (current_slot ∉ existing))
    slot_duration day_start [].

(** [get_conflicts]: the appointments that start within the range. *)
Definition get_conflicts (w : World) (vet_id : Z) (start_time end_time : datetime)
    : list Appointment :=
  merge_sort by_date_time
    (filter (fun a => user_id (veterinarian a) = vet_id /\
                      start_time <= date_time a <= end_time)
            (all_rows w)).

End DjangoAppointmentRepository.

(* ===================================================================== *)
(** * Strings *)
(* ===================================================================== *)

Definition is_lower (c : ascii) : bool :=
  let n := N_of_ascii c in ((97 <=? n) && (n <=? 122))%N.
Definition is_upper (c : ascii) : bool :=
  let n := N_of_ascii c in ((65 <=? n) && (n <=? 90))%N.
Definition to_upper (c : ascii) : ascii :=
  if is_lower c then ascii_of_N (N_of_ascii c - 32) else c.
Definition to_lower (c : ascii) : ascii :=
  if is_upper c then ascii_of_N (N_of_ascii c + 32) else c.

(** [str.title()] on ASCII text: a letter that follows a letter is put in
    lower case, any other letter in upper case. *)
Fixpoint title_from (after_letter : bool) (s : string) : string :=
  match s with
  | EmptyString => EmptyString
  | String c rest =>
      let letter := is_lower c || is_upper c in
      String (if letter then (if after_letter then to_lower c else to_upper c) else c)
             (title_from letter rest)
  end.
Definition title (s : string) : string := title_from false s.

(** [needle in haystack] for two strings. *)
Fixpoint contains (needle haystack : string) : bool :=
  String.prefix needle haystack ||
  match haystack with
  | EmptyString => false
  | String _ rest => contains needle rest
  end.

(* ===================================================================== *)
(** * patterns/observer.py *)
(* ===================================================================== *)

Module Observers.

(** [EmailNotificationObserver._get_message] *)
Definition get_message (appointment : AppointmentObj) : MailText :=
  let a := fields appointment in
  let vet := get_full_name (veterinarian a) in
  if String.eqb (status a) "confirmed" then MsgConfirmed vet (date_time a)
  else if String.eqb (status a) "cancelled" then MsgCancelled vet (date_time a)
  else if String.eqb (status a) "completed" then MsgCompleted vet
  else if String.eqb (status a) "pending" then MsgPending vet (date_time a)
  else MsgStatusUpdated.

(** [EmailNotificationObserver.update] *)
Definition email_update (appointment : AppointmentObj) : M unit :=
  let a := fields appointment in
  let subject := "Appointment Update - " +:+ title (status a) in
  let message := get_message appointment in
  let recipient_list := [email (owner (pet a))] in
  send_mail subject message recipient_list ;;;
  notification_create
    {| notification_appointment := pk appointment;
       notification_type :=
         if String.eqb (status a) "confirmed" then "confirmation" else "update";
       notification_message := message;
       is_sent := true |}.

(** [ReminderObserver.update] *)
Definition reminder_update (appointment : AppointmentObj) : M unit :=
  let a := fields appointment in
  if negb (String.eqb (status a) "confirmed") then ret tt
  else
    let message := MsgReminder (get_full_name (veterinarian a)) (date_time a) in
    notification_create
      {| notification_appointment := pk appointment;
         notification_type := "reminder";
         notification_message := message;
         is_sent := true |} ;;;
    send_mail "Appointment Reminder" message [email (owner (pet a))].

(** [observer.update(appointment)], dispatched on the observer's class. *)
Definition update (observer : Observer) (appointment : AppointmentObj) : M unit :=
  match observer_class observer with
  | EmailNotificationObserver => email_update appointment
  | ReminderObserver => reminder_update appointment
  end.

Module AppointmentSubject.

(** The list after [attach(observer)]. *)
Definition attached (observer : Observer) (observers : list Observer)
    : list Observer :=
  if bool_decide (observer ∈ observers) then observers
  else (observers ++ [observer])%list.

Definition attach (observer : Observer) : M unit :=
  modify (fun w => set_subject_observers (attached observer (subject_observers w)) w).

(** [list.remove]: the first equal element goes. *)
Fixpoint list_remove (observer : Observer) (observers : list Observer)
    : option (list Observer) :=
  match observers with
  | [] => None
  | o :: rest =>
      if bool_decide (o = observer) then Some rest
      else cons o <$> list_remove observer rest
  end.

Definition detach (observer : Observer) : M unit :=
  fun w =>
    match list_remove observer (subject_observers w) with
    | Some l => (Ok tt, set_subject_observers l w)
    | None => (Raise (ValueError "list.remove(x): x not in list"), w)
    end.

(** The loop of [notify] over a given list of observers. *)
Definition notify_each (observers : list Observer) (appointment : AppointmentObj)
    : M unit :=
  for_each observers (fun observer => update observer appointment).

Definition notify (appointment : AppointmentObj) : M unit :=
  w <- get_world ;;
  notify_each (subject_observers w) appointment.

End AppointmentSubject.

End Observers.

(* ===================================================================== *)
(** * patterns/vet_patterns/observer.py *)
(* ===================================================================== *)

Module VetObservers.

(** [VetScheduleObserver.update]; [changed_fields] is what
    [notify_observers] passes in that position, the name of the event. *)
Definition schedule_update (appointment : AppointmentObj) (changed_fields : string)
    : M unit :=
  let a := fields appointment in
  if negb (String.eqb changed_fields "") &&
     (contains "date_time" changed_fields || contains "status" changed_fields)
  then
    send_mail ("Appointment Update - " +:+ title (status a))
      (MsgVetUpdate (pet_name (pet a)) (get_full_name (owner (pet a)))
         (date_time a) (title (status a)))
      [email (veterinarian a)]
  else ret tt.

(** [EmergencyAlertObserver.update] reads [appointment.is_emergency],
    which the model class does not define. *)
Definition emergency_update (appointment : AppointmentObj) (changed_fields : string)
    : M unit :=
  raise (AttributeError "is_emergency").

(** [AppointmentReminderObserver.update]: scheduling a reminder is an
    empty method. *)
Definition reminder_update (appointment : AppointmentObj) (changed_fields : string)
    : M unit :=
  if String.eqb (status (fields appointment)) "confirmed" then ret tt else ret tt.

Definition update (observer : VetObserver) (appointment : AppointmentObj)
    (changed_fields : string) : M unit :=
  match vet_observer_class observer with
  | VetScheduleObserver => schedule_update appointment changed_fields
  | EmergencyAlertObserver => emergency_update appointment changed_fields
  | AppointmentReminderObserver => reminder_update appointment changed_fields
  end.

End VetObservers.

(* ===================================================================== *)
(** * patterns/vet_patterns/strategy.py *)
(* ===================================================================== *)

(** The keyword arguments the strategies read; [None] is a key that was not
    passed. *)
Record Kwargs := {
  kw_treatment_notes : option string;
  kw_diagnosis : option string;
  kw_follow_up_date : option datetime;
  kw_new_datetime : option datetime;
  kw_reason : option string;
  kw_notify_client : option bool;
  kw_notes : option string;
  kw_new_vet : option PyVal
}.

Definition no_kwargs : Kwargs :=
  {| kw_treatment_notes := None; kw_diagnosis := None; kw_follow_up_date := None;
     kw_new_datetime := None; kw_reason := None; kw_notify_client := None;
     kw_notes := None; kw_new_vet := None |}.

(** [builder.<name>(arg)]: the method is looked up by name. *)
Definition invoke (name : string) (arg : PyVal) (builder : AppointmentBuilder.t)
    : M AppointmentBuilder.t :=
  match AppointmentBuilder.setter name with
  | Some method => ret (method arg builder)
  | None => raise (AttributeError name)
  end.

Module CompleteAppointmentStrategy.

Definition schedule_follow_up (original_appointment : AppointmentObj)
    (follow_up_date : datetime) : M unit :=
  let original := fields original_appointment in
  let builder := AppointmentBuilder.init in
  b <- invoke "set_pet" (VPet (pet original)) builder ;;
  b <- invoke "set_veterinarian" (VUser (veterinarian original)) b ;;
  b <- invoke "set_service_type" (VService (service_type original)) b ;;
  b <- invoke "set_clinic_branch" (VBranch (clinic_branch original)) b ;;
  b <- invoke "set_datetime" (VDatetime follow_up_date) b ;;
  b <- invoke "set_notes" (VStr "Follow-up appointment") b ;;
  b <- invoke "set_status" (VStr "pending") b ;;
  follow_up <- of_result (fst (AppointmentBuilder.build b)) ;;
  _ <- insert_new follow_up ;;
  ret tt.

Definition execute (appointment : AppointmentObj) (kwargs : Kwargs)
    : M AppointmentObj :=
  let treatment_notes := default "" (kw_treatment_notes kwargs) in
  let diagnosis := default "" (kw_diagnosis kwargs) in
  let follow_up_date := kw_follow_up_date kwargs in
  let appointment :=
    {| pk := pk appointment;
       fields := with_status "completed" (fields appointment);
       treatment_notes := Some treatment_notes;
       diagnosis := Some diagnosis;
       follow_up_date := follow_up_date;
       cancellation_reason := cancellation_reason appointment |} in
  save appointment ;;;
  match follow_up_date with
  | Some d => schedule_follow_up appointment d
  | None => ret tt
  end ;;;
  ret appointment.

End CompleteAppointmentStrategy.

Module RescheduleStrategy.

Definition notify_rescheduled (appointment : AppointmentObj)
    (old_datetime new_datetime : datetime) (reason : string) : M unit :=
  let a := fields appointment in
  send_mail "Appointment Rescheduled"
    (MsgRescheduled old_datetime new_datetime reason (pet_name (pet a))
       (get_full_name (veterinarian a)))
    [email (owner (pet a))].

Definition execute (appointment : AppointmentObj) (kwargs : Kwargs)
    : M AppointmentObj :=
  let reason := default "" (kw_reason kwargs) in
  match kw_new_datetime kwargs with
  | None => raise (ValueError "New datetime is required for rescheduling")
  | Some new_datetime =>
      let old_datetime := date_time (fields appointment) in
      let appointment :=
        with_fields (with_date_time new_datetime (fields appointment)) appointment in
      save_update_fields ["date_time"] appointment ;;;
      notify_rescheduled appointment old_datetime new_datetime reason ;;;
      ret appointment
  end.

End RescheduleStrategy.

Module CancellationStrategy.

Definition notify_cancellation (appointment : AppointmentObj) (reason : string)
    : M unit :=
  let a := fields appointment in
  send_mail "Appointment Cancelled"
    (MsgCancellation (date_time a) (pet_name (pet a))
       (get_full_name (veterinarian a)) reason)
    [email (owner (pet a))].

Definition execute (appointment : AppointmentObj) (kwargs : Kwargs)
    : M AppointmentObj :=
  let reason := default "" (kw_reason kwargs) in
  let notify_client := default true (kw_notify_client kwargs) in
  let appointment :=
    {| pk := pk appointment;
       fields := with_status "cancelled" (fields appointment);
       treatment_notes := treatment_notes appointment;
       diagnosis := diagnosis appointment;
       follow_up_date := follow_up_date appointment;
       cancellation_reason := Some reason |} in
  save appointment ;;;
  (if notify_client then notify_cancellation appointment reason else ret tt) ;;;
  ret appointment.

End CancellationStrategy.

Module NoShowStrategy.

(** [_record_no_show] is an empty method. *)
Definition record_no_show (appointment : AppointmentObj) : M unit := ret tt.

Definition notify_no_show (appointment : AppointmentObj) : M unit :=
  let a := fields appointment in
  send_mail "Missed Appointment Notice"
    (MsgNoShow (date_time a) (pet_name (pet a)) (get_full_name (veterinarian a)))
    [email (owner (pet a))].

Definition execute (appointment : AppointmentObj) (kwargs : Kwargs)
    : M AppointmentObj :=
  let notes := default "" (kw_notes kwargs) in
  let appointment :=
    with_fields
      (with_notes ("No-show: " +:+ notes)
         (with_status "no_show" (fields appointment)))
      appointment in
  save appointment ;;;
  record_no_show appointment ;;;
  notify_no_show appointment ;;;
  ret appointment.

End NoShowStrategy.

Module ReferralStrategy.

Definition notify_referral (appointment : AppointmentObj)
    (old_vet new_vet : CustomUser) (reason : string) : M unit :=
  let a := fields appointment in
  send_mail "Appointment Referral"
    (MsgReferral (get_full_name old_vet) (pet_name (pet a))
       (get_full_name (owner (pet a))) (date_time a) reason (notes a))
    [email new_vet].

Definition execute (appointment : AppointmentObj) (kwargs : Kwargs)
    : M AppointmentObj :=
  let reason := default "" (kw_reason kwargs) in
  let notes := default "" (kw_notes kwargs) in
  let new_vet := default VNone (kw_new_vet kwargs) in
  if negb (truthy new_vet) then
    raise (ValueError "New veterinarian is required for referral")
  else
    let old_vet := veterinarian (fields appointment) in
    (* [appointment.veterinarian = new_vet]: the foreign key takes a user
       account and refuses any other value that is not [None] *)
    match as_user new_vet with
    | None => raise (ValueError "Cannot assign to Appointment.veterinarian")
    | Some new_vet =>
        let appointment :=
          with_fields
            (with_notes ("Referred by Dr. " +:+ get_full_name old_vet +:+ ": " +:+ notes)
               (with_veterinarian new_vet (fields appointment)))
            appointment in
        save appointment ;;;
        notify_referral appointment old_vet new_vet reason ;;;
        ret appointment
    end.

End ReferralStrategy.

(* ===================================================================== *)
(** * patterns/vet_patterns/appointment_director.py *)
(* ===================================================================== *)

Module AppointmentDirector.

(** One call [self._builder.<name>(arg)]: the director's builder is
    changed in place. *)
Definition call (name : string) (arg : PyVal) : M unit :=
  w <- get_world ;;
  b <- invoke name arg (director_builder w) ;;
  modify (set_director_builder b).

(** [self._builder.build()] *)
Definition build : M AppointmentInit :=
  w <- get_world ;;
  let built := AppointmentBuilder.build (director_builder w) in
  modify (set_director_builder (snd built)) ;;;
  of_result (fst built).

(** [str(d)] of a date; dates are written as their day number here. *)
Definition str_date (d : date) : string := pretty d.

Definition create_regular_checkup (p : Pet) (vet : CustomUser)
    (branch : ClinicBranch) (when : datetime) : M AppointmentInit :=
  call "set_pet" (VPet p) ;;;
  call "set_service" (VStr "regular_checkup") ;;;
  call "set_veterinarian" (VUser vet) ;;;
  call "set_datetime" (VDatetime when) ;;;
  call "set_clinic_branch" (VBranch branch) ;;;
  call "set_notes" (VStr "Regular health checkup") ;;;
  call "set_status" (VStr "pending") ;;;
  build.

(** [from ...models import Veterinarian], the first statement of the two
    methods below. The module it names is [appoinments/models.py], which
    defines no [Veterinarian] (the class lives in [accounts/models.py]), so
    the statement raises and there is nothing it could bind the name to. *)
Definition import_Veterinarian : M Empty_set :=
  raise (ImportError "Veterinarian").

(** [_find_available_emergency_vet]: the query on the imported class is
    never reached. *)
Definition find_available_emergency_vet (branch : ClinicBranch)
    : M (option CustomUser) :=
  Veterinarian_class <- import_Veterinarian ;;
  match Veterinarian_class with end.

Definition create_emergency_appointment (p : Pet) (branch : ClinicBranch)
    (description : string) : M AppointmentInit :=
  _ <- import_Veterinarian ;;
  available_vet <- find_available_emergency_vet branch ;;
  match available_vet with
  | None => raise (ValidationError "No veterinarians available for emergency")
  | Some vet =>
      w <- get_world ;;
      call "set_pet" (VPet p) ;;;
      call "set_service" (VStr "emergency") ;;;
      call "set_veterinarian" (VUser vet) ;;;
      call "set_datetime" (VDatetime (clock w)) ;;;
      call "set_clinic_branch" (VBranch branch) ;;;
      call "set_notes" (VStr ("Emergency: " +:+ description)) ;;;
      call "set_status" (VStr "urgent") ;;;
      build
  end.

Definition create_follow_up (original_appointment : AppointmentObj)
    (follow_up_date : datetime) : M AppointmentInit :=
  let original := fields original_appointment in
  call "set_pet" (VPet (pet original)) ;;;
  call "set_service" (VStr "follow_up") ;;;
  call "set_veterinarian" (VUser (veterinarian original)) ;;;
  call "set_datetime" (VDatetime follow_up_date) ;;;
  call "set_clinic_branch" (VBranch (clinic_branch original)) ;;;
  call "set_notes"
    (VStr ("Follow-up for appointment from " +:+
           str_date (date_of (date_time original)))) ;;;
  call "set_status" (VStr "pending") ;;;
  build.

Definition create_vaccination (p : Pet) (vet : CustomUser) (branch : ClinicBranch)
    (vaccine_type : string) (when : datetime) : M AppointmentInit :=
  call "set_pet" (VPet p) ;;;
  call "set_service" (VStr "vaccination") ;;;
  call "set_veterinarian" (VUser vet) ;;;
  call "set_datetime" (VDatetime when) ;;;
  call "set_clinic_branch" (VBranch branch) ;;;
  call "set_notes" (VStr ("Vaccination: " +:+ vaccine_type)) ;;;
  call "set_status" (VStr "pending") ;;;
  build.

Definition create_surgery (p : Pet) (vet : CustomUser) (branch : ClinicBranch)
    (surgery_type : string) (when : datetime) (pre_op_notes : string)
    : M AppointmentInit :=
  let notes :=
    "Surgery Type: " +:+ surgery_type +:+
    String "010"%char "Pre-op Notes: " +:+ pre_op_notes in
  call "set_pet" (VPet p) ;;;
  call "set_service" (VStr "surgery") ;;;
  call "set_veterinarian" (VUser vet) ;;;
  call "set_datetime" (VDatetime when) ;;;
  call "set_clinic_branch" (VBranch branch) ;;;
  call "set_notes" (VStr notes) ;;;
  call "set_status" (VStr "scheduled") ;;;
  build.

End AppointmentDirector.

(* ===================================================================== *)
(** * patterns/vet_patterns/factory.py *)
(* ===================================================================== *)

Inductive Strategy :=
  | CompleteAppointment
  | Reschedule
  | Cancellation
  | NoShow
  | Referral.

Module AppointmentComponentFactory.

(** The class attribute [_strategies]. *)
Definition strategies : gmap string Strategy :=
  <["complete" := CompleteAppointment]>
    (<["reschedule" := Reschedule]>
       (<["cancel" := Cancellation]>
          (<["no_show" := NoShow]>
             (<["refer" := Referral]> ∅)))).

Definition get_strategy (strategy_type : string) : M Strategy :=
  match strategies !! strategy_type with
  | Some strategy_class => ret strategy_class
  | None => raise (ValueError ("Unknown strategy type: " +:+ strategy_type))
  end.

Definition register_observer (observer : VetObserver) : M unit :=
  modify (fun w =>
    if bool_decide (observer ∈ factory_observers w) then w
    else set_factory_observers (factory_observers w ++ [observer]) w).

(** [self._observers.remove(observer)], guarded by the membership test. *)
Fixpoint remove_first (observer : VetObserver) (observers : list VetObserver)
    : list VetObserver :=
  match observers with
  | [] => []
  | o :: rest =>
      if bool_decide (o = observer) then rest
      else o :: remove_first observer rest
  end.

Definition unregister_observer (observer : VetObserver) : M unit :=
  modify (fun w =>
    if bool_decide (observer ∈ factory_observers w)
    then set_factory_observers (remove_first observer (factory_observers w)) w
    else w).

Definition notify_observers (appointment : AppointmentObj) (event_type : string)
    : M unit :=
  w <- get_world ;;
  for_each (factory_observers w)
    (fun observer => VetObservers.update observer appointment event_type).

End AppointmentComponentFactory.

(** [strategy.execute(appointment, **kwargs)] for an instance of the class. *)
Definition execute (strategy : Strategy) (appointment : AppointmentObj)
    (kwargs : Kwargs) : M AppointmentObj :=
  match strategy with
  | CompleteAppointment => CompleteAppointmentStrategy.execute appointment kwargs
  | Reschedule => RescheduleStrategy.execute appointment kwargs
  | Cancellation => CancellationStrategy.execute appointment kwargs
  | NoShow => NoShowStrategy.execute appointment kwargs
  | Referral => ReferralStrategy.execute appointment kwargs
  end.

(** The keyword arguments [create_appointment] reads. *)
Record CreateKwargs := {
  ck_pet : option Pet;
  ck_vet : option CustomUser;
  ck_clinic_branch : option ClinicBranch;
  ck_date_time : option datetime;
  ck_description : option string;
  ck_original_appointment : option AppointmentObj;
  ck_follow_up_date : option datetime;
  ck_vaccine_type : option string;
  ck_surgery_type : option string;
  ck_pre_op_notes : option string
}.

(** [kwargs[key]] *)
Definition item {A} (key : string) (value : option A) : M A :=
  match value with
  | Some a => ret a
  | None => raise (KeyError key)
  end.

Module AppointmentService.

Definition create_appointment (appointment_type : string) (kwargs : CreateKwargs)
    : M AppointmentObj :=
  appointment <-
    (if String.eqb appointment_type "regular" then
       p <- item "pet" (ck_pet kwargs) ;;
       vet <- item "vet" (ck_vet kwargs) ;;
       branch <- item "clinic_branch" (ck_clinic_branch kwargs) ;;
       when <- item "date_time" (ck_date_time kwargs) ;;
       AppointmentDirector.create_regular_checkup p vet branch when
     else if String.eqb appointment_type "emergency" then
       p <- item "pet" (ck_pet kwargs) ;;
       branch <- item "clinic_branch" (ck_clinic_branch kwargs) ;;
       description <- item "description" (ck_description kwargs) ;;
       AppointmentDirector.create_emergency_appointment p branch description
     else if String.eqb appointment_type "follow_up" then
       original <- item "original_appointment" (ck_original_appointment kwargs) ;;
       when <- item "follow_up_date" (ck_follow_up_date kwargs) ;;
       AppointmentDirector.create_follow_up original when
     else if String.eqb appointment_type "vaccination" then
       p <- item "pet" (ck_pet kwargs) ;;
       vet <- item "vet" (ck_vet kwargs) ;;
       branch <- item "clinic_branch" (ck_clinic_branch kwargs) ;;
       vaccine_type <- item "vaccine_type" (ck_vaccine_type kwargs) ;;
       when <- item "date_time" (ck_date_time kwargs) ;;
       AppointmentDirector.create_vaccination p vet branch vaccine_type when
     else if String.eqb appointment_type "surgery" then
       p <- item "pet" (ck_pet kwargs) ;;
       vet <- item "vet" (ck_vet kwargs) ;;
       branch <- item "clinic_branch" (ck_clinic_branch kwargs) ;;
       surgery_type <- item "surgery_type" (ck_surgery_type kwargs) ;;
       when <- item "date_time" (ck_date_time kwargs) ;;
       AppointmentDirector.create_surgery p vet branch surgery_type when
         (default "" (ck_pre_op_notes kwargs))
     else raise (ValueError ("Unknown appointment type: " +:+ appointment_type))) ;;
  saved_appointment <- DjangoAppointmentRepository.save_new appointment ;;
  AppointmentComponentFactory.notify_observers saved_appointment "created" ;;;
  ret saved_appointment.

Definition process_appointment (appointment_id : Z) (action : string)
    (kwargs : Kwargs) : M AppointmentObj :=
  found <- DjangoAppointmentRepository.get_by_id appointment_id ;;
  match found with
  | None => raise (ValueError ("Appointment not found: " +:+ pretty appointment_id))
  | Some appointment =>
      strategy <- AppointmentComponentFactory.get_strategy action ;;
      appointment <- execute strategy appointment kwargs ;;
      saved_appointment <- DjangoAppointmentRepository.save appointment ;;
      AppointmentComponentFactory.notify_observers saved_appointment action ;;;
      ret saved_appointment
  end.

End AppointmentService.

(* ===================================================================== *)
(** * patterns/factory.py *)
(* ===================================================================== *)

Inductive AppointmentFactory :=
  | GeneralCheckupFactory
  | VaccinationFactory
  | SurgeryFactory
  | GroomingFactory.

Definition factories : gmap string AppointmentFactory :=
  <["General Checkup" := GeneralCheckupFactory]>
    (<["Vaccination" := VaccinationFactory]>
       (<["Surgery" := SurgeryFactory]>
          (<["Grooming" := GroomingFactory]> ∅))).

(** [factories.get(service_type)]: [None] for a name without a factory. *)
Definition get_appointment_factory (service_type : string)
    : option AppointmentFactory :=
  factories !! service_type.

(** [factory.create_appointment(...)]: each of the four classes hands its
    keyword arguments to [Appointment.objects.create]. *)
Definition factory_create_appointment (factory : AppointmentFactory)
    (kwargs : AppointmentInit) : M AppointmentObj :=
  match factory with
  | GeneralCheckupFactory => objects_create kwargs
  | VaccinationFactory => objects_create kwargs
  | SurgeryFactory => objects_create kwargs
  | GroomingFactory => objects_create kwargs
  end.

(* ===================================================================== *)
(** * views/appointment_views.py *)
(* ===================================================================== *)

(** The parts of a request [book_appointment] reads. The text of
    [date_time] is kept as what [strptime] makes of it: [None] when it does
    not match ['%Y-%m-%d %H:%M']. *)
Record Request := {
  method : string;
  post_pet : Z;
  post_service_type : Z;
  post_veterinarian : Z;
  post_date_time : option datetime;
  post_clinic_branch : Z;
  post_notes : option string
}.

Inductive Response :=
  | RedirectToSummary (appointment_id : Z)     (* with the success message *)
  | RedirectToBooking (error : Exception)      (* with the error message *)
  | RenderBookingForm.

(** [get_object_or_404(Model, id=...)] on one of the tables. *)
Definition get_object_or_404 {A} (table : World -> gmap Z A) (key : Z) : M A :=
  fun w =>
    match table w !! key with
    | Some row => (Ok row, w)
    | None => (Raise Http404, w)
    end.

Definition strptime (parsed : option datetime) : M datetime :=
  match parsed with
  | Some t => ret t
  | None => raise (ValueError "time data does not match format")
  end.

(** [appointment.service_type.name] *)
Definition service_type_name (v : PyVal) : M string :=
  match v with
  | VService s => ret (service_name s)
  | _ => raise (AttributeError "name")
  end.

Definition book_appointment (request : Request) : M Response :=
  if String.eqb (method request) "POST" then
    try_except
      (let builder := AppointmentBuilder.init in
       p <- get_object_or_404 pets (post_pet request) ;;
       b <- invoke "set_pet" (VPet p) builder ;;
       s <- get_object_or_404 service_types (post_service_type request) ;;
       b <- invoke "set_service" (VService s) b ;;
       v <- get_object_or_404 users (post_veterinarian request) ;;
       b <- invoke "set_veterinarian" (VUser v) b ;;
       t <- strptime (post_date_time request) ;;
       b <- invoke "set_datetime" (VDatetime t) b ;;
       c <- get_object_or_404 clinic_branches (post_clinic_branch request) ;;
       b <- invoke "set_clinic_branch" (VBranch c) b ;;
       b <- invoke "set_notes" (VStr (default "" (post_notes request))) b ;;
       appointment <- of_result (fst (AppointmentBuilder.build b)) ;;
       name <- service_type_name (init_service_type appointment) ;;
       let factory := get_appointment_factory name in
       let appointment_data :=
         {| init_pet := init_pet appointment;
            init_service_type := init_service_type appointment;
            init_veterinarian := init_veterinarian appointment;
            init_date_time := init_date_time appointment;
            init_clinic_branch := init_clinic_branch appointment;
            init_notes := init_notes appointment;
            init_status := VStr "scheduled" |} in
       appointment <-
         match factory with
         | Some f => factory_create_appointment f appointment_data
         | None => raise (AttributeError "create_appointment")
         end ;;
       Observers.AppointmentSubject.notify appointment ;;;
       ret (RedirectToSummary (pk appointment)))
      (fun _ => true)
      (fun e => ret (RedirectToBooking e))
  else ret RenderBookingForm.

(* ===================================================================== *)
(** * The list queries of the two repositories *)
(* ===================================================================== *)

(** The instances of all rows, each with its key. *)
Definition all_objects (w : World) : list AppointmentObj :=
  (fun kv => loaded (fst kv) (snd kv)) <$> map_to_list (appointments w).

Definition obj_by_date_time (a b : AppointmentObj) : Prop :=
  date_time (fields a) <= date_time (fields b).
Definition obj_by_date_time_desc (a b : AppointmentObj) : Prop :=
  date_time (fields b) <= date_time (fields a).

Global Instance obj_by_date_time_dec : RelDecision obj_by_date_time.
Proof. intros a b. unfold obj_by_date_time. apply _. Defined.
Global Instance obj_by_date_time_desc_dec : RelDecision obj_by_date_time_desc.
Proof. intros a b. unfold obj_by_date_time_desc. apply _. Defined.

(** [s.lower()] on ASCII text. *)
Fixpoint lower (s : string) : string :=
  match s with
  | EmptyString => EmptyString
  | String c rest => String (to_lower c) (lower rest)
  end.

(** [service_type__name__icontains=needle], for a needle in lower case. *)
Definition service_name_icontains (needle : string) (s : ServiceType) : bool :=
  contains needle (lower (service_name s)).

(** [queryset[:limit]] behind [if limit:]; [None] and [0] both mean no
    limit. Negative limits, which the query layer refuses, are outside the
    type. *)
Definition limited {A} (limit : option nat) (l : list A) : list A :=
  match limit with
  | Some (S n) => take (S n) l
  | _ => l
  end.

(** The list queries of [AppointmentRepository] in [patterns/repository.py]. *)
Module ClientQueries.

Definition get_upcoming_appointments (w : World) (user : CustomUser)
    (limit : option nat) : list AppointmentObj :=
  let now := clock w in
  limited limit
    (merge_sort obj_by_date_time
       (filter (fun o =>
                  (user_id (owner (pet (fields o))) = user_id user \/
                   user_id (veterinarian (fields o)) = user_id user) /\
                  now <= date_time (fields o) /\
                  status (fields o) ∈ ["pending"; "confirmed"])
               (all_objects w))).

Definition get_appointment_history (w : World) (user : CustomUser)
    (limit : option nat) : list AppointmentObj :=
  let now := clock w in
  limited limit
    (merge_sort obj_by_date_time_desc
       (filter (fun o =>
                  (user_id (owner (pet (fields o))) = user_id user \/
                   user_id (veterinarian (fields o)) = user_id user) /\
                  date_time (fields o) < now)
               (all_objects w))).

End ClientQueries.

(** The list queries of [DjangoAppointmentRepository] in
    [patterns/vet_patterns/repository.py]. *)
Module DjangoQueries.

Definition get_all_by_vet (w : World) (vet_id : Z) (start_date end_date : datetime)
    : list AppointmentObj :=
  merge_sort obj_by_date_time
    (filter (fun o => user_id (veterinarian (fields o)) = vet_id /\
                      start_date <= date_time (fields o) <= end_date)
            (all_objects w)).

Definition get_all_by_pet (w : World) (pid : Z) : list AppointmentObj :=
  merge_sort obj_by_date_time_desc
    (filter (fun o => pet_id (pet (fields o)) = pid) (all_objects w)).

Definition get_upcoming_appointments (w : World) (vet_id : Z) : list AppointmentObj :=
  let now := clock w in
  merge_sort obj_by_date_time
    (filter (fun o => user_id (veterinarian (fields o)) = vet_id /\
                      now <= date_time (fields o))
            (all_objects w)).

Definition get_emergency_appointments (w : World) (clinic_branch_id : Z)
    : list AppointmentObj :=
  merge_sort obj_by_date_time
    (filter (fun o =>
               branch_id (clinic_branch (fields o)) = clinic_branch_id /\
               service_name_icontains "emergency" (service_type (fields o)) = true /\
               status (fields o) ∈ ["pending"; "confirmed"])
            (all_objects w)).

Definition get_overdue_appointments (w : World) (vet_id : Z) : list AppointmentObj :=
  let now := clock w in
  merge_sort obj_by_date_time
    (filter (fun o => user_id (veterinarian (fields o)) = vet_id /\
                      date_time (fields o) < now /\
                      status (fields o) = "pending")
            (all_objects w)).

Definition get_appointments_by_status (w : World) (vet_id : Z) (wanted : string)
    : list AppointmentObj :=
  merge_sort obj_by_date_time
    (filter (fun o => user_id (veterinarian (fields o)) = vet_id /\
                      status (fields o) = wanted)
            (all_objects w)).

End DjangoQueries.


(* ===================================================================== *)
(** * views/appointment_views.py: rescheduling and cancelling *)
(* ===================================================================== *)

(** The parts of a request the two views read. The text of [date_time] is
    kept as what [strptime] makes of it with ['%Y-%m-%dT%H:%M']: [None]
    when the field is missing or does not match, in which case [strptime]
    raises. The user is logged in. *)
Record ChangeRequest := {
  change_method : string;
  change_date_time : option datetime
}.

Inductive ChangeResponse :=
  | RedirectToSummaryOf (appointment_id : Z)      (* with the success message *)
  | RenderRescheduleForm (appointment : AppointmentObj) (error_shown : bool)
  | RedirectToList                                (* with the success message *)
  | MethodNotAllowed.


(** [cancel_appointment], behind [require_POST]. *)
Definition cancel_appointment (request : ChangeRequest) (appointment_id : Z)
    : M ChangeResponse :=
  if negb (String.eqb (change_method request) "POST") then ret MethodNotAllowed
  else
    row <- get_object_or_404 appointments appointment_id ;;
    let appointment := loaded appointment_id row in
    let appointment := with_fields (with_status "cancelled" (fields appointment)) appointment in
    save appointment ;;;
    Observers.AppointmentSubject.notify appointment ;;;
    ret RedirectToList.


(* ===================================================================== *)
(** * Vocabulary of the statements *)
(* ===================================================================== *)


(** [v] is [None] or an instance of the class [is_instance] recognises. *)
Definition none_or (is_instance : PyVal -> bool) (v : PyVal) : bool :=
  match v with VNone => true | _ => is_instance v end.

(** Every foreign-key entry of the builder is [None] or an instance of the
    model the key points to. *)
Definition buildable (b : AppointmentBuilder.t) : bool :=
  none_or is_pet (AppointmentBuilder.b_pet b) &&
  none_or is_service (AppointmentBuilder.b_service_type b) &&
  none_or is_user (AppointmentBuilder.b_veterinarian b) &&
  none_or is_branch (AppointmentBuilder.b_clinic_branch b).

(** A builder holding the given seven entries. *)
Definition held (pet service_type veterinarian date_time clinic_branch notes
    status : PyVal) : AppointmentBuilder.t :=
  {| AppointmentBuilder.b_pet := pet;
     AppointmentBuilder.b_service_type := service_type;
     AppointmentBuilder.b_veterinarian := veterinarian;
     AppointmentBuilder.b_date_time := date_time;
     AppointmentBuilder.b_clinic_branch := clinic_branch;
     AppointmentBuilder.b_notes := notes;
     AppointmentBuilder.b_status := status |}.

(** The values a builder holds, as the instance [build] makes of them. *)
Definition collected (b : AppointmentBuilder.t) : AppointmentInit :=
  {| init_pet := AppointmentBuilder.b_pet b;
     init_service_type := AppointmentBuilder.b_service_type b;
     init_veterinarian := AppointmentBuilder.b_veterinarian b;
     init_date_time := AppointmentBuilder.b_date_time b;
     init_clinic_branch := AppointmentBuilder.b_clinic_branch b;
     init_notes := AppointmentBuilder.b_notes b;
     init_status := AppointmentBuilder.b_status b |}.

(** The candidate start times [start], [start + step], ... ([n] of them). *)
Fixpoint grid (start : datetime) (step : timedelta) (n : nat) : list datetime :=
  match n with
  | O => []
  | S n' => start :: grid (start + step) step n'
  end.

(** How many candidates starting at [start] do not exceed [bound]. *)
Definition slot_count (bound start : datetime) (step : timedelta) : nat :=
  Z.to_nat ((bound - start) / step + 1).

(** The interval of a slot starting at [t] and the interval of an
    appointment starting at [s], both of length [duration], overlap. *)
Definition overlaps (duration : timedelta) (t s : datetime) : Prop :=
  t < s + duration /\ s < t + duration.

(** How many of the given tests hold. *)
Definition count_true (tests : list bool) : nat :=
  length (filter (fun b => b = true) tests).

(** The world after some mails were sent and some notification rows were
    written, everything else as before. *)
Definition adds (mails : list Email) (logs : list AppointmentNotification)
    (w : World) : World :=
  set_notification_log (notification_log w ++ logs)
    (set_outbox (outbox w ++ mails) w).

(** The mail and the notification row of [EmailNotificationObserver.update]. *)
Definition update_mail (appointment : AppointmentObj) (w : World) : Email :=
  {| mail_subject := "Appointment Update - " +:+ title (status (fields appointment));
     mail_message := Observers.get_message appointment;
     mail_from := DEFAULT_FROM_EMAIL w;
     mail_to := [email (owner (pet (fields appointment)))] |}.

Definition update_log (appointment : AppointmentObj) : AppointmentNotification :=
  {| notification_appointment := pk appointment;
     notification_type :=
       if String.eqb (status (fields appointment)) "confirmed"
       then "confirmation" else "update";
     notification_message := Observers.get_message appointment;
     is_sent := true |}.

(** The action names [process_appointment] knows. *)
Definition ACTIONS : list string :=
  ["complete"; "reschedule"; "cancel"; "no_show"; "refer"].

(** No registered observer of the factory is an [EmergencyAlertObserver]. *)
Definition no_emergency_observer (w : World) : Prop :=
  Forall (fun o => vet_observer_class o <> EmergencyAlertObserver) (factory_observers w).

(** Every key in use lies below the next key of the sequence. *)
Definition keys_below_next (w : World) : Prop :=
  forall k, is_Some (appointments w !! k) -> k < next_pk w.

(** What [process_appointment] does once the appointment and the strategy
    are found. *)
Definition run_strategy (s : Strategy) (appointment : AppointmentObj)
    (action : string) (kwargs : Kwargs) : M AppointmentObj :=
  appointment <- execute s appointment kwargs ;;
  saved_appointment <- DjangoAppointmentRepository.save appointment ;;
  AppointmentComponentFactory.notify_observers saved_appointment action ;;;
  ret saved_appointment.

(** The row [book_appointment] writes. *)
Definition booked_row (p : Pet) (s : ServiceType) (v : CustomUser) (t : datetime)
    (c : ClinicBranch) (n : string) : Appointment :=
  {| pet := p; service_type := s; veterinarian := v; date_time := t;
     clinic_branch := c; notes := n; status := "scheduled" |}.

(** A computation that, from a world whose keys lie below the next key,
    leaves every appointment row that was there in place and untouched. *)
Definition keeps_rows {A} (m : M A) : Prop :=
  forall w, keys_below_next w ->
    keys_below_next (snd (m w)) /\
    forall k a, appointments w !! k = Some a ->
                appointments (snd (m w)) !! k = Some a.

(** The mail of [CancellationStrategy._notify_cancellation]. *)
Definition cancellation_mail (a : Appointment) (reason : string) (w : World) : Email :=
  {| mail_subject := "Appointment Cancelled";
     mail_message := MsgCancellation (date_time a) (pet_name (pet a))
                       (get_full_name (veterinarian a)) reason;
     mail_from := DEFAULT_FROM_EMAIL w;
     mail_to := [email (owner (pet a))] |}.

(** The mail of [NoShowStrategy._notify_no_show]. *)
Definition no_show_mail (a : Appointment) (w : World) : Email :=
  {| mail_subject := "Missed Appointment Notice";
     mail_message := MsgNoShow (date_time a) (pet_name (pet a))
                       (get_full_name (veterinarian a));
     mail_from := DEFAULT_FROM_EMAIL w;
     mail_to := [email (owner (pet a))] |}.

(** The mail of [ReferralStrategy._notify_referral]; [a] is the row after
    the referral. *)
Definition referral_mail (a : Appointment) (old_vet new_vet : CustomUser)
    (reason : string) (w : World) : Email :=
  {| mail_subject := "Appointment Referral";
     mail_message := MsgReferral (get_full_name old_vet) (pet_name (pet a))
                       (get_full_name (owner (pet a))) (date_time a) reason
                       (notes a);
     mail_from := DEFAULT_FROM_EMAIL w;
     mail_to := [email new_vet] |}.

(** The events the service passes to [notify_observers]. *)
Definition EVENTS : list string := "created" :: ACTIONS.

(** The mail and the notification row of [ReminderObserver.update]. *)
Definition reminder_mail (appointment : AppointmentObj) (w : World) : Email :=
  {| mail_subject := "Appointment Reminder";
     mail_message := MsgReminder (get_full_name (veterinarian (fields appointment)))
                       (date_time (fields appointment));
     mail_from := DEFAULT_FROM_EMAIL w;
     mail_to := [email (owner (pet (fields appointment)))] |}.

Definition reminder_log (appointment : AppointmentObj) : AppointmentNotification :=
  {| notification_appointment := pk appointment;
     notification_type := "reminder";
     notification_message :=
       MsgReminder (get_full_name (veterinarian (fields appointment)))
         (date_time (fields appointment));
     is_sent := true |}.

(** The kinds of appointment [create_appointment] knows. *)
Definition TYPES : list string :=
  ["regular"; "emergency"; "follow_up"; "vaccination"; "surgery"].

(** The service names [get_appointment_factory] has a factory for. *)
Definition BOOKABLE : list string :=
  ["General Checkup"; "Vaccination"; "Surgery"; "Grooming"].

(** The actions that change the status of an appointment and leave its
    veterinarian and its time alone. *)
Definition STATUS_ACTIONS : list string := ["complete"; "cancel"; "no_show"].

(** An [EmergencyAlertObserver] is registered with the factory. *)
Definition has_emergency_observer (w : World) : Prop :=
  Exists (fun o => vet_observer_class o = EmergencyAlertObserver) (factory_observers w).

(* ===================================================================== *)
(** * Sample data *)
(* ===================================================================== *)

Module Sample.

Definition dr_vega : CustomUser :=
  {| user_id := 1; username := "vega"; first_name := "Ana"; last_name := "Vega";
     email := "vet@test.com"; phone := "555-0101"; address := "1 Clinic Rd";
     role := "vet" |}.

Definition dr_moss : CustomUser :=
  {| user_id := 3; username := "moss"; first_name := "Ian"; last_name := "Moss";
     email := "moss@test.com"; phone := "555-0103"; address := "3 Clinic Rd";
     role := "vet" |}.

Definition pat : CustomUser :=
  {| user_id := 2; username := "pet_owner"; first_name := "Pat"; last_name := "Lee";
     email := "owner@test.com"; phone := "555-0102"; address := "2 Elm St";
     role := "client" |}.

Definition rex : Pet := {| pet_id := 1; pet_name := "Rex"; owner := pat |}.

Definition checkup : ServiceType :=
  {| service_id := 1; service_name := "General Checkup" |}.

Definition main_branch : ClinicBranch :=
  {| branch_id := 1; branch_name := "Test Clinic"; is_active := true |}.

(** Day 0, 9:15. *)
Definition quarter_past_nine : datetime :=
  combine 0 (timedelta_hours 9 + timedelta_minutes 15).

(** Day 0, 9:00. *)
Definition nine : datetime := combine 0 (timedelta_hours 9).

(** A confirmed appointment of Dr Vega at 9:15 on day 0. *)
Definition booked : Appointment :=
  {| pet := rex; service_type := checkup; veterinarian := dr_vega;
     date_time := quarter_past_nine; clinic_branch := main_branch;
     notes := ""; status := "confirmed" |}.

Definition email_observer : Observer :=
  {| observer_oid := 1; observer_class := EmailNotificationObserver |}.
Definition reminder_observer : Observer :=
  {| observer_oid := 2; observer_class := ReminderObserver |}.

(** One appointment under key 1, the observers the booking views attach
    when they are loaded, no mail sent yet. *)
Definition world : World :=
  {| appointments := {[ 1 := booked ]};
     next_pk := 2;
     notification_log := [];
     outbox := [];
     pets := {[ 1 := rex ]};
     service_types := {[ 1 := checkup ]};
     users := {[ 1 := dr_vega; 2 := pat; 3 := dr_moss ]};
     clinic_branches := {[ 1 := main_branch ]};
     DEFAULT_FROM_EMAIL := "clinic@test.com";
     subject_observers := [email_observer; reminder_observer];
     factory_observers := [];
     director_builder := AppointmentBuilder.reset;
     clock := combine 0 (timedelta_hours 7) |}.

(** Day 1, 10:00. *)
Definition next_day_ten : datetime := combine 1 (timedelta_hours 10).

Definition reschedule_kwargs : Kwargs :=
  {| kw_treatment_notes := None; kw_diagnosis := None; kw_follow_up_date := None;
     kw_new_datetime := Some next_day_ten; kw_reason := Some "Schedule conflict";
     kw_notify_client := None; kw_notes := None; kw_new_vet := None |}.

(** Completion with a follow-up a week later. *)
Definition complete_kwargs : Kwargs :=
  {| kw_treatment_notes := Some "Routine checkup completed";
     kw_diagnosis := Some "Healthy";
     kw_follow_up_date := Some (combine 7 (timedelta_hours 9));
     kw_new_datetime := None; kw_reason := None;
     kw_notify_client := None; kw_notes := None; kw_new_vet := None |}.

(** A booking request for Dr Vega at 9:15 on day 0, the time of [booked]. *)
Definition booking_request : Request :=
  {| method := "POST"; post_pet := 1; post_service_type := 1;
     post_veterinarian := 1; post_date_time := Some quarter_past_nine;
     post_clinic_branch := 1; post_notes := None |}.

Definition regular_kwargs : CreateKwargs :=
  {| ck_pet := Some rex; ck_vet := Some dr_vega;
     ck_clinic_branch := Some main_branch;
     ck_date_time := Some quarter_past_nine;
     ck_description := None; ck_original_appointment := None;
     ck_follow_up_date := None; ck_vaccine_type := None;
     ck_surgery_type := None; ck_pre_op_notes := None |}.

Definition refer_kwargs : Kwargs :=
  {| kw_treatment_notes := None; kw_diagnosis := None; kw_follow_up_date := None;
     kw_new_datetime := None; kw_reason := Some "Second opinion";
     kw_notify_client := None; kw_notes := Some "see chart";
     kw_new_vet := Some (VUser dr_moss) |}.

(** The profile of Dr Moss, and a referral that passes the profile where
    the user account is expected, as the referral view does. *)
Definition moss_profile : Veterinarian :=
  {| veterinarian_id := 1; veterinarian_user := dr_moss |}.

Definition refer_profile_kwargs : Kwargs :=
  {| kw_treatment_notes := None; kw_diagnosis := None; kw_follow_up_date := None;
     kw_new_datetime := None; kw_reason := Some "Second opinion";
     kw_notify_client := None; kw_notes := Some "see chart";
     kw_new_vet := Some (VVeterinarian moss_profile) |}.

Definition emergency_kwargs : CreateKwargs :=
  {| ck_pet := Some rex; ck_vet := Some dr_vega;
     ck_clinic_branch := Some main_branch;
     ck_date_time := Some quarter_past_nine;
     ck_description := Some "Sudden illness"; ck_original_appointment := None;
     ck_follow_up_date := None; ck_vaccine_type := None;
     ck_surgery_type := None; ck_pre_op_notes := None |}.

(** A service the clinic offers but [get_appointment_factory] does not
    know. *)
Definition dental : ServiceType :=
  {| service_id := 2; service_name := "Dental Cleaning" |}.

(** The sample world with the dental service on offer as well. *)
Definition dental_world : World :=
  {| appointments := appointments world;
     next_pk := next_pk world;
     notification_log := notification_log world;
     outbox := outbox world;
     pets := pets world;
     service_types := <[2 := dental]> (service_types world);
     users := users world;
     clinic_branches := clinic_branches world;
     DEFAULT_FROM_EMAIL := DEFAULT_FROM_EMAIL world;
     subject_observers := subject_observers world;
     factory_observers := factory_observers world;
     director_builder := director_builder world;
     clock := clock world |}.

Definition dental_request : Request :=
  {| method := "POST"; post_pet := 1; post_service_type := 2;
     post_veterinarian := 1; post_date_time := Some next_day_ten;
     post_clinic_branch := 1; post_notes := None |}.

(** A booking for Dr Vega at 10:00 on day 0. *)
Definition ten : datetime := combine 0 (timedelta_hours 10).

Definition ten_request : Request :=
  {| method := "POST"; post_pet := 1; post_service_type := 1;
     post_veterinarian := 1; post_date_time := Some ten;
     post_clinic_branch := 1; post_notes := None |}.

End Sample.

(* ===================================================================== *)
(** * Properties *)
(* ===================================================================== *)

(** ** The builder *)






(** ** The repository of [vet_patterns]: absence and presence *)

Lemma objects_get_found (w : World) (k : Z) (a : Appointment) :
  appointments w !! k = Some a -> objects_get k w = (Ok (loaded k a), w).
Proof. intros H. unfold objects_get. now rewrite H. Qed.

Lemma objects_get_missing (w : World) (k : Z) :
  appointments w !! k = None -> objects_get k w = (Raise ObjectDoesNotExist, w).
Proof. intros H. unfold objects_get. now rewrite H. Qed.

(** C9. [get_by_id], [delete] and [update_status] never raise. For an id
    without a row, [get_by_id] gives [None], and [delete] and
    [update_status] give [False] and leave the whole store as it was. For
    an id with a row, [get_by_id] gives that row, [delete] gives [True] and
    removes that row and no other, and [update_status] gives [True] and
    changes the status column of that row and nothing else. *)
Theorem django_repository_absent_or_present :
  forall (w : World) (appointment_id : Z) (new_status : string),
    match appointments w !! appointment_id with
    | None =>
        DjangoAppointmentRepository.get_by_id appointment_id w = (Ok None, w) /\
        DjangoAppointmentRepository.delete appointment_id w = (Ok false, w) /\
        DjangoAppointmentRepository.update_status appointment_id new_status w
          = (Ok false, w)
    | Some a =>
        DjangoAppointmentRepository.get_by_id appointment_id w
          = (Ok (Some (loaded appointment_id a)), w) /\
        (let after := DjangoAppointmentRepository.delete appointment_id w in
         fst after = Ok true /\
         appointments (snd after) = delete appointment_id (appointments w) /\
         appointments (snd after) !! appointment_id = None /\
         (forall other, other <> appointment_id ->
            appointments (snd after) !! other = appointments w !! other)) /\
        (let after :=
           DjangoAppointmentRepository.update_status appointment_id new_status w in
         after = (Ok true,
                  set_appointments
                    (<[appointment_id := with_status new_status a]> (appointments w)) w) /\
         (exists a', appointments (snd after) !! appointment_id = Some a' /\
            status a' = new_status /\
            pet a' = pet a /\ service_type a' = service_type a /\
            veterinarian a' = veterinarian a /\ date_time a' = date_time a /\
            clinic_branch a' = clinic_branch a /\ notes a' = notes a) /\
         (forall other, other <> appointment_id ->
            appointments (snd after) !! other = appointments w !! other))
    end.
Proof.
  intros w k s.
  destruct (appointments w !! k) as [a|] eqn:Hk.
  - split; [|split].
    + unfold DjangoAppointmentRepository.get_by_id, try_except, bind.
      now rewrite (objects_get_found _ _ _ Hk).
    + unfold DjangoAppointmentRepository.delete, try_except, bind.
      rewrite (objects_get_found _ _ _ Hk). cbn.
      repeat split.
      * apply lookup_delete_eq.
      * intros other Hne. now apply lookup_delete_ne.
    + unfold DjangoAppointmentRepository.update_status, try_except, bind.
      rewrite (objects_get_found _ _ _ Hk).
      unfold save_update_fields. cbn [pk loaded with_fields]. rewrite Hk. cbn.
      split; [reflexivity|]. split.
      * exists (with_status s a). rewrite lookup_insert_eq. now repeat split.
      * intros other Hne. now apply lookup_insert_ne.
  - split; [|split].
    + unfold DjangoAppointmentRepository.get_by_id, try_except, bind.
      now rewrite (objects_get_missing _ _ Hk).
    + unfold DjangoAppointmentRepository.delete, try_except, bind.
      now rewrite (objects_get_missing _ _ Hk).
    + unfold DjangoAppointmentRepository.update_status, try_except, bind.
      now rewrite (objects_get_missing _ _ Hk).
Qed.

(** ** The slot loop *)

Lemma slot_count_past (bound start step : Z) :
  0 < step -> bound < start -> slot_count bound start step = O.
Proof.
  intros Hs Hb. unfold slot_count.
  assert ((bound - start) / step < 0) by (apply Z.div_lt_upper_bound; lia).
  lia.
Qed.

Lemma slot_count_step (bound start step : Z) :
  0 < step -> start <= bound ->
  slot_count bound start step = S (slot_count bound (start + step) step).
Proof.
  intros Hs Hb. unfold slot_count.
  replace (bound - (start + step)) with ((bound - start) + (-1) * step) by lia.
  rewrite Z.div_add by lia.
  assert (0 <= (bound - start) / step) by (apply Z.div_pos; lia).
  lia.
Qed.

Lemma slot_count_lt (bound start step : Z) (k : nat) :
  0 < step ->
  (k < slot_count bound start step)%nat <-> start + Z.of_nat k * step <= bound.
Proof.
  intros Hs. revert start. induction k as [|k IH]; intros start.
  - destruct (Z_le_gt_dec start bound) as [Hle|Hgt].
    + rewrite slot_count_step by assumption. lia.
    + rewrite slot_count_past by lia. lia.
  - destruct (Z_le_gt_dec start bound) as [Hle|Hgt].
    + rewrite slot_count_step by assumption.
      specialize (IH (start + step)). lia.
    + rewrite slot_count_past by lia. nia.
Qed.

Lemma elem_of_grid (start step : Z) (n : nat) (t : Z) :
  t ∈ grid start step n <->
  exists k : nat, (k < n)%nat /\ t = start + Z.of_nat k * step.
Proof.
  revert start. induction n as [|n IH]; intros start; cbn [grid].
  - split; [intros H; inversion H | intros (k & Hk & _); lia].
  - rewrite elem_of_cons, IH. split.
    + intros [-> | (k & Hk & ->)].
      * exists O. lia.
      * exists (S k). lia.
    + intros ([|k] & Hk & ->).
      * left. lia.
      * right. exists k. lia.
Qed.

Lemma grid_lower_bound (start step : Z) (n : nat) (t : Z) :
  0 < step -> t ∈ grid start step n -> start <= t.
Proof. intros Hs (k & _ & ->)%elem_of_grid. nia. Qed.

Lemma grid_sorted (start step : Z) (n : nat) :
  0 < step -> StronglySorted Z.lt (grid start step n).
Proof.
  intros Hs. revert start. induction n as [|n IH]; intros start; cbn [grid].
  - constructor.
  - constructor; [apply IH|].
    apply Forall_forall. intros t Ht.
    apply grid_lower_bound in Ht; lia.
Qed.

Lemma filter_sorted (P : Z -> Prop) `{!forall t, Decision (P t)} (l : list Z) :
  StronglySorted Z.lt l -> StronglySorted Z.lt (filter P l).
Proof.
  induction 1 as [|x l Hl IH Hx]; [constructor|].
  rewrite filter_cons. destruct (decide (P x)); [|assumption].
  constructor; [assumption|].
  apply Forall_forall. intros y [_ Hy]%list_elem_of_filter.
  rewrite Forall_forall in Hx. now apply Hx.
Qed.

(** With a positive step the loop ends, and with fuel beyond the number of
    candidates it returns the candidates that were available, in order. *)
Lemma slot_loop_enough (continue available : Z -> bool) (step bound : Z) :
  0 < step ->
  (forall c, continue c = (c <=? bound)) ->
  forall (n : nat) (current : Z) (slots : list Z) (fuel : nat),
    slot_count bound current step = n ->
    (n < fuel)%nat ->
    slot_loop fuel continue available step current slots
    = Some (slots ++ filter (fun t => available t = true) (grid current step n))%list.
Proof.
  intros Hs Hc n. induction n as [|n IH]; intros current slots fuel Hn Hf.
  - destruct fuel as [|fuel]; [lia|]. cbn [slot_loop grid].
    rewrite Hc.
    destruct (Z.leb_spec current bound) as [Hle|Hgt].
    + rewrite slot_count_step in Hn by assumption. discriminate.
    + now rewrite filter_nil, app_nil_r.
  - destruct fuel as [|fuel]; [lia|]. cbn [slot_loop grid].
    rewrite Hc.
    destruct (Z.leb_spec current bound) as [Hle|Hgt].
    + rewrite slot_count_step in Hn by assumption.
      rewrite (IH (current + step)) by lia.
      rewrite filter_cons.
      destruct (available current) eqn:Ha.
      * rewrite decide_True by reflexivity. now rewrite <- app_assoc.
      * rewrite decide_False by discriminate. reflexivity.
    + rewrite slot_count_past in Hn by lia. discriminate.
Qed.

(** More fuel never changes an answer already given. *)
Lemma slot_loop_fuel_mono (continue available : Z -> bool) (step : Z)
    (fuel fuel' : nat) (current : Z) (slots r : list Z) :
  (fuel <= fuel')%nat ->
  slot_loop fuel continue available step current slots = Some r ->
  slot_loop fuel' continue available step current slots = Some r.
Proof.
  revert fuel' current slots.
  induction fuel as [|fuel IH]; intros fuel' current slots Hle H; [discriminate|].
  destruct fuel' as [|fuel']; [lia|].
  cbn [slot_loop] in *.
  destruct (continue current); [|assumption].
  apply IH; [lia|assumption].
Qed.

(** With a step that is zero or negative the loop never gets past a
    condition that holds and keeps holding for earlier times: no amount of
    fuel is enough. *)
Lemma slot_loop_not_advancing (continue available : Z -> bool) (step : Z) :
  step <= 0 ->
  (forall c c', c' <= c -> continue c = true -> continue c' = true) ->
  forall fuel current slots,
    continue current = true ->
    slot_loop fuel continue available step current slots = None.
Proof.
  intros Hs Hdown fuel.
  induction fuel as [|fuel IH]; intros current slots Hc; [reflexivity|].
  cbn [slot_loop]. rewrite Hc. apply IH.
  apply (Hdown current); [lia | assumption].
Qed.

(** ** [AppointmentRepository.get_available_slots] *)

Lemma elem_of_all_rows (w : World) (a : Appointment) :
  a ∈ all_rows w <-> exists k, appointments w !! k = Some a.
Proof.
  unfold all_rows. rewrite list_elem_of_fmap. split.
  - intros ([k a'] & -> & H%elem_of_map_to_list). now exists k.
  - intros (k & Hk). exists (k, a). split; [reflexivity|].
    now apply elem_of_map_to_list.
Qed.

Lemma is_available_true (duration : Z) (t : Z) (existing : list Appointment) :
  AppointmentRepository.is_available duration t existing = true <->
  forall a, a ∈ existing -> ~ overlaps duration t (date_time a).
Proof.
  unfold overlaps.
  induction existing as [|a rest IH]; cbn [AppointmentRepository.is_available].
  - split; [intros _ a H; inversion H | reflexivity].
  - destruct (Z.ltb_spec t (date_time a + duration)) as [H1|H1];
      destruct (Z.ltb_spec (date_time a) (t + duration)) as [H2|H2]; cbn [andb].
    + split; [discriminate|]. intros H. exfalso.
      apply (H a); [left | split; assumption].
    + rewrite IH. split.
      * intros H b [->|Hb]%elem_of_cons; [lia | now apply H].
      * intros H b Hb. apply H. now right.
    + rewrite IH. split.
      * intros H b [->|Hb]%elem_of_cons; [lia | now apply H].
      * intros H b Hb. apply H. now right.
    + rewrite IH. split.
      * intros H b [->|Hb]%elem_of_cons; [lia | now apply H].
      * intros H b Hb. apply H. now right.
Qed.

Lemma elem_of_existing_appointments (w : World) (vet : CustomUser) (d : Z)
    (a : Appointment) :
  a ∈ AppointmentRepository.existing_appointments w vet d <->
  (exists k, appointments w !! k = Some a) /\
  user_id (veterinarian a) = user_id vet /\
  date_of (date_time a) = d /\
  status a = "confirmed".
Proof.
  unfold AppointmentRepository.existing_appointments.
  rewrite merge_sort_Permutation, list_elem_of_filter, elem_of_all_rows.
  tauto.
Qed.

(** C1. For a positive slot length [duration], the call returns (the loop
    ends, given fuel beyond the number of candidates, and no fuel gives
    another answer) exactly the start times [9:00 + k * duration], [k >= 0],
    whose slot ends by 17:00 and overlaps the interval
    [[date_time, date_time + duration)] of no appointment of that
    veterinarian on that date with status ['confirmed'], each once and in
    increasing order. *)
Theorem get_available_slots_exact :
  forall (w : World) (vet : CustomUser) (d : date) (duration : timedelta),
    0 < duration ->
    exists slots : list datetime,
      (exists fuel0, forall fuel, (fuel0 <= fuel)%nat ->
         AppointmentRepository.get_available_slots fuel w vet d duration
         = Some slots) /\
      (forall fuel r,
         AppointmentRepository.get_available_slots fuel w vet d duration = Some r ->
         r = slots) /\
      (forall t,
         t ∈ slots <->
         (exists k, 0 <= k /\ t = combine d (timedelta_hours 9) + k * duration) /\
         t + duration <= combine d (timedelta_hours 17) /\
         (forall k a,
            appointments w !! k = Some a ->
            user_id (veterinarian a) = user_id vet ->
            date_of (date_time a) = d ->
            status a = "confirmed" ->
            ~ overlaps duration t (date_time a))) /\
      StronglySorted Z.lt slots.
Proof.
  intros w vet d duration Hpos.
  set (start := combine d (timedelta_hours 9)).
  set (finish := combine d (timedelta_hours 17)).
  set (existing := AppointmentRepository.existing_appointments w vet d).
  set (avail := fun t => AppointmentRepository.is_available duration t existing).
  set (n := slot_count (finish - duration) start duration).
  assert (Hrun : forall fuel, (S n <= fuel)%nat ->
            AppointmentRepository.get_available_slots fuel w vet d duration
            = Some (filter (fun t => avail t = true) (grid start duration n))).
  { intros fuel Hf. unfold AppointmentRepository.get_available_slots.
    fold start finish existing.
    rewrite (slot_loop_enough _ _ duration (finish - duration) Hpos) with (n := n);
      [reflexivity | | reflexivity | lia].
    intros c. destruct (Z.leb_spec (c + duration) finish);
      destruct (Z.leb_spec c (finish - duration)); (reflexivity || lia). }
  exists (filter (fun t => avail t = true) (grid start duration n)).
  split; [exists (S n); exact Hrun|]. split; [|split].
  - intros fuel r Hr.
    unfold AppointmentRepository.get_available_slots in Hr.
    apply (slot_loop_fuel_mono _ _ _ fuel (fuel + S n)) in Hr; [|lia].
    specialize (Hrun (fuel + S n)%nat ltac:(lia)).
    unfold AppointmentRepository.get_available_slots in Hrun.
    congruence.
  - intros t. rewrite list_elem_of_filter, elem_of_grid.
    unfold avail. rewrite is_available_true. split.
    + intros (Hav & k & Hk & ->). split; [|split].
      * exists (Z.of_nat k). split; [lia|reflexivity].
      * apply slot_count_lt in Hk; [lia|assumption].
      * intros j a Hj Hv Hd Hs. apply Hav.
        apply elem_of_existing_appointments. eauto.
    + intros ((k & Hk & ->) & Hend & Hfree). split.
      * intros a (Hrow & Hv & Hd & Hs)%elem_of_existing_appointments.
        destruct Hrow as (j & Hj). eauto.
      * exists (Z.to_nat k). split.
        -- apply slot_count_lt; [assumption|]. fold start. lia.
        -- fold start. lia.
  - apply filter_sorted, grid_sorted. assumption.
Qed.

Lemma get_available_slots_exact_witness :
  0 < AppointmentRepository.default_duration /\
  exists slots : list datetime,
    (exists fuel0, forall fuel, (fuel0 <= fuel)%nat ->
       AppointmentRepository.get_available_slots fuel Sample.world Sample.dr_vega 0
         AppointmentRepository.default_duration = Some slots) /\
    StronglySorted Z.lt slots.
Proof.
  split; [reflexivity|].
  destruct (get_available_slots_exact Sample.world Sample.dr_vega 0
              AppointmentRepository.default_duration)
    as (slots & Hrun & _ & _ & Hsorted); [reflexivity|].
  exists slots. split; assumption.
Defined.

(** On the sample day the 9:15 appointment takes out the 9:00 and the 9:30
    slot, and the first free slot is 10:00. *)
Example get_available_slots_sample :
  AppointmentRepository.get_available_slots 20 Sample.world Sample.dr_vega 0
    AppointmentRepository.default_duration
  = Some (grid (combine 0 (timedelta_hours 10)) (timedelta_minutes 30) 14).
Proof. vm_compute. reflexivity. Qed.

(** A slot length that is zero or negative is outside the theorem for a
    reason: the loop does not end. *)
Remark get_available_slots_nonpositive_duration :
  forall (fuel : nat) (w : World) (vet : CustomUser) (d : date)
         (duration : timedelta),
    duration <= 0 ->
    AppointmentRepository.get_available_slots fuel w vet d duration = None.
Proof.
  intros fuel w vet d duration Hd.
  unfold AppointmentRepository.get_available_slots.
  apply slot_loop_not_advancing; [assumption | |].
  - intros c c' Hle Hc. apply Z.leb_le in Hc. apply Z.leb_le. lia.
  - apply Z.leb_le. unfold combine, timedelta_hours. lia.
Qed.

(** ** [DjangoAppointmentRepository.get_available_slots] *)

Lemma elem_of_django_existing (w : World) (vet_id day_start day_end t : Z) :
  t ∈ DjangoAppointmentRepository.existing_appointments w vet_id day_start day_end <->
  exists k a, appointments w !! k = Some a /\
              user_id (veterinarian a) = vet_id /\
              day_start <= date_time a <= day_end /\
              date_time a = t.
Proof.
  unfold DjangoAppointmentRepository.existing_appointments.
  rewrite list_elem_of_fmap. split.
  - intros (a & -> & Ha). rewrite merge_sort_Permutation in Ha.
    apply list_elem_of_filter in Ha as [(Hv & Hr) (k & Hk)%elem_of_all_rows].
    exists k, a. auto.
  - intros (k & a & Hk & Hv & Hr & <-). exists a. split; [reflexivity|].
    rewrite merge_sort_Permutation. apply list_elem_of_filter.
    split; [auto|]. apply elem_of_all_rows. eauto.
Qed.

(** What the code of the second repository decides by: the twenty
    half-hour starts from 8:00 to 17:30, minus those equal to the start time
    of one of the veterinarian's appointments of the day. *)
Lemma django_get_available_slots_by_start (w : World) (vet_id : Z) (d : datetime)
    (fuel : nat) :
  (21 <= fuel)%nat ->
  DjangoAppointmentRepository.get_available_slots fuel w vet_id d
  = Some (filter
            (fun t => bool_decide
                        (t ∉ DjangoAppointmentRepository.existing_appointments
                               w vet_id (replace_hour d 8) (replace_hour d 18))
                      = true)
            (grid (replace_hour d 8) (timedelta_minutes 30) 20)).
Proof.
  intros Hf. unfold DjangoAppointmentRepository.get_available_slots.
  rewrite (slot_loop_enough _ _ (timedelta_minutes 30) (replace_hour d 18 - 1))
    with (n := 20%nat); [reflexivity | reflexivity | | | lia].
  - intros c. destruct (Z.ltb_spec c (replace_hour d 18));
      destruct (Z.leb_spec c (replace_hour d 18 - 1)); (reflexivity || lia).
  - unfold slot_count, replace_hour, combine.
    replace (date_of d * DAY + timedelta_hours 18 - 1
             - (date_of d * DAY + timedelta_hours 8))
      with (timedelta_hours 10 - 1) by (unfold timedelta_hours; lia).
    reflexivity.
Qed.

(** In general: with enough fuel, a time is reported as available exactly
    when it is one of the twenty starts and no appointment of the
    veterinarian within the window starts at that very time. *)
Lemma django_excludes_equal_starts_only (w : World) (vet_id : Z) (d : datetime)
    (fuel : nat) (t : datetime) :
  (21 <= fuel)%nat ->
  (exists slots,
      DjangoAppointmentRepository.get_available_slots fuel w vet_id d = Some slots /\
      t ∈ slots) <->
  (t ∈ grid (replace_hour d 8) (timedelta_minutes 30) 20) /\
  ~ (exists k a, appointments w !! k = Some a /\
                 user_id (veterinarian a) = vet_id /\
                 replace_hour d 8 <= date_time a <= replace_hour d 18 /\
                 date_time a = t).
Proof.
  intros Hf. rewrite (django_get_available_slots_by_start w vet_id d fuel Hf).
  split.
  - intros (slots & [= <-] & Ht).
    apply list_elem_of_filter in Ht as [Hfree Hgrid].
    apply bool_decide_eq_true in Hfree.
    split; [assumption|]. now rewrite <- elem_of_django_existing.
  - intros [Hgrid Hfree]. eexists. split; [reflexivity|].
    apply list_elem_of_filter. split; [|assumption].
    apply bool_decide_eq_true. now rewrite elem_of_django_existing.
Qed.

(** C2, evaluated. Dr Vega has an appointment at 9:15; the half-hour slot
    starting at 9:00 overlaps it (it runs until 9:30), and so does the one
    starting at 9:30, yet both are reported as available: the code compares
    start times for equality and never looks at intervals. *)
Theorem django_get_available_slots_overlap_missed :
  exists slots : list datetime,
    DjangoAppointmentRepository.get_available_slots 21 Sample.world 1 Sample.nine
    = Some slots /\
    Sample.nine ∈ slots /\
    Sample.nine + timedelta_minutes 30 ∈ slots /\
    appointments Sample.world !! 1 = Some Sample.booked /\
    user_id (veterinarian Sample.booked) = 1 /\
    replace_hour Sample.nine 8 <= date_time Sample.booked
      <= replace_hour Sample.nine 18 /\
    overlaps (timedelta_minutes 30) Sample.nine (date_time Sample.booked) /\
    overlaps (timedelta_minutes 30) (Sample.nine + timedelta_minutes 30)
      (date_time Sample.booked).
Proof.
  exists (grid (combine 0 (timedelta_hours 8)) (timedelta_minutes 30) 20).
  split; [vm_compute; reflexivity|].
  split; [apply elem_of_grid; exists 2%nat; split; [lia | reflexivity]|].
  split; [apply elem_of_grid; exists 3%nat; split; [lia | reflexivity]|].
  split; [reflexivity|]. split; [reflexivity|].
  unfold overlaps. vm_compute. repeat split; congruence.
Qed.

(** ** Users *)

(** [get_full_name] strips what the missing name leaves behind. *)
Example get_full_name_of_one_name :
  get_full_name (new_user 9 "kim" "Kim" "" "kim@test.com" "555-0109" "9 Oak St" None)
  = "Kim" /\
  get_full_name (new_user 9 "kim" "" "" "kim@test.com" "555-0109" "9 Oak St" None)
  = "" /\
  get_full_name Sample.dr_vega = "Ana Vega".
Proof. repeat split. Qed.


Lemma role_is_choice_iff (r : string) :
  role_is_choice r = true <->
  r = "admin" \/ r = "vet" \/ r = "staff" \/ r = "client".
Proof.
  unfold role_is_choice, ROLE_CHOICES. cbn [existsb fst].
  destruct (String.eqb_spec "admin" r) as [<- | H1]; [intuition|].
  destruct (String.eqb_spec "vet" r) as [<- | H2]; [intuition|].
  destruct (String.eqb_spec "staff" r) as [<- | H3]; [intuition|].
  destruct (String.eqb_spec "client" r) as [<- | H4]; [intuition|].
  cbn. split; [discriminate|]. intros [-> | [-> | [-> | ->]]]; congruence.
Qed.

(** C8, as the code has it. The role field offers the four roles ['admin'],
    ['vet'], ['staff'], ['client'] and a user made without a role gets
    ['client']; a user made with a role has that role, whether or not it is
    one of the four. A user
    whose role is one of the four satisfies exactly one of [is_admin],
    [is_vet], [is_staff_member], [is_client]; a user with any other role
    satisfies none. *)
Theorem roles_and_predicates :
  (forall r, role_is_choice r = true <->
             r = "admin" \/ r = "vet" \/ r = "staff" \/ r = "client") /\
  (forall uid uname fname lname mail ph addr,
      role (new_user uid uname fname lname mail ph addr None) = "client") /\
  (forall uid uname fname lname mail ph addr r,
      role (new_user uid uname fname lname mail ph addr (Some r)) = r) /\
  (forall u : CustomUser,
      role_is_choice (role u) = true ->
      count_true [is_admin u; is_vet u; is_staff_member u; is_client u] = 1%nat) /\
  (forall u : CustomUser,
      role_is_choice (role u) = false ->
      count_true [is_admin u; is_vet u; is_staff_member u; is_client u] = 0%nat).
Proof.
  split; [exact role_is_choice_iff|].
  split; [reflexivity|]. split; [reflexivity|]. split.
  - intros u Hr. apply role_is_choice_iff in Hr.
    unfold is_admin, is_vet, is_staff_member, is_client.
    destruct Hr as [-> | [-> | [-> | ->]]]; reflexivity.
  - intros u Hr.
    unfold is_admin, is_vet, is_staff_member, is_client.
    destruct (String.eqb_spec (role u) "admin") as [E|_];
      [rewrite E in Hr; discriminate|].
    destruct (String.eqb_spec (role u) "vet") as [E|_];
      [rewrite E in Hr; discriminate|].
    destruct (String.eqb_spec (role u) "staff") as [E|_];
      [rewrite E in Hr; discriminate|].
    destruct (String.eqb_spec (role u) "client") as [E|_];
      [rewrite E in Hr; discriminate|].
    reflexivity.
Qed.

Lemma roles_and_predicates_witness :
  role_is_choice (role Sample.dr_vega) = true /\
  count_true [is_admin Sample.dr_vega; is_vet Sample.dr_vega;
              is_staff_member Sample.dr_vega; is_client Sample.dr_vega] = 1%nat.
Proof.
  split; [reflexivity|].
  apply (proj1 (proj2 (proj2 (proj2 roles_and_predicates)))).
  reflexivity.
Defined.

(** C8 as it was stated fails: not every user account has one of the four
    roles. An account made with the role ['manager'] holds that role, and
    none of the four predicates is true of it. *)
Lemma role_outside_the_four :
  let u := new_user 9 "kim" "Kim" "Roe" "kim@test.com" "555-0109" "9 Oak St"
             (Some "manager") in
  ~ (forall v : CustomUser, role_is_choice (role v) = true) /\
  role u = "manager" /\
  role_is_choice (role u) = false /\
  count_true [is_admin u; is_vet u; is_staff_member u; is_client u] = 0%nat.
Proof.
  cbn zeta. split; [|repeat split].
  intros H.
  specialize (H (new_user 9 "kim" "Kim" "Roe" "kim@test.com" "555-0109" "9 Oak St"
                   (Some "manager"))).
  discriminate.
Qed.

(** ** Sequencing *)

Lemma bind_bind {A B C} (m : M A) (f : A -> M B) (g : B -> M C) (w : World) :
  bind (bind m f) g w = bind m (fun a => bind (f a) g) w.
Proof. unfold bind. destruct (m w) as [[a|e] w']; reflexivity. Qed.

Lemma bind_ext {A B} (m : M A) (f g : A -> M B) (w : World) :
  (forall a w', f a w' = g a w') -> bind m f w = bind m g w.
Proof. intros H. unfold bind. destruct (m w) as [[a|e] w']; [apply H | reflexivity]. Qed.

Lemma bind_ok {A B} (m : M A) (f : A -> M B) (w w' : World) (a : A) :
  m w = (Ok a, w') -> bind m f w = f a w'.
Proof. intros H. unfold bind. now rewrite H. Qed.

Lemma bind_raise {A B} (m : M A) (f : A -> M B) (w w' : World) (e : Exception) :
  m w = (Raise e, w') -> bind m f w = (Raise e, w').
Proof. intros H. unfold bind. now rewrite H. Qed.

(** ** Observers of [patterns/observer.py] *)

Lemma adds_nothing (w : World) : adds [] [] w = w.
Proof. destruct w. unfold adds. cbn. now rewrite !app_nil_r. Qed.

Lemma adds_adds (m1 m2 : list Email) (l1 l2 : list AppointmentNotification)
    (w : World) :
  adds m2 l2 (adds m1 l1 w) = adds (m1 ++ m2) (l1 ++ l2) w.
Proof. unfold adds. cbn. now rewrite !app_assoc. Qed.

Lemma adds_appointments (m : list Email) (l : list AppointmentNotification)
    (w : World) :
  appointments (adds m l w) = appointments w.
Proof. reflexivity. Qed.

Lemma send_mail_effect (subject : string) (message : MailText)
    (recipient_list : list string) (w : World) :
  send_mail subject message recipient_list w
  = (Ok tt,
     adds [{| mail_subject := subject; mail_message := message;
              mail_from := DEFAULT_FROM_EMAIL w; mail_to := recipient_list |}]
          [] w).
Proof. destruct w. unfold send_mail, adds. cbn. now rewrite app_nil_r. Qed.

Lemma email_update_effect (appointment : AppointmentObj) (w : World) :
  Observers.email_update appointment w
  = (Ok tt, adds [update_mail appointment w] [update_log appointment] w).
Proof. reflexivity. Qed.

(** An observer's [update] returns normally; all it does is send mail and
    write notification rows. *)
Lemma observer_update_adds (o : Observer) (appointment : AppointmentObj) (w : World) :
  exists mails logs,
    Observers.update o appointment w = (Ok tt, adds mails logs w).
Proof.
  unfold Observers.update. destruct (observer_class o).
  - eexists _, _. apply email_update_effect.
  - unfold Observers.reminder_update.
    destruct (String.eqb (status (fields appointment)) "confirmed"); cbn [negb].
    + eexists [_], [_]. reflexivity.
    + exists [], []. now rewrite adds_nothing.
Qed.

Lemma notify_each_adds (observers : list Observer) (appointment : AppointmentObj)
    (w : World) :
  exists mails logs,
    Observers.AppointmentSubject.notify_each observers appointment w
    = (Ok tt, adds mails logs w).
Proof.
  unfold Observers.AppointmentSubject.notify_each.
  revert w. induction observers as [|o rest IH]; intros w; cbn [for_each].
  - exists [], []. now rewrite adds_nothing.
  - destruct (observer_update_adds o appointment w) as (m1 & l1 & H1).
    destruct (IH (adds m1 l1 w)) as (m2 & l2 & H2).
    exists (m1 ++ m2)%list, (l1 ++ l2)%list.
    unfold bind. rewrite H1, H2. now rewrite adds_adds.
Qed.

Lemma notify_each_app (l1 l2 : list Observer) (appointment : AppointmentObj)
    (w : World) :
  Observers.AppointmentSubject.notify_each (l1 ++ l2) appointment w
  = (Observers.AppointmentSubject.notify_each l1 appointment ;;;
     Observers.AppointmentSubject.notify_each l2 appointment) w.
Proof.
  unfold Observers.AppointmentSubject.notify_each.
  revert w. induction l1 as [|o rest IH]; intros w; cbn [for_each app].
  - reflexivity.
  - rewrite bind_bind. apply bind_ext. intros _ w'. apply IH.
Qed.

(** C7, as amended. [notify] runs the [update] of every attached observer,
    one after the other in the order of attachment (an observer not yet
    attached is put last), each in the world the one before left, and none
    of them raises. The email notification observer sends one mail, to the
    address of the owner of the appointment's pet, and writes one row to
    the notification table; no observer changes anything else, the
    appointment table in particular. *)
Theorem notify_in_attachment_order :
  forall (appointment : AppointmentObj) (w : World),
    (* the order of attachment is the order of the list *)
    (forall o observers,
        o ∉ observers ->
        Observers.AppointmentSubject.attached o observers = (observers ++ [o])%list) /\
    (forall o observers,
        o ∈ observers ->
        Observers.AppointmentSubject.attached o observers = observers) /\
    (* notify walks that list from the front *)
    Observers.AppointmentSubject.notify appointment w
    = Observers.AppointmentSubject.notify_each (subject_observers w) appointment w /\
    (forall o, Observers.AppointmentSubject.notify_each [o] appointment w
               = Observers.update o appointment w) /\
    (forall l1 l2,
        Observers.AppointmentSubject.notify_each (l1 ++ l2) appointment w
        = (Observers.AppointmentSubject.notify_each l1 appointment ;;;
           Observers.AppointmentSubject.notify_each l2 appointment) w) /\
    (* every update returns, having sent mail and written rows only *)
    (forall o, exists mails logs,
        Observers.update o appointment w = (Ok tt, adds mails logs w)) /\
    (exists mails logs,
        Observers.AppointmentSubject.notify appointment w = (Ok tt, adds mails logs w)) /\
    appointments (snd (Observers.AppointmentSubject.notify appointment w))
    = appointments w /\
    (* the email observer: one mail to the owner, one row *)
    (forall o, observer_class o = EmailNotificationObserver ->
        Observers.update o appointment w
        = (Ok tt, adds [update_mail appointment w] [update_log appointment] w)) /\
    mail_to (update_mail appointment w) = [email (owner (pet (fields appointment)))].
Proof.
  intros appointment w.
  assert (Hn : Observers.AppointmentSubject.notify appointment w
               = Observers.AppointmentSubject.notify_each (subject_observers w)
                   appointment w) by reflexivity.
  repeat split.
  - intros o observers Ho. unfold Observers.AppointmentSubject.attached.
    now rewrite bool_decide_eq_false_2.
  - intros o observers Ho. unfold Observers.AppointmentSubject.attached.
    now rewrite bool_decide_eq_true_2.
  - intros o. unfold Observers.AppointmentSubject.notify_each. cbn [for_each].
    unfold bind. destruct (Observers.update o appointment w) as [[[]|e] w'];
      reflexivity.
  - intros l1 l2. apply notify_each_app.
  - intros o. apply observer_update_adds.
  - rewrite Hn. apply notify_each_adds.
  - rewrite Hn.
    destruct (notify_each_adds (subject_observers w) appointment w)
      as (m & l & ->).
    reflexivity.
  - intros o Ho. unfold Observers.update. rewrite Ho. apply email_update_effect.
Qed.

Lemma notify_in_attachment_order_witness :
  (Sample.reminder_observer ∉ [Sample.email_observer]) /\
  Observers.AppointmentSubject.attached Sample.reminder_observer [Sample.email_observer]
  = [Sample.email_observer; Sample.reminder_observer] /\
  observer_class Sample.email_observer = EmailNotificationObserver /\
  Observers.update Sample.email_observer (loaded 1 Sample.booked) Sample.world
  = (Ok tt,
     adds [update_mail (loaded 1 Sample.booked) Sample.world]
          [update_log (loaded 1 Sample.booked)] Sample.world).
Proof.
  assert (H : Sample.reminder_observer ∉ [Sample.email_observer]).
  { intros Hin. apply list_elem_of_singleton in Hin. discriminate. }
  pose proof (notify_in_attachment_order (loaded 1 Sample.booked) Sample.world)
    as (Hfresh & _ & _ & _ & _ & _ & _ & _ & Hmail & _).
  split; [exact H|]. split; [exact (Hfresh _ _ H)|].
  split; [reflexivity|]. apply Hmail. reflexivity.
Defined.

(** C7 as it was stated fails: the email observer's [update] does not stop
    at the mail, it also writes a row to the notification table. *)
Lemma email_observer_also_writes_a_row :
  ~ (exists m : Email,
       snd (Observers.update Sample.email_observer (loaded 1 Sample.booked)
              Sample.world)
       = set_outbox (outbox Sample.world ++ [m]) Sample.world).
Proof.
  intros (m & H). apply (f_equal notification_log) in H.
  vm_compute in H. discriminate.
Qed.

(** ** The factory: strategies and observers *)

Lemma strategies_lookup (action : string) (s : Strategy) :
  AppointmentComponentFactory.strategies !! action = Some s <->
  (action = "complete" /\ s = CompleteAppointment) \/
  (action = "reschedule" /\ s = Reschedule) \/
  (action = "cancel" /\ s = Cancellation) \/
  (action = "no_show" /\ s = NoShow) \/
  (action = "refer" /\ s = Referral).
Proof.
  unfold AppointmentComponentFactory.strategies.
  rewrite !lookup_insert, lookup_empty.
  repeat case_decide; subst; split;
    try (intros [= <-]); try (intros [[? ?]|[[? ?]|[[? ?]|[[? ?]|[? ?]]]]]);
    subst; try discriminate; try congruence; auto 10.
Qed.

Lemma strategies_lookup_None (action : string) :
  AppointmentComponentFactory.strategies !! action = None <-> action ∉ ACTIONS.
Proof.
  unfold AppointmentComponentFactory.strategies, ACTIONS.
  rewrite !lookup_insert, lookup_empty.
  rewrite !not_elem_of_cons.
  repeat case_decide; subst; split; try discriminate; try tauto; try congruence.
  intros _. repeat split; try congruence. apply not_elem_of_nil.
Qed.

Lemma get_strategy_known (action : string) (s : Strategy) (w : World) :
  AppointmentComponentFactory.strategies !! action = Some s ->
  AppointmentComponentFactory.get_strategy action w = (Ok s, w).
Proof. intros H. unfold AppointmentComponentFactory.get_strategy. now rewrite H. Qed.

Lemma get_strategy_unknown (action : string) (w : World) :
  AppointmentComponentFactory.strategies !! action = None ->
  AppointmentComponentFactory.get_strategy action w
  = (Raise (ValueError ("Unknown strategy type: " +:+ action)), w).
Proof. intros H. unfold AppointmentComponentFactory.get_strategy. now rewrite H. Qed.

Lemma get_by_id_found (w : World) (k : Z) (a : Appointment) :
  appointments w !! k = Some a ->
  DjangoAppointmentRepository.get_by_id k w = (Ok (Some (loaded k a)), w).
Proof.
  intros H. unfold DjangoAppointmentRepository.get_by_id, try_except, bind.
  now rewrite (objects_get_found _ _ _ H).
Qed.

Lemma get_by_id_missing (w : World) (k : Z) :
  appointments w !! k = None ->
  DjangoAppointmentRepository.get_by_id k w = (Ok None, w).
Proof.
  intros H. unfold DjangoAppointmentRepository.get_by_id, try_except, bind.
  now rewrite (objects_get_missing _ _ H).
Qed.

(** An observer of the factory either returns, having at most sent mail, or
    is the emergency observer and raises before doing anything. *)
Lemma vet_update_effect (o : VetObserver) (appointment : AppointmentObj)
    (event : string) (w : World) :
  (exists mails, VetObservers.update o appointment event w = (Ok tt, adds mails [] w)) \/
  (vet_observer_class o = EmergencyAlertObserver /\
   VetObservers.update o appointment event w
   = (Raise (AttributeError "is_emergency"), w)).
Proof.
  unfold VetObservers.update. destruct (vet_observer_class o).
  - left. unfold VetObservers.schedule_update.
    destruct (negb (String.eqb event "") &&
              (contains "date_time" event || contains "status" event)).
    + eexists. apply send_mail_effect.
    + exists []. now rewrite adds_nothing.
  - right. split; reflexivity.
  - left. exists []. unfold VetObservers.reminder_update.
    destruct (String.eqb _ _); now rewrite adds_nothing.
Qed.

Lemma for_each_vet_effect (observers : list VetObserver)
    (appointment : AppointmentObj) (event : string) (w : World) :
  exists mails r,
    for_each observers (fun o => VetObservers.update o appointment event) w
    = (r, adds mails [] w) /\
    (r = Ok tt \/ r = Raise (AttributeError "is_emergency")) /\
    (Forall (fun o => vet_observer_class o <> EmergencyAlertObserver) observers ->
     r = Ok tt).
Proof.
  revert w. induction observers as [|o rest IH]; intros w; cbn [for_each].
  - exists [], (Ok tt). rewrite adds_nothing. auto.
  - destruct (vet_update_effect o appointment event w) as [(m1 & H1)|(Hc & H1)].
    + destruct (IH (adds m1 [] w)) as (m2 & r & H2 & Hr & Hok).
      exists (m1 ++ m2)%list, r. rewrite (bind_ok _ _ _ _ _ H1), H2, adds_adds.
      split; [reflexivity|]. split; [assumption|].
      intros Hall. apply Hok. now inversion Hall.
    + exists [], (Raise (AttributeError "is_emergency")).
      rewrite (bind_raise _ _ _ _ _ H1), adds_nothing.
      split; [reflexivity|]. split; [now right|].
      intros Hall. inversion Hall; subst. contradiction.
Qed.

Lemma notify_observers_effect (appointment : AppointmentObj) (event : string)
    (w : World) :
  exists mails r,
    AppointmentComponentFactory.notify_observers appointment event w
    = (r, adds mails [] w) /\
    (r = Ok tt \/ r = Raise (AttributeError "is_emergency")) /\
    (no_emergency_observer w -> r = Ok tt).
Proof.
  unfold AppointmentComponentFactory.notify_observers, no_emergency_observer.
  unfold bind at 1. unfold get_world.
  apply for_each_vet_effect.
Qed.

(** ** [process_appointment]: rescheduling *)

Lemma set_appointments_adds (m : gmap Z Appointment) (mails : list Email)
    (logs : list AppointmentNotification) (w : World) :
  set_appointments m (adds mails logs w) = adds mails logs (set_appointments m w).
Proof. reflexivity. Qed.

Lemma set_appointments_twice (m m' : gmap Z Appointment) (w : World) :
  set_appointments m (set_appointments m' w) = set_appointments m w.
Proof. reflexivity. Qed.

Lemma repository_save_effect (o : AppointmentObj) (w : World) :
  DjangoAppointmentRepository.save o w
  = (Ok o, set_appointments (<[pk o := fields o]> (appointments w)) w).
Proof. reflexivity. Qed.

(** The mail [RescheduleStrategy] sends. *)
Lemma reschedule_execute_effect (o : AppointmentObj) (kwargs : Kwargs)
    (stored : Appointment) (new_datetime : datetime) (w : World) :
  appointments w !! pk o = Some stored ->
  kw_new_datetime kwargs = Some new_datetime ->
  exists mail,
    mail_to mail = [email (owner (pet (fields o)))] /\
    RescheduleStrategy.execute o kwargs w
    = (Ok (with_fields (with_date_time new_datetime (fields o)) o),
       adds [mail] []
         (set_appointments
            (<[pk o := with_date_time new_datetime stored]> (appointments w)) w)).
Proof.
  intros Hrow Hkw. unfold RescheduleStrategy.execute. rewrite Hkw.
  eexists. split; [|].
  2:{ unfold bind at 1. unfold save_update_fields.
      cbn [pk with_fields]. rewrite Hrow.
      cbn [fold_left write_column String.eqb Ascii.eqb Bool.eqb fields with_fields
           date_time with_date_time].
      unfold bind at 1. unfold RescheduleStrategy.notify_rescheduled.
      rewrite send_mail_effect. reflexivity. }
  reflexivity.
Qed.

(** C4. Rescheduling a stored appointment to [new_datetime] writes that
    value into the [date_time] column of its row and changes no other
    column of it (status, veterinarian, pet, service type, clinic branch,
    notes) and no other row; besides that write the call only sends mail.
    It returns the rescheduled appointment unless a registered observer
    raises, which happens after the write. *)
Theorem reschedule_changes_date_time_only :
  forall (w : World) (appointment_id : Z) (a : Appointment) (kwargs : Kwargs)
         (new_datetime : datetime),
    appointments w !! appointment_id = Some a ->
    kw_new_datetime kwargs = Some new_datetime ->
    let run := AppointmentService.process_appointment appointment_id "reschedule"
                 kwargs w in
    (exists mails,
        snd run
        = adds mails []
            (set_appointments
               (<[appointment_id := with_date_time new_datetime a]> (appointments w))
               w)) /\
    (exists a',
        appointments (snd run) !! appointment_id = Some a' /\
        date_time a' = new_datetime /\
        status a' = status a /\ veterinarian a' = veterinarian a /\
        pet a' = pet a /\ service_type a' = service_type a /\
        clinic_branch a' = clinic_branch a /\ notes a' = notes a) /\
    (forall other, other <> appointment_id ->
        appointments (snd run) !! other = appointments w !! other) /\
    (fst run = Ok (loaded appointment_id (with_date_time new_datetime a)) \/
     fst run = Raise (AttributeError "is_emergency")) /\
    (no_emergency_observer w ->
     fst run = Ok (loaded appointment_id (with_date_time new_datetime a))).
Proof.
  intros w k a kwargs t Hrow Hkw run.
  set (row := with_date_time t a).
  assert (Hrun : exists mails r,
             run = (r, adds mails []
                         (set_appointments (<[k := row]> (appointments w)) w)) /\
             (r = Ok (loaded k row) \/ r = Raise (AttributeError "is_emergency")) /\
             (no_emergency_observer w -> r = Ok (loaded k row))).
  { subst run. unfold AppointmentService.process_appointment.
    rewrite (bind_ok _ _ _ _ _ (get_by_id_found _ _ _ Hrow)).
    rewrite (bind_ok _ _ _ _ _
               (get_strategy_known "reschedule" Reschedule w eq_refl)).
    cbn [execute].
    destruct (reschedule_execute_effect (loaded k a) kwargs a t w Hrow Hkw)
      as (mail & _ & Hexec).
    rewrite (bind_ok _ _ _ _ _ Hexec). cbn [fields loaded with_fields pk].
    fold row.
    rewrite (bind_ok _ _ _ _ _ (repository_save_effect _ _)).
    cbn [pk fields]. rewrite adds_appointments. cbn [appointments set_appointments].
    rewrite insert_insert_eq, set_appointments_adds, set_appointments_twice.
    change (with_fields row (loaded k a)) with (loaded k row).
    cbn [fields loaded].
    match goal with
    | |- context [AppointmentComponentFactory.notify_observers ?o ?e] =>
        destruct (notify_observers_effect o e
                    (adds [mail] []
                       (set_appointments (<[k := row]> (appointments w)) w)))
          as (mails & r & Hn & Hr & Hok)
    end.
    unfold bind. rewrite Hn. rewrite adds_adds.
    destruct Hr as [-> | ->].
    - eexists _, _. split; [reflexivity|]. split; [now left|]. reflexivity.
    - eexists _, _. split; [reflexivity|]. split; [now right|].
      intros Hno. specialize (Hok Hno). discriminate. }
  destruct Hrun as (mails & r & -> & Hr & Hok). cbn [fst snd].
  rewrite adds_appointments. cbn [appointments set_appointments].
  split; [eauto|]. split; [|split; [|split]].
  - exists row. rewrite lookup_insert_eq. now repeat split.
  - intros other Hne. now apply lookup_insert_ne.
  - exact Hr.
  - exact Hok.
Qed.

Lemma reschedule_changes_date_time_only_witness :
  appointments Sample.world !! 1 = Some Sample.booked /\
  kw_new_datetime Sample.reschedule_kwargs = Some Sample.next_day_ten /\
  exists a',
    appointments
      (snd (AppointmentService.process_appointment 1 "reschedule"
              Sample.reschedule_kwargs Sample.world)) !! 1 = Some a' /\
    date_time a' = Sample.next_day_ten /\
    status a' = status Sample.booked /\
    veterinarian a' = veterinarian Sample.booked /\
    pet a' = pet Sample.booked /\
    service_type a' = service_type Sample.booked /\
    clinic_branch a' = clinic_branch Sample.booked /\
    notes a' = notes Sample.booked.
Proof.
  split; [reflexivity|]. split; [reflexivity|].
  exact (proj1 (proj2
    (reschedule_changes_date_time_only Sample.world 1 Sample.booked
       Sample.reschedule_kwargs Sample.next_day_ten eq_refl eq_refl))).
Defined.

(** ** [process_appointment]: completing *)

Lemma complete_execute_follow_up (o : AppointmentObj) (kwargs : Kwargs)
    (d : datetime) (w : World) :
  kw_follow_up_date kwargs = Some d ->
  CompleteAppointmentStrategy.execute o kwargs w
  = (Raise (AttributeError "set_service_type"),
     set_appointments (<[pk o := with_status "completed" (fields o)]> (appointments w)) w).
Proof.
  intros Hkw. unfold CompleteAppointmentStrategy.execute. rewrite Hkw.
  reflexivity.
Qed.

Lemma complete_execute_plain (o : AppointmentObj) (kwargs : Kwargs) (w : World) :
  kw_follow_up_date kwargs = None ->
  CompleteAppointmentStrategy.execute o kwargs w
  = (Ok {| pk := pk o;
           fields := with_status "completed" (fields o);
           treatment_notes := Some (default "" (kw_treatment_notes kwargs));
           diagnosis := Some (default "" (kw_diagnosis kwargs));
           follow_up_date := None;
           cancellation_reason := cancellation_reason o |},
     set_appointments (<[pk o := with_status "completed" (fields o)]> (appointments w)) w).
Proof.
  intros Hkw. unfold CompleteAppointmentStrategy.execute. rewrite Hkw.
  reflexivity.
Qed.

(** Without a follow-up date, completion does what C3 says: the status
    becomes ['completed'] and the notes and the diagnosis are recorded on
    the appointment that is handed back. *)
Lemma complete_without_follow_up (w : World) (appointment_id : Z)
    (a : Appointment) (kwargs : Kwargs) :
  appointments w !! appointment_id = Some a ->
  kw_follow_up_date kwargs = None ->
  no_emergency_observer w ->
  exists mails,
    AppointmentService.process_appointment appointment_id "complete" kwargs w
    = (Ok {| pk := appointment_id;
             fields := with_status "completed" a;
             treatment_notes := Some (default "" (kw_treatment_notes kwargs));
             diagnosis := Some (default "" (kw_diagnosis kwargs));
             follow_up_date := None;
             cancellation_reason := None |},
       adds mails []
         (set_appointments
            (<[appointment_id := with_status "completed" a]> (appointments w)) w)).
Proof.
  intros Hrow Hkw Hno. unfold AppointmentService.process_appointment.
  rewrite (bind_ok _ _ _ _ _ (get_by_id_found _ _ _ Hrow)).
  rewrite (bind_ok _ _ _ _ _
             (get_strategy_known "complete" CompleteAppointment w eq_refl)).
  cbn [execute].
  rewrite (bind_ok _ _ _ _ _ (complete_execute_plain _ _ _ Hkw)).
  rewrite (bind_ok _ _ _ _ _ (repository_save_effect _ _)).
  cbn [pk fields loaded cancellation_reason appointments set_appointments].
  rewrite insert_insert_eq, set_appointments_twice.
  unfold bind.
  match goal with
  | |- context [AppointmentComponentFactory.notify_observers ?o ?e ?w'] =>
      destruct (notify_observers_effect o e w') as (mails & r & Hn & _ & Hok)
  end.
  rewrite (Hok Hno) in Hn. rewrite Hn.
  exists mails. reflexivity.
Qed.

(** With a follow-up date the call fails: the strategy asks the builder for
    a method [set_service_type], which the builder does not have (its
    method is [set_service]). The appointment has been written as completed
    by then; no follow-up appointment is built or saved. *)
Lemma complete_with_follow_up_fails (w : World) (appointment_id : Z)
    (a : Appointment) (kwargs : Kwargs) (d : datetime) :
  appointments w !! appointment_id = Some a ->
  kw_follow_up_date kwargs = Some d ->
  AppointmentService.process_appointment appointment_id "complete" kwargs w
  = (Raise (AttributeError "set_service_type"),
     set_appointments
       (<[appointment_id := with_status "completed" a]> (appointments w)) w).
Proof.
  intros Hrow Hkw. unfold AppointmentService.process_appointment.
  rewrite (bind_ok _ _ _ _ _ (get_by_id_found _ _ _ Hrow)).
  rewrite (bind_ok _ _ _ _ _
             (get_strategy_known "complete" CompleteAppointment w eq_refl)).
  cbn [execute].
  now rewrite (bind_raise _ _ _ _ _ (complete_execute_follow_up _ _ _ _ Hkw)).
Qed.

(** C3, evaluated. Completing the sample appointment with a follow-up date
    raises [AttributeError]; afterwards the table holds the one appointment,
    now completed, and nothing else: no pending follow-up for the same pet,
    veterinarian and branch was created, and no key was handed out. *)
Theorem complete_follow_up_not_created :
  let run := AppointmentService.process_appointment 1 "complete"
               Sample.complete_kwargs Sample.world in
  kw_follow_up_date Sample.complete_kwargs = Some (combine 7 (timedelta_hours 9)) /\
  fst run = Raise (AttributeError "set_service_type") /\
  appointments (snd run) = {[ 1 := with_status "completed" Sample.booked ]} /\
  next_pk (snd run) = next_pk Sample.world /\
  (forall k a, appointments (snd run) !! k = Some a -> status a <> "pending") /\
  AppointmentBuilder.setter "set_service_type" = None /\
  (exists f, AppointmentBuilder.setter "set_service" = Some f).
Proof.
  cbn zeta.
  rewrite (complete_with_follow_up_fails Sample.world 1 Sample.booked
             Sample.complete_kwargs _ eq_refl eq_refl).
  cbn [fst snd appointments set_appointments next_pk].
  split; [reflexivity|]. split; [reflexivity|].
  split; [apply insert_singleton_eq|]. split; [reflexivity|].
  split; [|split; [reflexivity | eexists; reflexivity]].
  intros k a'. unfold Sample.world. cbn [appointments].
  rewrite insert_singleton_eq.
  intros [_ <-]%lookup_singleton_Some. discriminate.
Qed.

(** ** [process_appointment]: where a [ValueError] comes from *)

(** The two guards inside the strategies. *)
Lemma reschedule_without_datetime (o : AppointmentObj) (kwargs : Kwargs) (w : World) :
  kw_new_datetime kwargs = None ->
  RescheduleStrategy.execute o kwargs w
  = (Raise (ValueError "New datetime is required for rescheduling"), w).
Proof. intros H. unfold RescheduleStrategy.execute. now rewrite H. Qed.

Lemma referral_without_vet (o : AppointmentObj) (kwargs : Kwargs) (w : World) :
  truthy (default VNone (kw_new_vet kwargs)) = false ->
  ReferralStrategy.execute o kwargs w
  = (Raise (ValueError "New veterinarian is required for referral"), w).
Proof. intros H. unfold ReferralStrategy.execute. now rewrite H. Qed.

(** The foreign key refuses a new veterinarian that is not a user account,
    before anything is written. *)
Lemma referral_refused (o : AppointmentObj) (kwargs : Kwargs) (w : World) :
  is_user (default VNone (kw_new_vet kwargs)) = false ->
  exists msg, ReferralStrategy.execute o kwargs w = (Raise (ValueError msg), w).
Proof.
  intros H. unfold ReferralStrategy.execute.
  destruct (truthy (default VNone (kw_new_vet kwargs))); cbn [negb]; [|eauto].
  destruct (default VNone (kw_new_vet kwargs)); try discriminate; cbn; eauto.
Qed.

Lemma process_appointment_dispatch (w : World) (appointment_id : Z)
    (action : string) (kwargs : Kwargs) (a : Appointment) (s : Strategy) :
  appointments w !! appointment_id = Some a ->
  AppointmentComponentFactory.strategies !! action = Some s ->
  AppointmentService.process_appointment appointment_id action kwargs w
  = run_strategy s (loaded appointment_id a) action kwargs w.
Proof.
  intros Hrow Hs. unfold AppointmentService.process_appointment.
  rewrite (bind_ok _ _ _ _ _ (get_by_id_found _ _ _ Hrow)).
  now rewrite (bind_ok _ _ _ _ _ (get_strategy_known _ _ _ Hs)).
Qed.

Lemma process_appointment_missing (w : World) (appointment_id : Z)
    (action : string) (kwargs : Kwargs) :
  appointments w !! appointment_id = None ->
  AppointmentService.process_appointment appointment_id action kwargs w
  = (Raise (ValueError ("Appointment not found: " +:+ pretty appointment_id)), w).
Proof.
  intros Hrow. unfold AppointmentService.process_appointment.
  now rewrite (bind_ok _ _ _ _ _ (get_by_id_missing _ _ Hrow)).
Qed.

Lemma process_appointment_unknown_action (w : World) (appointment_id : Z)
    (action : string) (kwargs : Kwargs) (a : Appointment) :
  appointments w !! appointment_id = Some a ->
  AppointmentComponentFactory.strategies !! action = None ->
  AppointmentService.process_appointment appointment_id action kwargs w
  = (Raise (ValueError ("Unknown strategy type: " +:+ action)), w).
Proof.
  intros Hrow Hs. unfold AppointmentService.process_appointment.
  rewrite (bind_ok _ _ _ _ _ (get_by_id_found _ _ _ Hrow)).
  now rewrite (bind_raise _ _ _ _ _ (get_strategy_unknown _ _ Hs)).
Qed.

(** C5, as the code has it. [process_appointment] raises [ValueError] and
    has changed nothing when no appointment has the given id, when the
    action is none of ['complete'], ['reschedule'], ['cancel'], ['no_show'],
    ['refer'], and also when the strategy refuses its arguments before it
    writes: ['reschedule'] without [new_datetime], ['refer'] without
    [new_vet] or with a [new_vet] that is not a user account. For the five
    actions on an existing appointment the strategy of that name is
    executed, the appointment saved and the observers notified. *)
Theorem process_appointment_value_errors :
  forall (w : World) (appointment_id : Z) (action : string) (kwargs : Kwargs),
    let run := AppointmentService.process_appointment appointment_id action kwargs w in
    (appointments w !! appointment_id = None \/
     action ∉ ACTIONS \/
     (action = "reschedule" /\ kw_new_datetime kwargs = None) \/
     (action = "refer" /\ is_user (default VNone (kw_new_vet kwargs)) = false) ->
     raises_ValueError (fst run) = true /\ snd run = w) /\
    AppointmentComponentFactory.strategies !! "complete" = Some CompleteAppointment /\
    AppointmentComponentFactory.strategies !! "reschedule" = Some Reschedule /\
    AppointmentComponentFactory.strategies !! "cancel" = Some Cancellation /\
    AppointmentComponentFactory.strategies !! "no_show" = Some NoShow /\
    AppointmentComponentFactory.strategies !! "refer" = Some Referral /\
    (forall a, appointments w !! appointment_id = Some a ->
       action ∈ ACTIONS ->
       exists s,
         AppointmentComponentFactory.strategies !! action = Some s /\
         run = run_strategy s (loaded appointment_id a) action kwargs w).
Proof.
  intros w k action kwargs run.
  split; [|repeat split; try reflexivity].
  - intros Hcase. subst run.
    destruct (appointments w !! k) as [a|] eqn:Hrow.
    2:{ now rewrite (process_appointment_missing _ _ _ _ Hrow). }
    destruct (AppointmentComponentFactory.strategies !! action) as [s|] eqn:Hs.
    2:{ now rewrite (process_appointment_unknown_action _ _ _ _ _ Hrow Hs). }
    rewrite (process_appointment_dispatch _ _ _ _ _ _ Hrow Hs).
    destruct Hcase as [H|[H|[[-> Hkw]|[-> Hkw]]]].
    + discriminate.
    + apply strategies_lookup_None in H. congruence.
    + injection Hs as <-. unfold run_strategy. cbn [execute].
      now rewrite (bind_raise _ _ _ _ _ (reschedule_without_datetime _ _ _ Hkw)).
    + injection Hs as <-. unfold run_strategy. cbn [execute].
      destruct (referral_refused (loaded k a) kwargs w Hkw) as (msg & Hraise).
      now rewrite (bind_raise _ _ _ _ _ Hraise).
  - intros a Hrow Hin.
    destruct (AppointmentComponentFactory.strategies !! action) as [s|] eqn:Hs.
    + exists s. split; [reflexivity|]. now apply process_appointment_dispatch.
    + apply strategies_lookup_None in Hs. contradiction.
Qed.

Lemma process_appointment_value_errors_witness :
  appointments Sample.world !! 1 = Some Sample.booked /\
  "refer" ∈ ACTIONS /\
  kw_new_vet Sample.refer_profile_kwargs = Some (VVeterinarian Sample.moss_profile) /\
  raises_ValueError
    (fst (AppointmentService.process_appointment 1 "refer" Sample.refer_profile_kwargs
            Sample.world))
  = true /\
  snd (AppointmentService.process_appointment 1 "refer" Sample.refer_profile_kwargs
         Sample.world)
  = Sample.world.
Proof.
  pose proof (process_appointment_value_errors Sample.world 1 "refer"
                Sample.refer_profile_kwargs) as (Hif & _).
  split; [reflexivity|].
  split; [unfold ACTIONS; rewrite !elem_of_cons; auto 10|].
  split; [reflexivity|].
  apply Hif. right. right. right. split; reflexivity.
Defined.

(** C5 as it was stated fails: with an existing appointment and a known
    action, ['reschedule'] without [new_datetime] still raises
    [ValueError]. *)
Lemma process_appointment_value_error_from_strategy :
  ~ (raises_ValueError
       (fst (AppointmentService.process_appointment 1 "reschedule" no_kwargs
               Sample.world)) = true <->
     (appointments Sample.world !! 1 = None \/ "reschedule" ∉ ACTIONS)).
Proof.
  intros [H _].
  destruct H as [H|H].
  - vm_compute. reflexivity.
  - vm_compute in H. discriminate.
  - apply H. unfold ACTIONS. rewrite !elem_of_cons. auto.
Qed.

(** ** Creation *)

Lemma keys_below_next_fresh (w : World) :
  keys_below_next w -> appointments w !! next_pk w = None.
Proof.
  intros Hw. destruct (appointments w !! next_pk w) as [a|] eqn:H; [|reflexivity].
  specialize (Hw (next_pk w)). rewrite H in Hw.
  specialize (Hw (mk_is_Some _ _ eq_refl)). lia.
Qed.

(** Inserting a row keeps the key sequence ahead of the keys in use. *)
Lemma insert_new_keeps_keys_below (i : AppointmentInit) (w : World) :
  keys_below_next w -> keys_below_next (snd (insert_new i w)).
Proof.
  intros Hw. unfold insert_new. destruct (columns_of i) as [a|]; [|exact Hw].
  intros k. cbn [snd appointments next_pk set_next_pk set_appointments].
  rewrite lookup_insert. case_decide as Hk.
  - intros _. lia.
  - intros H. specialize (Hw k H). lia.
Qed.

Lemma get_object_or_404_found {A} (table : World -> gmap Z A) (key : Z) (row : A)
    (w : World) :
  table w !! key = Some row -> get_object_or_404 table key w = (Ok row, w).
Proof. intros H. unfold get_object_or_404. now rewrite H. Qed.

Lemma book_appointment_books (w : World) (request : Request) (p : Pet)
    (s : ServiceType) (v : CustomUser) (t : datetime) (c : ClinicBranch) :
  method request = "POST" ->
  pets w !! post_pet request = Some p ->
  service_types w !! post_service_type request = Some s ->
  is_Some (get_appointment_factory (service_name s)) ->
  users w !! post_veterinarian request = Some v ->
  post_date_time request = Some t ->
  clinic_branches w !! post_clinic_branch request = Some c ->
  exists mails logs,
    book_appointment request w
    = (Ok (RedirectToSummary (next_pk w)),
       adds mails logs
         (set_next_pk (next_pk w + 1)
            (set_appointments
               (<[next_pk w := booked_row p s v t c (default "" (post_notes request))]>
                  (appointments w)) w))).
Proof.
  intros Hm Hp Hs [f Hf] Hv Ht Hc.
  unfold book_appointment. rewrite Hm. cbn [String.eqb Ascii.eqb Bool.eqb].
  unfold try_except.
  rewrite (bind_ok _ _ _ _ _ (get_object_or_404_found pets _ _ _ Hp)).
  rewrite (bind_ok _ _ _ _ _ (eq_refl : invoke "set_pet" _ _ w = (Ok _, w))).
  rewrite (bind_ok _ _ _ _ _ (get_object_or_404_found service_types _ _ _ Hs)).
  rewrite (bind_ok _ _ _ _ _ (eq_refl : invoke "set_service" _ _ w = (Ok _, w))).
  rewrite (bind_ok _ _ _ _ _ (get_object_or_404_found users _ _ _ Hv)).
  rewrite (bind_ok _ _ _ _ _ (eq_refl : invoke "set_veterinarian" _ _ w = (Ok _, w))).
  rewrite Ht.
  rewrite (bind_ok _ _ _ _ _ (eq_refl : strptime (Some t) w = (Ok t, w))).
  rewrite (bind_ok _ _ _ _ _ (eq_refl : invoke "set_datetime" _ _ w = (Ok _, w))).
  rewrite (bind_ok _ _ _ _ _ (get_object_or_404_found clinic_branches _ _ _ Hc)).
  rewrite (bind_ok _ _ _ _ _ (eq_refl : invoke "set_clinic_branch" _ _ w = (Ok _, w))).
  rewrite (bind_ok _ _ _ _ _ (eq_refl : invoke "set_notes" _ _ w = (Ok _, w))).
  erewrite bind_ok by reflexivity.
  cbn [init_service_type collected].
  rewrite (bind_ok _ _ _ _ _
             (eq_refl : service_type_name (VService s) w = (Ok (service_name s), w))).
  rewrite Hf.
  set (row := booked_row p s v t c (default "" (post_notes request))).
  set (w1 := set_next_pk (next_pk w + 1)
               (set_appointments (<[next_pk w := row]> (appointments w)) w)).
  assert (Hcreate : forall i,
            Appointment_init i = Ok i ->
            columns_of i = Some row ->
            factory_create_appointment f i w = (Ok (loaded (next_pk w) row), w1)).
  { intros i Hmade Hi. destruct f; cbn [factory_create_appointment];
      unfold objects_create, of_result, bind, insert_new;
      rewrite Hmade, Hi; reflexivity. }
  erewrite bind_ok; [|apply Hcreate; reflexivity].
  destruct (notify_each_adds (subject_observers w1) (loaded (next_pk w) row) w1)
    as (mails & logs & Hn).
  assert (Hnotify : Observers.AppointmentSubject.notify (loaded (next_pk w) row) w1
                    = (Ok tt, adds mails logs w1)) by exact Hn.
  rewrite (bind_ok _ _ _ _ _ Hnotify).
  exists mails, logs. reflexivity.
Qed.

Lemma director_call_effect (name : string) (arg : PyVal)
    (method : PyVal -> AppointmentBuilder.t -> AppointmentBuilder.t) (w : World) :
  AppointmentBuilder.setter name = Some method ->
  AppointmentDirector.call name arg w
  = (Ok tt, set_director_builder (method arg (director_builder w)) w).
Proof.
  intros H. unfold AppointmentDirector.call, invoke. rewrite H. reflexivity.
Qed.

(** The director's build, on a builder whose service entry holds a label:
    the entry is refused and the builder keeps what it holds. *)
Lemma director_build_refused (b : AppointmentBuilder.t) (w : World) (label : string)
    (p : Pet) :
  director_builder w = b ->
  AppointmentBuilder.b_pet b = VPet p ->
  AppointmentBuilder.b_service_type b = VStr label ->
  AppointmentDirector.build w
  = (Raise (ValueError "Cannot assign to Appointment.service_type"), w).
Proof.
  intros Hb Hp Hs. unfold AppointmentDirector.build.
  unfold bind at 1. unfold get_world. rewrite Hb.
  unfold AppointmentBuilder.build, Appointment_init.
  cbn [init_pet init_service_type]. rewrite Hp, Hs.
  cbn [assign_foreign_key is_pet is_service].
  unfold bind, modify, of_result. cbn [fst snd].
  destruct w; cbn in *; subst; reflexivity.
Qed.

Ltac director_chain :=
  repeat (erewrite bind_ok; [|apply director_call_effect; reflexivity]);
  eapply director_build_refused; reflexivity.

Lemma create_regular_checkup_effect (p : Pet) (v : CustomUser) (c : ClinicBranch)
    (t : datetime) (w : World) :
  AppointmentDirector.create_regular_checkup p v c t w
  = (Raise (ValueError "Cannot assign to Appointment.service_type"),
     set_director_builder
       (held (VPet p) (VStr "regular_checkup") (VUser v) (VDatetime t) (VBranch c)
          (VStr "Regular health checkup") (VStr "pending")) w).
Proof. unfold AppointmentDirector.create_regular_checkup. director_chain. Qed.

Lemma create_regular_effect (w : World) (kwargs : CreateKwargs) (p : Pet)
    (v : CustomUser) (c : ClinicBranch) (t : datetime) :
  ck_pet kwargs = Some p ->
  ck_vet kwargs = Some v ->
  ck_clinic_branch kwargs = Some c ->
  ck_date_time kwargs = Some t ->
  AppointmentService.create_appointment "regular" kwargs w
  = (Raise (ValueError "Cannot assign to Appointment.service_type"),
     set_director_builder
       (held (VPet p) (VStr "regular_checkup") (VUser v) (VDatetime t) (VBranch c)
          (VStr "Regular health checkup") (VStr "pending")) w).
Proof.
  intros Hp Hv Hc Ht. unfold AppointmentService.create_appointment.
  cbn [String.eqb Ascii.eqb Bool.eqb]. rewrite Hp, Hv, Hc, Ht.
  cbn [item]. rewrite !bind_bind.
  rewrite (bind_ok _ _ _ _ _ (eq_refl : ret p w = (Ok p, w))).
  rewrite !bind_bind.
  rewrite (bind_ok _ _ _ _ _ (eq_refl : ret v w = (Ok v, w))).
  rewrite !bind_bind.
  rewrite (bind_ok _ _ _ _ _ (eq_refl : ret c w = (Ok c, w))).
  rewrite !bind_bind.
  rewrite (bind_ok _ _ _ _ _ (eq_refl : ret t w = (Ok t, w))).
  now rewrite (bind_raise _ _ _ _ _ (create_regular_checkup_effect p v c t w)).
Qed.

(** C6, on the code. Nothing in creation looks for a conflict. In a world
    that holds a confirmed appointment [a] of veterinarian [v] at time [t],
    booking another appointment of [v] at [t] through [book_appointment] (a
    POST whose pet, service type, veterinarian and branch exist, whose
    service has a factory and whose date parses) succeeds: the new row gets
    the next key, which is not [a]'s, and afterwards both rows are in the
    table, [a] as it was. [create_appointment('regular', ...)] for [v] at
    [t] does not get that far, and not because of [a]: the director puts the
    label ['regular_checkup'] where a [ServiceType] is due, [build] raises
    [ValueError], and the table is left as it was, with [a] alone. *)
Theorem creation_ignores_conflicts :
  forall (w : World) (k : Z) (a : Appointment) (v : CustomUser) (t : datetime),
    keys_below_next w ->
    appointments w !! k = Some a ->
    status a = "confirmed" ->
    veterinarian a = v ->
    date_time a = t ->
    (forall (request : Request) (p : Pet) (s : ServiceType) (c : ClinicBranch),
        method request = "POST" ->
        pets w !! post_pet request = Some p ->
        service_types w !! post_service_type request = Some s ->
        is_Some (get_appointment_factory (service_name s)) ->
        users w !! post_veterinarian request = Some v ->
        post_date_time request = Some t ->
        clinic_branches w !! post_clinic_branch request = Some c ->
        let run := book_appointment request w in
        let row := booked_row p s v t c (default "" (post_notes request)) in
        fst run = Ok (RedirectToSummary (next_pk w)) /\
        next_pk w <> k /\
        appointments (snd run) = <[next_pk w := row]> (appointments w) /\
        appointments (snd run) !! k = Some a /\
        appointments (snd run) !! next_pk w = Some row /\
        veterinarian row = veterinarian a /\ date_time row = date_time a) /\
    (forall (kwargs : CreateKwargs) (p : Pet) (c : ClinicBranch),
        ck_pet kwargs = Some p ->
        ck_vet kwargs = Some v ->
        ck_clinic_branch kwargs = Some c ->
        ck_date_time kwargs = Some t ->
        let run := AppointmentService.create_appointment "regular" kwargs w in
        fst run = Raise (ValueError "Cannot assign to Appointment.service_type") /\
        appointments (snd run) = appointments w /\
        next_pk (snd run) = next_pk w /\
        appointments (snd run) !! k = Some a /\
        appointments (snd run) !! next_pk w = None).
Proof.
  intros w k a v t Hw Hrow Hst Hvet Htime.
  assert (Hne : next_pk w <> k).
  { intros <-. rewrite (keys_below_next_fresh w Hw) in Hrow. discriminate. }
  split.
  - intros request p s c Hm Hp Hs Hf Hv Ht Hc run row.
    destruct (book_appointment_books w request p s v t c Hm Hp Hs Hf Hv Ht Hc)
      as (mails & logs & Hrun).
    subst run. rewrite Hrun. cbn [fst snd].
    rewrite adds_appointments. cbn [appointments set_next_pk set_appointments].
    fold row.
    repeat split; try assumption; try (symmetry; assumption).
    + rewrite lookup_insert_ne; assumption.
    + apply lookup_insert_eq.
  - intros kwargs p c Hp Hv Hc Ht run. subst run.
    rewrite (create_regular_effect w kwargs p v c t Hp Hv Hc Ht).
    cbn [fst snd appointments next_pk set_director_builder].
    repeat split; try assumption.
    now apply keys_below_next_fresh.
Qed.

Lemma sample_keys_below_next : keys_below_next Sample.world.
Proof.
  intros k [x Hx]. unfold Sample.world in Hx. cbn [appointments] in Hx.
  apply lookup_singleton_Some in Hx as [<- _]. reflexivity.
Qed.

Lemma creation_ignores_conflicts_witness :
  keys_below_next Sample.world /\
  appointments Sample.world !! 1 = Some Sample.booked /\
  status Sample.booked = "confirmed" /\
  (let run := book_appointment Sample.booking_request Sample.world in
   fst run = Ok (RedirectToSummary 2) /\
   appointments (snd run) !! 1 = Some Sample.booked /\
   appointments (snd run) !! 2
   = Some (booked_row Sample.rex Sample.checkup Sample.dr_vega
             Sample.quarter_past_nine Sample.main_branch "")) /\
  (let run := AppointmentService.create_appointment "regular" Sample.regular_kwargs
                Sample.world in
   fst run = Raise (ValueError "Cannot assign to Appointment.service_type") /\
   appointments (snd run) !! 1 = Some Sample.booked /\
   appointments (snd run) !! 2 = None).
Proof.
  pose proof (creation_ignores_conflicts Sample.world 1 Sample.booked
                Sample.dr_vega Sample.quarter_past_nine
                sample_keys_below_next eq_refl eq_refl eq_refl eq_refl)
    as [Hbook Hcreate].
  split; [exact sample_keys_below_next|].
  split; [reflexivity|]. split; [reflexivity|]. split.
  - destruct (Hbook Sample.booking_request Sample.rex Sample.checkup
                Sample.main_branch eq_refl eq_refl eq_refl
                (mk_is_Some _ _ eq_refl) eq_refl eq_refl eq_refl)
      as (H1 & _ & _ & H2 & H3 & _).
    cbn zeta. split; [exact H1 | split; [exact H2 | exact H3]].
  - destruct (Hcreate Sample.regular_kwargs Sample.rex Sample.main_branch
                eq_refl eq_refl eq_refl eq_refl)
      as (H1 & _ & _ & H2 & H3).
    cbn zeta. split; [exact H1 | split; [exact H2 | exact H3]].
Defined.

(** ** Creation of any kind leaves the rows that are there alone *)

Lemma keeps_rows_ret {A} (a : A) : keeps_rows (ret a).
Proof. intros w Hw. split; [exact Hw | auto]. Qed.

Lemma keeps_rows_raise {A} (e : Exception) : keeps_rows (@raise A e).
Proof. intros w Hw. split; [exact Hw | auto]. Qed.

Lemma keeps_rows_get_world : keeps_rows get_world.
Proof. intros w Hw. split; [exact Hw | auto]. Qed.

Lemma keeps_rows_of_result {A} (r : Result A) : keeps_rows (of_result r).
Proof. intros w Hw. split; [exact Hw | auto]. Qed.

Lemma keeps_rows_bind {A B} (m : M A) (k : A -> M B) :
  keeps_rows m -> (forall a, keeps_rows (k a)) -> keeps_rows (bind m k).
Proof.
  intros Hm Hk w Hw. unfold bind. destruct (Hm w Hw) as [Hw' Hrows].
  destruct (m w) as [[a|e] w']; cbn [snd] in *.
  - destruct (Hk a w' Hw') as [Hw'' Hrows']. split; [exact Hw''|].
    intros j r Hj. apply Hrows', Hrows, Hj.
  - split; assumption.
Qed.

Lemma keeps_rows_try_except {A} (body : M A) (handled : Exception -> bool)
    (handler : Exception -> M A) :
  keeps_rows body -> (forall e, keeps_rows (handler e)) ->
  keeps_rows (try_except body handled handler).
Proof.
  intros Hb Hh w Hw. unfold try_except. destruct (Hb w Hw) as [Hw' Hrows].
  destruct (body w) as [[a|e] w']; cbn [snd] in *; [split; assumption|].
  destruct (handled e); [|split; assumption].
  destruct (Hh e w' Hw') as [Hw'' Hrows']. split; [exact Hw''|].
  intros j r Hj. apply Hrows', Hrows, Hj.
Qed.

Lemma keeps_rows_item {A} (key : string) (value : option A) :
  keeps_rows (item key value).
Proof. destruct value; [apply keeps_rows_ret | apply keeps_rows_raise]. Qed.

Lemma keeps_rows_invoke (name : string) (arg : PyVal) (b : AppointmentBuilder.t) :
  keeps_rows (invoke name arg b).
Proof.
  unfold invoke. destruct (AppointmentBuilder.setter name);
    [apply keeps_rows_ret | apply keeps_rows_raise].
Qed.

Lemma keeps_rows_set_director_builder (b : AppointmentBuilder.t) :
  keeps_rows (modify (set_director_builder b)).
Proof. intros w Hw. split; [exact Hw | auto]. Qed.

Lemma keeps_rows_insert_new (i : AppointmentInit) : keeps_rows (insert_new i).
Proof.
  intros w Hw. split; [now apply insert_new_keeps_keys_below|].
  intros k a Hk. unfold insert_new. destruct (columns_of i) as [row|]; [|exact Hk].
  cbn [snd appointments set_next_pk set_appointments].
  rewrite lookup_insert_ne; [exact Hk|].
  intros <-. rewrite (keys_below_next_fresh w Hw) in Hk. discriminate.
Qed.

Lemma keeps_rows_adds {A} (m : M A) :
  (forall w, exists r mails logs, m w = (r, adds mails logs w)) -> keeps_rows m.
Proof.
  intros H w Hw. destruct (H w) as (r & mails & logs & ->).
  split; [exact Hw | auto].
Qed.

Lemma keeps_rows_notify_observers (o : AppointmentObj) (event : string) :
  keeps_rows (AppointmentComponentFactory.notify_observers o event).
Proof.
  apply keeps_rows_adds. intros w.
  destruct (notify_observers_effect o event w) as (mails & r & H & _).
  eauto.
Qed.

Lemma keeps_rows_subject_notify (o : AppointmentObj) :
  keeps_rows (Observers.AppointmentSubject.notify o).
Proof.
  apply keeps_rows_adds. intros w.
  destruct (notify_each_adds (subject_observers w) o w) as (mails & logs & H).
  exists (Ok tt), mails, logs. exact H.
Qed.

Lemma keeps_rows_get_object_or_404 {A} (table : World -> gmap Z A) (key : Z) :
  keeps_rows (get_object_or_404 table key).
Proof.
  intros w Hw. unfold get_object_or_404.
  destruct (table w !! key); (split; [exact Hw | auto]).
Qed.

Lemma keeps_rows_director_call (name : string) (arg : PyVal) :
  keeps_rows (AppointmentDirector.call name arg).
Proof.
  unfold AppointmentDirector.call.
  apply keeps_rows_bind; [apply keeps_rows_get_world | intros w].
  apply keeps_rows_bind; [apply keeps_rows_invoke | intros b].
  apply keeps_rows_set_director_builder.
Qed.

Lemma keeps_rows_director_build : keeps_rows AppointmentDirector.build.
Proof.
  unfold AppointmentDirector.build.
  apply keeps_rows_bind; [apply keeps_rows_get_world | intros w].
  apply keeps_rows_bind; [apply keeps_rows_set_director_builder | intros _].
  apply keeps_rows_of_result.
Qed.

Create HintDb keeps_rows.
#[local] Hint Resolve keeps_rows_ret keeps_rows_raise keeps_rows_get_world
  keeps_rows_of_result keeps_rows_item keeps_rows_invoke keeps_rows_insert_new
  keeps_rows_notify_observers keeps_rows_subject_notify
  keeps_rows_get_object_or_404 keeps_rows_director_call
  keeps_rows_director_build : keeps_rows.

Ltac keeps_rows :=
  repeat first
    [ solve [auto with keeps_rows]
    | apply keeps_rows_bind; [|intros ?] ].

(** Whatever kind of appointment is asked for and whatever the keyword
    arguments are, [create_appointment] neither removes nor changes a row
    that is already there; the same holds for [book_appointment]. *)
Lemma create_appointment_keeps_rows (appointment_type : string)
    (kwargs : CreateKwargs) :
  keeps_rows (AppointmentService.create_appointment appointment_type kwargs).
Proof.
  unfold AppointmentService.create_appointment.
  apply keeps_rows_bind.
  - repeat (match goal with |- context [if ?b then _ else _] => destruct b end).
    + unfold AppointmentDirector.create_regular_checkup. keeps_rows.
    + unfold AppointmentDirector.create_emergency_appointment,
        AppointmentDirector.import_Veterinarian.
      keeps_rows.
    + unfold AppointmentDirector.create_follow_up. keeps_rows.
    + unfold AppointmentDirector.create_vaccination. keeps_rows.
    + unfold AppointmentDirector.create_surgery. keeps_rows.
    + keeps_rows.
  - intros i. unfold DjangoAppointmentRepository.save_new. keeps_rows.
Qed.

Lemma book_appointment_keeps_rows (request : Request) :
  keeps_rows (book_appointment request).
Proof.
  unfold book_appointment. destruct (String.eqb (method request) "POST");
    [|apply keeps_rows_ret].
  apply keeps_rows_try_except; [|intros e; apply keeps_rows_ret].
  keeps_rows.
  - unfold strptime. destruct (post_date_time request); keeps_rows.
  - unfold service_type_name.
    match goal with |- context [match ?x with _ => _ end] => destruct x end;
      keeps_rows.
  - match goal with |- context [match ?x with _ => _ end] => destruct x as [f|] end;
      [destruct f; cbn [factory_create_appointment]|]; keeps_rows.
Qed.

(* ===================================================================== *)
(** * Further properties *)
(* ===================================================================== *)

(** ** The other strategies *)

(** From the effect of a strategy's [execute] to the effect of the whole
    call. *)
Lemma process_after_execute (w : World) (appointment_id : Z) (action : string)
    (kwargs : Kwargs) (a : Appointment) (s : Strategy) (o' : AppointmentObj)
    (sent : list Email) :
  appointments w !! appointment_id = Some a ->
  AppointmentComponentFactory.strategies !! action = Some s ->
  execute s (loaded appointment_id a) kwargs w
  = (Ok o',
     adds sent []
       (set_appointments (<[appointment_id := fields o']> (appointments w)) w)) ->
  pk o' = appointment_id ->
  exists mails r,
    AppointmentService.process_appointment appointment_id action kwargs w
    = (r, adds (sent ++ mails) []
            (set_appointments (<[appointment_id := fields o']> (appointments w)) w)) /\
    (r = Ok o' \/ r = Raise (AttributeError "is_emergency")) /\
    (no_emergency_observer w -> r = Ok o').
Proof.
  intros Hrow Hs Hexec Hpk.
  rewrite (process_appointment_dispatch _ _ _ _ _ _ Hrow Hs).
  unfold run_strategy.
  rewrite (bind_ok _ _ _ _ _ Hexec).
  rewrite (bind_ok _ _ _ _ _ (repository_save_effect _ _)).
  rewrite Hpk, adds_appointments. cbn [appointments set_appointments].
  rewrite insert_insert_eq, set_appointments_adds, set_appointments_twice.
  set (w1 := adds sent [] (set_appointments _ w)).
  destruct (notify_observers_effect o' action w1) as (mails & r & Hn & Hr & Hok).
  unfold bind. rewrite Hn. subst w1. rewrite adds_adds. cbn [app].
  destruct Hr as [-> | ->].
  - exists mails, (Ok o'). split; [reflexivity|]. auto.
  - exists mails, (Raise (AttributeError "is_emergency")).
    split; [reflexivity|]. split; [auto|].
    intros Hno. specialize (Hok Hno). discriminate.
Qed.

Lemma cancellation_execute_effect (o : AppointmentObj) (kwargs : Kwargs) (w : World) :
  let row := with_status "cancelled" (fields o) in
  let reason := default "" (kw_reason kwargs) in
  CancellationStrategy.execute o kwargs w
  = (Ok {| pk := pk o; fields := row;
           treatment_notes := treatment_notes o; diagnosis := diagnosis o;
           follow_up_date := follow_up_date o;
           cancellation_reason := Some reason |},
     adds (if default true (kw_notify_client kwargs)
           then [cancellation_mail row reason w] else [])
          []
          (set_appointments (<[pk o := row]> (appointments w)) w)).
Proof.
  cbn zeta. unfold CancellationStrategy.execute.
  destruct (default true (kw_notify_client kwargs)).
  - unfold bind at 1. unfold save, modify.
    unfold bind at 1. unfold CancellationStrategy.notify_cancellation.
    rewrite send_mail_effect. reflexivity.
  - rewrite adds_nothing. reflexivity.
Qed.

Lemma no_show_execute_effect (o : AppointmentObj) (kwargs : Kwargs) (w : World) :
  let row := with_notes ("No-show: " +:+ default "" (kw_notes kwargs))
               (with_status "no_show" (fields o)) in
  NoShowStrategy.execute o kwargs w
  = (Ok (with_fields row o),
     adds [no_show_mail row w] []
       (set_appointments (<[pk o := row]> (appointments w)) w)).
Proof.
  cbn zeta. unfold NoShowStrategy.execute.
  unfold bind at 1. unfold save, modify.
  unfold bind at 1. unfold NoShowStrategy.record_no_show, ret.
  unfold bind at 1. unfold NoShowStrategy.notify_no_show.
  rewrite send_mail_effect. reflexivity.
Qed.

Lemma referral_execute_effect (o : AppointmentObj) (kwargs : Kwargs)
    (new_vet : CustomUser) (w : World) :
  default VNone (kw_new_vet kwargs) = VUser new_vet ->
  let old_vet := veterinarian (fields o) in
  let row := with_notes ("Referred by Dr. " +:+ get_full_name old_vet +:+ ": "
                         +:+ default "" (kw_notes kwargs))
               (with_veterinarian new_vet (fields o)) in
  ReferralStrategy.execute o kwargs w
  = (Ok (with_fields row o),
     adds [referral_mail row old_vet new_vet (default "" (kw_reason kwargs)) w] []
       (set_appointments (<[pk o := row]> (appointments w)) w)).
Proof.
  intros Hv. cbn zeta. unfold ReferralStrategy.execute. rewrite Hv.
  cbn [truthy negb as_user].
  unfold bind at 1. unfold save, modify.
  unfold bind at 1. unfold ReferralStrategy.notify_referral.
  rewrite send_mail_effect. reflexivity.
Qed.

(** X1. Cancelling a stored appointment through the service sets its
    status to ['cancelled'] and changes no other column and no other row.
    The owner of the pet is sent the cancellation mail unless
    [notify_client] is passed as false; the mail is the first thing sent. *)
Theorem cancel_sets_status_and_tells_owner :
  forall (w : World) (appointment_id : Z) (a : Appointment) (kwargs : Kwargs),
    appointments w !! appointment_id = Some a ->
    let run := AppointmentService.process_appointment appointment_id "cancel"
                 kwargs w in
    let row := with_status "cancelled" a in
    let reason := default "" (kw_reason kwargs) in
    (exists mails,
        snd run
        = adds ((if default true (kw_notify_client kwargs)
                 then [cancellation_mail row reason w] else []) ++ mails) []
            (set_appointments (<[appointment_id := row]> (appointments w)) w)) /\
    appointments (snd run) = <[appointment_id := row]> (appointments w) /\
    mail_to (cancellation_mail row reason w) = [email (owner (pet a))] /\
    (no_emergency_observer w ->
     exists o, fst run = Ok o /\ pk o = appointment_id /\ fields o = row /\
               cancellation_reason o = Some reason).
Proof.
  intros w k a kwargs Hrow run row reason.
  pose proof (cancellation_execute_effect (loaded k a) kwargs w) as Hexec.
  cbn zeta in Hexec. cbn [fields loaded pk treatment_notes diagnosis
                          follow_up_date] in Hexec.
  destruct (process_after_execute w k "cancel" kwargs a Cancellation _ _
              Hrow eq_refl Hexec eq_refl) as (mails & r & Hrun & _ & Hok).
  cbn [fields] in Hrun. subst run. rewrite Hrun. cbn [fst snd].
  split; [exists mails; reflexivity|]. split; [reflexivity|].
  split; [reflexivity|].
  intros Hno. rewrite (Hok Hno). eexists. split; [reflexivity|].
  repeat split.
Qed.

Lemma cancel_sets_status_and_tells_owner_witness :
  appointments Sample.world !! 1 = Some Sample.booked /\
  appointments
    (snd (AppointmentService.process_appointment 1 "cancel" no_kwargs Sample.world))
  = <[1 := with_status "cancelled" Sample.booked]> (appointments Sample.world).
Proof.
  split; [reflexivity|].
  exact (proj1 (proj2 (cancel_sets_status_and_tells_owner Sample.world 1
                         Sample.booked no_kwargs eq_refl))).
Defined.

(** X2. Marking a stored appointment as a no-show sets its status to
    ['no_show'] and its notes to ["No-show: "] followed by the notes passed
    (nothing, if none were), overwriting the notes that were there; the
    other columns and rows stay, and the owner of the pet is sent the
    missed-appointment mail, always. *)
Theorem no_show_overwrites_notes :
  forall (w : World) (appointment_id : Z) (a : Appointment) (kwargs : Kwargs),
    appointments w !! appointment_id = Some a ->
    let run := AppointmentService.process_appointment appointment_id "no_show"
                 kwargs w in
    let row := with_notes ("No-show: " +:+ default "" (kw_notes kwargs))
                 (with_status "no_show" a) in
    (exists mails,
        snd run
        = adds (no_show_mail row w :: mails) []
            (set_appointments (<[appointment_id := row]> (appointments w)) w)) /\
    appointments (snd run) = <[appointment_id := row]> (appointments w) /\
    mail_to (no_show_mail row w) = [email (owner (pet a))] /\
    (pet row = pet a /\ service_type row = service_type a /\
     veterinarian row = veterinarian a /\ date_time row = date_time a /\
     clinic_branch row = clinic_branch a) /\
    (no_emergency_observer w -> fst run = Ok (loaded appointment_id row)).
Proof.
  intros w k a kwargs Hrow run row.
  pose proof (no_show_execute_effect (loaded k a) kwargs w) as Hexec.
  cbn zeta in Hexec. cbn [fields loaded pk] in Hexec.
  destruct (process_after_execute w k "no_show" kwargs a NoShow _ _
              Hrow eq_refl Hexec eq_refl) as (mails & r & Hrun & _ & Hok).
  cbn [fields with_fields] in Hrun. subst run. rewrite Hrun. cbn [fst snd].
  split; [exists mails; reflexivity|]. split; [reflexivity|].
  split; [reflexivity|]. split; [repeat split|].
  intros Hno. rewrite (Hok Hno). reflexivity.
Qed.

Lemma no_show_overwrites_notes_witness :
  appointments Sample.world !! 1 = Some Sample.booked /\
  appointments
    (snd (AppointmentService.process_appointment 1 "no_show" no_kwargs Sample.world))
  = <[1 := with_notes "No-show: " (with_status "no_show" Sample.booked)]>
      (appointments Sample.world).
Proof.
  split; [reflexivity|].
  exact (proj1 (proj2 (no_show_overwrites_notes Sample.world 1
                         Sample.booked no_kwargs eq_refl))).
Defined.

(** X3. Referring a stored appointment to a [new_vet] that is a user
    account puts [new_vet] in the veterinarian column and replaces the notes
    by the referral line naming the previous veterinarian; status, pet,
    service, date and branch stay, and the referral mail goes to the new
    veterinarian's address, not to the owner. A [new_vet] that is missing or
    is anything but a user account (such as the veterinarian profile the
    referral view passes) is refused with a [ValueError] before anything is
    written. *)
Theorem refer_changes_veterinarian :
  forall (w : World) (appointment_id : Z) (a : Appointment) (kwargs : Kwargs),
    appointments w !! appointment_id = Some a ->
    let run := AppointmentService.process_appointment appointment_id "refer"
                 kwargs w in
    match default VNone (kw_new_vet kwargs) with
    | VUser new_vet =>
        let row := with_notes ("Referred by Dr. " +:+ get_full_name (veterinarian a)
                               +:+ ": " +:+ default "" (kw_notes kwargs))
                     (with_veterinarian new_vet a) in
        let mail := referral_mail row (veterinarian a) new_vet
                      (default "" (kw_reason kwargs)) w in
        (exists mails,
            snd run
            = adds (mail :: mails) []
                (set_appointments (<[appointment_id := row]> (appointments w)) w)) /\
        appointments (snd run) = <[appointment_id := row]> (appointments w) /\
        mail_to mail = [email new_vet] /\
        veterinarian row = new_vet /\
        (status row = status a /\ pet row = pet a /\
         service_type row = service_type a /\
         date_time row = date_time a /\ clinic_branch row = clinic_branch a) /\
        (no_emergency_observer w -> fst run = Ok (loaded appointment_id row))
    | _ => raises_ValueError (fst run) = true /\ snd run = w
    end.
Proof.
  intros w k a kwargs Hrow run.
  destruct (default VNone (kw_new_vet kwargs)) as [| | | | new_vet | | |] eqn:Hv;
    try (subst run;
         rewrite (process_appointment_dispatch w k "refer" kwargs a Referral Hrow
                    eq_refl);
         unfold run_strategy; cbn [execute];
         destruct (referral_refused (loaded k a) kwargs w) as (msg & Hraise);
           [rewrite Hv; reflexivity|];
         rewrite (bind_raise _ _ _ _ _ Hraise); split; reflexivity).
  intros row mail.
  pose proof (referral_execute_effect (loaded k a) kwargs new_vet w Hv) as Hexec.
  cbn zeta in Hexec. cbn [fields loaded pk] in Hexec.
  destruct (process_after_execute w k "refer" kwargs a Referral _ _
              Hrow eq_refl Hexec eq_refl) as (mails & r & Hrun & _ & Hok).
  cbn [fields with_fields] in Hrun. subst run. rewrite Hrun. cbn [fst snd].
  split; [exists mails; reflexivity|]. split; [reflexivity|].
  split; [reflexivity|]. split; [reflexivity|]. split; [repeat split|].
  intros Hno. rewrite (Hok Hno). reflexivity.
Qed.

Lemma refer_changes_veterinarian_witness :
  appointments Sample.world !! 1 = Some Sample.booked /\
  kw_new_vet Sample.refer_kwargs = Some (VUser Sample.dr_moss) /\
  appointments
    (snd (AppointmentService.process_appointment 1 "refer" Sample.refer_kwargs
            Sample.world))
  = <[1 := with_notes "Referred by Dr. Ana Vega: see chart"
             (with_veterinarian Sample.dr_moss Sample.booked)]>
      (appointments Sample.world).
Proof.
  split; [reflexivity|]. split; [reflexivity|].
  exact (proj1 (proj2 (refer_changes_veterinarian Sample.world 1 Sample.booked
                         Sample.refer_kwargs eq_refl))).
Defined.

Lemma adds_log_nil (mails : list Email) (w : World) :
  notification_log (adds mails [] w) = notification_log w.
Proof. unfold adds. cbn. apply app_nil_r. Qed.

(** ** What [process_appointment] never does *)

(** Whatever the arguments, the world after [process_appointment] is the
    world before plus some mail, with at most the row of the given id
    rewritten, and that only if the row was there. *)
Lemma process_appointment_shape (w : World) (appointment_id : Z) (action : string)
    (kwargs : Kwargs) :
  exists mails,
    snd (AppointmentService.process_appointment appointment_id action kwargs w)
    = adds mails [] w \/
    exists a row,
      appointments w !! appointment_id = Some a /\
      snd (AppointmentService.process_appointment appointment_id action kwargs w)
      = adds mails []
          (set_appointments (<[appointment_id := row]> (appointments w)) w).
Proof.
  destruct (appointments w !! appointment_id) as [a|] eqn:Hrow.
  2:{ exists []. left.
      rewrite (process_appointment_missing _ _ _ _ Hrow). cbn [snd].
      now rewrite adds_nothing. }
  destruct (AppointmentComponentFactory.strategies !! action) as [s|] eqn:Hs.
  2:{ exists []. left.
      rewrite (process_appointment_unknown_action _ _ _ _ _ Hrow Hs). cbn [snd].
      now rewrite adds_nothing. }
  pose proof Hs as Hcase. apply strategies_lookup in Hcase.
  destruct Hcase as [[-> ->]|[[-> ->]|[[-> ->]|[[-> ->]|[-> ->]]]]].
  - destruct (kw_follow_up_date kwargs) as [d|] eqn:Hkw.
    + exists []. right. exists a, (with_status "completed" a). split; [reflexivity|].
      rewrite (complete_with_follow_up_fails _ _ _ _ _ Hrow Hkw). cbn [snd].
      now rewrite adds_nothing.
    + pose proof (complete_execute_plain (loaded appointment_id a) kwargs w Hkw)
        as Hexec.
      rewrite <- (adds_nothing (set_appointments _ w)) in Hexec.
      destruct (process_after_execute w appointment_id "complete" kwargs a
                  CompleteAppointment _ _ Hrow Hs Hexec eq_refl)
        as (mails & r & Hrun & _).
      eexists. right. eexists a, _. split; [reflexivity|].
      rewrite Hrun. reflexivity.
  - destruct (kw_new_datetime kwargs) as [t|] eqn:Hkw.
    + destruct (reschedule_execute_effect (loaded appointment_id a) kwargs a t w
                  Hrow Hkw) as (mail & _ & Hexec).
      destruct (process_after_execute w appointment_id "reschedule" kwargs a
                  Reschedule _ _ Hrow Hs Hexec eq_refl)
        as (mails & r & Hrun & _).
      eexists. right. eexists a, _. split; [reflexivity|].
      rewrite Hrun. reflexivity.
    + exists []. left.
      rewrite (process_appointment_dispatch _ _ _ _ _ _ Hrow Hs).
      unfold run_strategy. cbn [execute].
      rewrite (bind_raise _ _ _ _ _ (reschedule_without_datetime _ _ _ Hkw)).
      cbn [snd]. now rewrite adds_nothing.
  - pose proof (cancellation_execute_effect (loaded appointment_id a) kwargs w)
      as Hexec. cbn zeta in Hexec.
    destruct (process_after_execute w appointment_id "cancel" kwargs a
                Cancellation _ _ Hrow Hs Hexec eq_refl)
      as (mails & r & Hrun & _).
    eexists. right. eexists a, _. split; [reflexivity|].
    rewrite Hrun. reflexivity.
  - pose proof (no_show_execute_effect (loaded appointment_id a) kwargs w)
      as Hexec. cbn zeta in Hexec.
    destruct (process_after_execute w appointment_id "no_show" kwargs a
                NoShow _ _ Hrow Hs Hexec eq_refl)
      as (mails & r & Hrun & _).
    eexists. right. eexists a, _. split; [reflexivity|].
    rewrite Hrun. reflexivity.
  - destruct (is_user (default VNone (kw_new_vet kwargs))) eqn:Hkw.
    + destruct (default VNone (kw_new_vet kwargs)) as [| | | | v | | |] eqn:Hv;
        try discriminate.
      pose proof (referral_execute_effect (loaded appointment_id a) kwargs v w Hv)
        as Hexec. cbn zeta in Hexec.
      destruct (process_after_execute w appointment_id "refer" kwargs a
                  Referral _ _ Hrow Hs Hexec eq_refl)
        as (mails & r & Hrun & _).
      eexists. right. eexists a, _. split; [reflexivity|].
      rewrite Hrun. reflexivity.
    + exists []. left.
      rewrite (process_appointment_dispatch _ _ _ _ _ _ Hrow Hs).
      unfold run_strategy. cbn [execute].
      destruct (referral_refused (loaded appointment_id a) kwargs w Hkw)
        as (msg & Hraise).
      rewrite (bind_raise _ _ _ _ _ Hraise).
      cbn [snd]. now rewrite adds_nothing.
Qed.

(** X4. Whatever the id, the action and the keyword arguments, and whether
    the call returns or raises, [process_appointment] creates no appointment
    and deletes none: the table has the same keys before and after, every
    row other than the one addressed is untouched, the key sequence and the
    notification table are as before. *)
Theorem process_appointment_keeps_the_keys :
  forall (w : World) (appointment_id : Z) (action : string) (kwargs : Kwargs),
    let after := snd (AppointmentService.process_appointment appointment_id action
                        kwargs w) in
    dom (appointments after) = dom (appointments w) /\
    (forall other, other <> appointment_id ->
        appointments after !! other = appointments w !! other) /\
    next_pk after = next_pk w /\
    notification_log after = notification_log w /\
    (keys_below_next w -> keys_below_next after).
Proof.
  intros w k action kwargs after. subst after.
  destruct (process_appointment_shape w k action kwargs)
    as (mails & [-> | (a & row & Hrow & ->)]).
  - rewrite adds_appointments, adds_log_nil.
    split; [reflexivity|]. split; [reflexivity|]. split; [reflexivity|].
    split; [reflexivity|]. intros Hw. exact Hw.
  - rewrite adds_appointments, adds_log_nil.
    cbn [appointments set_appointments next_pk notification_log].
    split; [|split; [|split; [|split]]]; try reflexivity.
    + rewrite dom_insert_L.
      assert (Hin : k ∈ dom (appointments w)) by (apply elem_of_dom; eauto).
      apply set_eq. intros j. rewrite elem_of_union, elem_of_singleton.
      split; [intros [-> | Hj]; assumption | auto].
    + intros other Hne. now apply lookup_insert_ne.
    + intros Hw j [x Hj]. apply Hw.
      change (<[k := row]> (appointments w) !! j = Some x) in Hj.
      rewrite lookup_insert in Hj. case_decide as Hk.
      * subst j. eauto.
      * eauto.
Qed.

(** ** The observers of the factory *)

Lemma elem_of_EVENTS (event : string) :
  event ∈ EVENTS ->
  event = "created" \/ event = "complete" \/ event = "reschedule" \/
  event = "cancel" \/ event = "no_show" \/ event = "refer".
Proof.
  unfold EVENTS, ACTIONS. rewrite !elem_of_cons, elem_of_nil. tauto.
Qed.

Lemma vet_update_silent (ob : VetObserver) (o : AppointmentObj) (event : string)
    (w : World) :
  event ∈ EVENTS ->
  vet_observer_class ob <> EmergencyAlertObserver ->
  VetObservers.update ob o event w = (Ok tt, w).
Proof.
  intros Hev Hclass. unfold VetObservers.update.
  destruct (vet_observer_class ob); [| contradiction |].
  - apply elem_of_EVENTS in Hev.
    destruct Hev as [-> | [-> | [-> | [-> | [-> | ->]]]]]; reflexivity.
  - unfold VetObservers.reminder_update. destruct (String.eqb _ _); reflexivity.
Qed.

(** X5. No event the service emits (['created'] and the five action names)
    makes a registered observer do anything: [VetScheduleObserver] looks
    for ['date_time'] or ['status'] inside what it is passed, which is the
    event name, and finds neither, and the reminder observer schedules
    nothing. So unless an [EmergencyAlertObserver] is registered (it
    raises), [notify_observers] returns and leaves the world exactly as it
    was: the veterinarian is never mailed. *)
Theorem factory_observers_stay_silent :
  forall (w : World) (o : AppointmentObj) (event : string),
    event ∈ EVENTS ->
    no_emergency_observer w ->
    AppointmentComponentFactory.notify_observers o event w = (Ok tt, w).
Proof.
  intros w o event Hev Hno.
  unfold AppointmentComponentFactory.notify_observers.
  unfold bind at 1. unfold get_world.
  unfold no_emergency_observer in Hno.
  generalize dependent (factory_observers w). intros observers Hno.
  induction observers as [|ob rest IH]; cbn [for_each]; [reflexivity|].
  inversion Hno as [|? ? Hob Hrest]; subst.
  rewrite (bind_ok _ _ _ _ _ (vet_update_silent ob o event w Hev Hob)).
  now apply IH.
Qed.

Lemma factory_observers_stay_silent_witness :
  let o := {| vet_observer_oid := 7; vet_observer_class := VetScheduleObserver |} in
  let w := snd (AppointmentComponentFactory.register_observer o Sample.world) in
  factory_observers w = [o] /\
  "reschedule" ∈ EVENTS /\
  no_emergency_observer w /\
  AppointmentComponentFactory.notify_observers (loaded 1 Sample.booked) "reschedule" w
  = (Ok tt, w).
Proof.
  cbn zeta.
  assert (Hev : "reschedule" ∈ EVENTS)
    by (unfold EVENTS, ACTIONS; rewrite !elem_of_cons; auto).
  assert (Hno : no_emergency_observer
                  (snd (AppointmentComponentFactory.register_observer
                          {| vet_observer_oid := 7;
                             vet_observer_class := VetScheduleObserver |}
                          Sample.world))).
  { constructor; [discriminate | constructor]. }
  split; [reflexivity|]. split; [exact Hev|]. split; [exact Hno|].
  exact (factory_observers_stay_silent _ (loaded 1 Sample.booked) "reschedule" Hev Hno).
Defined.

(** What the schedule observer does when it is given field names, as its
    signature asks for. *)
Example schedule_observer_mails_on_status :
  outbox (snd (VetObservers.schedule_update (loaded 1 Sample.booked) "status"
                 Sample.world))
  = [{| mail_subject := "Appointment Update - Confirmed";
        mail_message := MsgVetUpdate "Rex" "Pat Lee" Sample.quarter_past_nine
                          "Confirmed";
        mail_from := "clinic@test.com";
        mail_to := ["vet@test.com"] |}].
Proof. reflexivity. Qed.

Lemma remove_first_fresh (o : VetObserver) (l : list VetObserver) :
  o ∉ l -> AppointmentComponentFactory.remove_first o (l ++ [o]) = l.
Proof.
  induction l as [|x l IH]; intros Hnot; cbn.
  - now rewrite bool_decide_eq_true_2.
  - apply not_elem_of_cons in Hnot as [Hne Hnot].
    rewrite bool_decide_eq_false_2 by congruence. now rewrite IH.
Qed.

Lemma remove_first_NoDup (o : VetObserver) (l : list VetObserver) :
  NoDup l -> (o ∉ AppointmentComponentFactory.remove_first o l) /\
             NoDup (AppointmentComponentFactory.remove_first o l).
Proof.
  induction 1 as [|x l Hx Hl IH]; cbn.
  - split; [apply not_elem_of_nil | constructor].
  - case_bool_decide as Hxo.
    + subst. split; assumption.
    + destruct IH as [IH1 IH2]. split.
      * apply not_elem_of_cons. split; [congruence | assumption].
      * constructor; [|assumption].
        intros Hin. apply Hx. clear -Hin.
        induction l as [|y l IHl]; cbn in Hin; [inversion Hin|].
        case_bool_decide; [now right|].
        apply elem_of_cons in Hin as [-> | Hin]; [now left | right; auto].
Qed.

(** X6. Registration keeps the factory's observer list free of duplicates
    and is idempotent; the registered observer is in the list afterwards.
    Unregistering an observer that is not registered changes nothing;
    on a duplicate-free list it removes the observer; and registering an
    observer that was not there and unregistering it again gives back the
    world one started from. Neither call raises or touches anything but
    the list. *)
Theorem register_and_unregister :
  forall (w : World) (o : VetObserver),
    let registered := snd (AppointmentComponentFactory.register_observer o w) in
    let unregistered := snd (AppointmentComponentFactory.unregister_observer o w) in
    fst (AppointmentComponentFactory.register_observer o w) = Ok tt /\
    fst (AppointmentComponentFactory.unregister_observer o w) = Ok tt /\
    o ∈ factory_observers registered /\
    (NoDup (factory_observers w) -> NoDup (factory_observers registered)) /\
    snd (AppointmentComponentFactory.register_observer o registered) = registered /\
    (NoDup (factory_observers w) ->
       (o ∉ factory_observers unregistered) /\ NoDup (factory_observers unregistered)) /\
    (o ∉ factory_observers w -> unregistered = w) /\
    (o ∉ factory_observers w ->
       snd (AppointmentComponentFactory.unregister_observer o registered) = w) /\
    appointments registered = appointments w /\
    appointments unregistered = appointments w.
Proof.
  intros w o registered unregistered. subst registered unregistered.
  unfold AppointmentComponentFactory.register_observer,
    AppointmentComponentFactory.unregister_observer, modify. cbn [fst snd].
  split; [reflexivity|]. split; [reflexivity|].
  destruct (decide (o ∈ factory_observers w)) as [Hin|Hout].
  - rewrite !bool_decide_eq_true_2 by assumption.
    split; [assumption|]. split; [auto|]. split; [reflexivity|].
    split; [intros Hnd; cbn; now apply remove_first_NoDup|].
    split; [contradiction|]. split; [contradiction|]. split; reflexivity.
  - rewrite !bool_decide_eq_false_2 by assumption.
    cbn [factory_observers set_factory_observers].
    assert (Hin' : o ∈ (factory_observers w ++ [o])%list)
      by (apply elem_of_app; right; now left).
    rewrite !bool_decide_eq_true_2 by assumption.
    split; [assumption|].
    split; [intros Hnd; apply NoDup_app; repeat split;
            [assumption | | apply NoDup_singleton];
            intros x Hx Hx'; apply list_elem_of_singleton in Hx'; congruence|].
    split; [reflexivity|].
    split; [intros Hnd; split; assumption|].
    split; [reflexivity|].
    split; [|split; reflexivity].
    intros _. rewrite (remove_first_fresh _ _ Hout). destruct w. reflexivity.
Qed.

Lemma register_and_unregister_witness :
  let o := {| vet_observer_oid := 7; vet_observer_class := VetScheduleObserver |} in
  (o ∉ factory_observers Sample.world) /\
  snd (AppointmentComponentFactory.unregister_observer o
         (snd (AppointmentComponentFactory.register_observer o Sample.world)))
  = Sample.world.
Proof.
  cbn zeta.
  assert (H : {| vet_observer_oid := 7; vet_observer_class := VetScheduleObserver |}
              ∉ factory_observers Sample.world) by apply not_elem_of_nil.
  split; [exact H|].
  pose proof (register_and_unregister Sample.world
                {| vet_observer_oid := 7; vet_observer_class := VetScheduleObserver |})
    as (_ & _ & _ & _ & _ & _ & _ & Hround & _).
  exact (Hround H).
Defined.

(** ** Attaching and detaching observers of [patterns/observer.py] *)

Lemma list_remove_absent (o : Observer) (l : list Observer) :
  o ∉ l -> Observers.AppointmentSubject.list_remove o l = None.
Proof.
  induction l as [|x l IH]; intros Hnot; cbn; [reflexivity|].
  apply not_elem_of_cons in Hnot as [Hne Hnot].
  rewrite bool_decide_eq_false_2 by congruence. now rewrite IH.
Qed.

Lemma list_remove_present (o : Observer) (l : list Observer) :
  o ∈ l ->
  exists l', Observers.AppointmentSubject.list_remove o l = Some l' /\
             S (length l') = length l.
Proof.
  induction l as [|x l IH]; intros Hin; [inversion Hin|]. cbn.
  case_bool_decide as Hx.
  - exists l. split; reflexivity.
  - apply elem_of_cons in Hin as [-> | Hin]; [contradiction|].
    destruct (IH Hin) as (l' & -> & Hlen). exists (x :: l'). cbn.
    split; [reflexivity | now rewrite Hlen].
Qed.

Lemma list_remove_fresh (o : Observer) (l : list Observer) :
  o ∉ l -> Observers.AppointmentSubject.list_remove o (l ++ [o]) = Some l.
Proof.
  induction l as [|x l IH]; intros Hnot; cbn.
  - now rewrite bool_decide_eq_true_2.
  - apply not_elem_of_cons in Hnot as [Hne Hnot].
    rewrite bool_decide_eq_false_2 by congruence. now rewrite IH.
Qed.

(** X7. [attach] never raises, puts the observer in the list if it is not
    there yet and is idempotent, so it keeps the list free of duplicates.
    [detach], unlike [unregister_observer] of the factory, is not guarded:
    detaching an observer that is not attached raises [ValueError] and
    changes nothing. Detaching an attached observer shortens the list by
    one, and attaching a new observer and detaching it again gives back the
    world one started from. *)
Theorem attach_and_detach :
  forall (w : World) (o : Observer),
    let attached_world := snd (Observers.AppointmentSubject.attach o w) in
    fst (Observers.AppointmentSubject.attach o w) = Ok tt /\
    o ∈ subject_observers attached_world /\
    (NoDup (subject_observers w) -> NoDup (subject_observers attached_world)) /\
    snd (Observers.AppointmentSubject.attach o attached_world) = attached_world /\
    (o ∉ subject_observers w ->
       Observers.AppointmentSubject.detach o w
       = (Raise (ValueError "list.remove(x): x not in list"), w)) /\
    (o ∈ subject_observers w ->
       fst (Observers.AppointmentSubject.detach o w) = Ok tt /\
       S (length (subject_observers (snd (Observers.AppointmentSubject.detach o w))))
       = length (subject_observers w)) /\
    (o ∉ subject_observers w ->
       Observers.AppointmentSubject.detach o attached_world = (Ok tt, w)).
Proof.
  intros w o attached_world. subst attached_world.
  unfold Observers.AppointmentSubject.attach, Observers.AppointmentSubject.detach,
    Observers.AppointmentSubject.attached, modify. cbn [fst snd].
  split; [reflexivity|].
  destruct (decide (o ∈ subject_observers w)) as [Hin|Hout].
  - rewrite !bool_decide_eq_true_2 by assumption.
    split; [assumption|]. split; [auto|]. split; [reflexivity|].
    split; [contradiction|]. split; [|contradiction].
    intros _. destruct (list_remove_present o _ Hin) as (l' & -> & Hlen).
    split; [reflexivity | exact Hlen].
  - rewrite !bool_decide_eq_false_2 by assumption.
    cbn [subject_observers set_subject_observers].
    assert (Hin' : o ∈ (subject_observers w ++ [o])%list)
      by (apply elem_of_app; right; now left).
    rewrite !bool_decide_eq_true_2 by assumption.
    split; [assumption|].
    split; [intros Hnd; apply NoDup_app; repeat split;
            [assumption | | apply NoDup_singleton];
            intros x Hx Hx'; apply list_elem_of_singleton in Hx'; congruence|].
    split; [reflexivity|].
    split; [intros _; now rewrite (list_remove_absent _ _ Hout)|].
    split; [contradiction|].
    intros _. rewrite (list_remove_fresh _ _ Hout). destruct w. reflexivity.
Qed.

Lemma attach_and_detach_witness :
  let o := {| observer_oid := 9; observer_class := ReminderObserver |} in
  (o ∉ subject_observers Sample.world) /\
  Observers.AppointmentSubject.detach o Sample.world
  = (Raise (ValueError "list.remove(x): x not in list"), Sample.world) /\
  Observers.AppointmentSubject.detach o
    (snd (Observers.AppointmentSubject.attach o Sample.world))
  = (Ok tt, Sample.world).
Proof.
  cbn zeta.
  assert (H : {| observer_oid := 9; observer_class := ReminderObserver |}
              ∉ subject_observers Sample.world).
  { unfold Sample.world. cbn [subject_observers].
    rewrite !not_elem_of_cons. repeat split; try discriminate.
    apply not_elem_of_nil. }
  pose proof (attach_and_detach Sample.world
                {| observer_oid := 9; observer_class := ReminderObserver |})
    as (_ & _ & _ & _ & Hraise & _ & Hround).
  split; [exact H|]. split; [exact (Hraise H) | exact (Hround H)].
Defined.

(** ** The two observers the booking views attach *)

Lemma reminder_update_effect (appointment : AppointmentObj) (w : World) :
  Observers.reminder_update appointment w
  = (Ok tt,
     if String.eqb (status (fields appointment)) "confirmed"
     then adds [reminder_mail appointment w] [reminder_log appointment] w
     else w).
Proof.
  unfold Observers.reminder_update.
  destruct (String.eqb (status (fields appointment)) "confirmed"); reflexivity.
Qed.

(** X8. What the two observers of the booking views send and write. With
    the email observer attached first and the reminder observer second, as
    the views do when they are loaded, [notify] on a confirmed appointment
    hands two mails for the owner to [send_mail] (the status update, then
    the reminder) and writes two notification rows (['confirmation'], then
    ['reminder']); on an appointment of any other status it is one mail and
    one row of type ['update'], the reminder observer doing nothing. The
    appointments are not touched. *)
Theorem notify_with_the_views_observers :
  forall (w : World) (o1 o2 : Observer) (appointment : AppointmentObj),
    subject_observers w = [o1; o2] ->
    observer_class o1 = EmailNotificationObserver ->
    observer_class o2 = ReminderObserver ->
    let after := snd (Observers.AppointmentSubject.notify appointment w) in
    let confirmed := String.eqb (status (fields appointment)) "confirmed" in
    outbox after
    = (outbox w ++
       if confirmed
       then [update_mail appointment w; reminder_mail appointment w]
       else [update_mail appointment w])%list /\
    notification_log after
    = (notification_log w ++
       if confirmed
       then [update_log appointment; reminder_log appointment]
       else [update_log appointment])%list /\
    appointments after = appointments w /\
    notification_type (update_log appointment)
    = (if confirmed then "confirmation" else "update") /\
    mail_to (update_mail appointment w) = [email (owner (pet (fields appointment)))] /\
    mail_to (reminder_mail appointment w) = [email (owner (pet (fields appointment)))].
Proof.
  intros w o1 o2 appointment Hobs H1 H2 after confirmed. subst after confirmed.
  assert (Hrun : Observers.AppointmentSubject.notify appointment w
                 = (Ok tt,
                    if String.eqb (status (fields appointment)) "confirmed"
                    then adds [update_mail appointment w; reminder_mail appointment w]
                              [update_log appointment; reminder_log appointment] w
                    else adds [update_mail appointment w] [update_log appointment] w)).
  { unfold Observers.AppointmentSubject.notify.
    unfold bind at 1. unfold get_world. rewrite Hobs.
    unfold Observers.AppointmentSubject.notify_each. cbn [for_each].
    unfold Observers.update. rewrite H1, H2.
    rewrite (bind_ok _ _ _ _ _ (email_update_effect appointment w)).
    rewrite (bind_ok _ _ _ _ _ (reminder_update_effect appointment _)).
    destruct (String.eqb (status (fields appointment)) "confirmed");
      [rewrite adds_adds|]; reflexivity. }
  rewrite Hrun. cbn [snd].
  destruct (String.eqb (status (fields appointment)) "confirmed") eqn:Hc;
    repeat split; try reflexivity;
    unfold update_log; cbn [notification_type]; rewrite Hc; reflexivity.
Qed.

Lemma notify_with_the_views_observers_witness :
  subject_observers Sample.world = [Sample.email_observer; Sample.reminder_observer] /\
  outbox (snd (Observers.AppointmentSubject.notify (loaded 1 Sample.booked)
                 Sample.world))
  = [update_mail (loaded 1 Sample.booked) Sample.world;
     reminder_mail (loaded 1 Sample.booked) Sample.world].
Proof.
  split; [reflexivity|].
  exact (proj1 (notify_with_the_views_observers Sample.world Sample.email_observer
                  Sample.reminder_observer (loaded 1 Sample.booked)
                  eq_refl eq_refl eq_refl)).
Defined.

(** ** The director *)

Lemma create_follow_up_effect (original : AppointmentObj) (t : datetime) (w : World) :
  AppointmentDirector.create_follow_up original t w
  = (Raise (ValueError "Cannot assign to Appointment.service_type"),
     set_director_builder
       (held (VPet (pet (fields original))) (VStr "follow_up")
          (VUser (veterinarian (fields original))) (VDatetime t)
          (VBranch (clinic_branch (fields original)))
          (VStr ("Follow-up for appointment from " +:+
                 AppointmentDirector.str_date (date_of (date_time (fields original)))))
          (VStr "pending")) w).
Proof. unfold AppointmentDirector.create_follow_up. director_chain. Qed.

Lemma create_vaccination_effect (p : Pet) (v : CustomUser) (c : ClinicBranch)
    (vaccine_type : string) (t : datetime) (w : World) :
  AppointmentDirector.create_vaccination p v c vaccine_type t w
  = (Raise (ValueError "Cannot assign to Appointment.service_type"),
     set_director_builder
       (held (VPet p) (VStr "vaccination") (VUser v) (VDatetime t) (VBranch c)
          (VStr ("Vaccination: " +:+ vaccine_type)) (VStr "pending")) w).
Proof. unfold AppointmentDirector.create_vaccination. director_chain. Qed.

Lemma create_surgery_effect (p : Pet) (v : CustomUser) (c : ClinicBranch)
    (surgery_type : string) (t : datetime) (pre_op_notes : string) (w : World) :
  AppointmentDirector.create_surgery p v c surgery_type t pre_op_notes w
  = (Raise (ValueError "Cannot assign to Appointment.service_type"),
     set_director_builder
       (held (VPet p) (VStr "surgery") (VUser v) (VDatetime t) (VBranch c)
          (VStr ("Surgery Type: " +:+ surgery_type +:+
                 String "010"%char "Pre-op Notes: " +:+ pre_op_notes))
          (VStr "scheduled")) w).
Proof. unfold AppointmentDirector.create_surgery. director_chain. Qed.

Lemma set_director_builder_twice (b b' : AppointmentBuilder.t) (w : World) :
  set_director_builder b (set_director_builder b' w) = set_director_builder b w.
Proof. reflexivity. Qed.

(** X9. None of the director's five methods hands back an appointment.
    The four that build put a label where the [ServiceType] is due, which
    [build] refuses with a [ValueError]; the shared builder is then left
    holding the seven values the method set, not reset, and that whatever
    it held before. [create_emergency_appointment] and the search for a
    free veterinarian raise [ImportError] at their first statement and leave
    the builder as it was. *)
Theorem director_methods_raise :
  forall (w : World) (b : AppointmentBuilder.t) (p : Pet) (v : CustomUser)
         (c : ClinicBranch) (t : datetime) (original : AppointmentObj)
         (text more : string),
    let dirty := set_director_builder b w in
    let refused := Raise (ValueError "Cannot assign to Appointment.service_type") in
    AppointmentDirector.create_regular_checkup p v c t dirty
    = (refused,
       set_director_builder
         (held (VPet p) (VStr "regular_checkup") (VUser v) (VDatetime t) (VBranch c)
            (VStr "Regular health checkup") (VStr "pending")) w) /\
    AppointmentDirector.create_follow_up original t dirty
    = (refused,
       set_director_builder
         (held (VPet (pet (fields original))) (VStr "follow_up")
            (VUser (veterinarian (fields original))) (VDatetime t)
            (VBranch (clinic_branch (fields original)))
            (VStr ("Follow-up for appointment from " +:+
                   AppointmentDirector.str_date
                     (date_of (date_time (fields original)))))
            (VStr "pending")) w) /\
    AppointmentDirector.create_vaccination p v c text t dirty
    = (refused,
       set_director_builder
         (held (VPet p) (VStr "vaccination") (VUser v) (VDatetime t) (VBranch c)
            (VStr ("Vaccination: " +:+ text)) (VStr "pending")) w) /\
    AppointmentDirector.create_surgery p v c text t more dirty
    = (refused,
       set_director_builder
         (held (VPet p) (VStr "surgery") (VUser v) (VDatetime t) (VBranch c)
            (VStr ("Surgery Type: " +:+ text +:+
                   String "010"%char "Pre-op Notes: " +:+ more))
            (VStr "scheduled")) w) /\
    AppointmentDirector.create_emergency_appointment p c text dirty
    = (Raise (ImportError "Veterinarian"), dirty) /\
    AppointmentDirector.find_available_emergency_vet c dirty
    = (Raise (ImportError "Veterinarian"), dirty) /\
    buildable (held (VPet p) (VStr text) (VUser v) (VDatetime t) (VBranch c)
                 (VStr more) (VStr "pending")) = false.
Proof.
  intros w b p v c t original text more dirty refused. subst dirty refused.
  rewrite create_regular_checkup_effect, create_follow_up_effect,
    create_vaccination_effect, create_surgery_effect.
  rewrite !set_director_builder_twice.
  repeat split.
Qed.

(** ** [create_appointment]: every outcome *)

Lemma elem_of_TYPES (appointment_type : string) :
  appointment_type ∈ TYPES <->
  appointment_type = "regular" \/ appointment_type = "emergency" \/
  appointment_type = "follow_up" \/ appointment_type = "vaccination" \/
  appointment_type = "surgery".
Proof. unfold TYPES. rewrite !elem_of_cons, elem_of_nil. tauto. Qed.

(** A keyword argument is missing: [KeyError], nothing touched. *)
Ltac creation_lacks_a_key :=
  eexists (KeyError _); split; [reflexivity|];
  split; [left; reflexivity|];
  cbn; rewrite elem_of_TYPES; auto 10.

(** The director was reached and its build was refused. *)
Ltac creation_is_refused effect :=
  cbn [String.eqb Ascii.eqb Bool.eqb item];
  erewrite bind_raise; [|etransitivity; [|apply effect]; reflexivity];
  eexists (ValueError _); split; [reflexivity|];
  split; [right; eexists; reflexivity|];
  cbn; right; split; [rewrite elem_of_TYPES; auto 10|];
  split; [discriminate | reflexivity].

(** X10. [create_appointment] never returns and never stores anything:
    every call ends in an exception, and all it can have changed by then is
    what the director's builder holds. It raises [ValueError] for a kind it
    does not know, [KeyError] for a missing keyword argument, [ImportError]
    for an emergency, and for the four other kinds, once their arguments
    are there, the [ValueError] of the refused service label. *)
Theorem create_appointment_outcomes :
  forall (w : World) (appointment_type : string) (kwargs : CreateKwargs),
    let run := AppointmentService.create_appointment appointment_type kwargs w in
    exists e,
      fst run = Raise e /\
      (snd run = w \/ exists b, snd run = set_director_builder b w) /\
      match e with
      | ValueError msg =>
          ((appointment_type ∉ TYPES) /\
           msg = "Unknown appointment type: " +:+ appointment_type) \/
          (appointment_type ∈ TYPES /\ appointment_type <> "emergency" /\
           msg = "Cannot assign to Appointment.service_type")
      | KeyError _ => appointment_type ∈ TYPES
      | ImportError _ => appointment_type = "emergency"
      | _ => False
      end.
Proof.
  intros w ty kwargs run. subst run.
  destruct (String.eqb_spec ty "regular") as [-> | H1].
  { unfold AppointmentService.create_appointment.
    destruct (ck_pet kwargs) as [p|]; [|creation_lacks_a_key].
    destruct (ck_vet kwargs) as [v|]; [|creation_lacks_a_key].
    destruct (ck_clinic_branch kwargs) as [c|]; [|creation_lacks_a_key].
    destruct (ck_date_time kwargs) as [t|]; [|creation_lacks_a_key].
    creation_is_refused (create_regular_checkup_effect p v c t w). }
  destruct (String.eqb_spec ty "emergency") as [-> | H2].
  { unfold AppointmentService.create_appointment.
    destruct (ck_pet kwargs) as [p|]; [|creation_lacks_a_key].
    destruct (ck_clinic_branch kwargs) as [c|]; [|creation_lacks_a_key].
    destruct (ck_description kwargs) as [d|]; [|creation_lacks_a_key].
    exists (ImportError "Veterinarian"). split; [reflexivity|].
    split; [left; reflexivity | reflexivity]. }
  destruct (String.eqb_spec ty "follow_up") as [-> | H3].
  { unfold AppointmentService.create_appointment.
    destruct (ck_original_appointment kwargs) as [o|]; [|creation_lacks_a_key].
    destruct (ck_follow_up_date kwargs) as [t|]; [|creation_lacks_a_key].
    creation_is_refused (create_follow_up_effect o t w). }
  destruct (String.eqb_spec ty "vaccination") as [-> | H4].
  { unfold AppointmentService.create_appointment.
    destruct (ck_pet kwargs) as [p|]; [|creation_lacks_a_key].
    destruct (ck_vet kwargs) as [v|]; [|creation_lacks_a_key].
    destruct (ck_clinic_branch kwargs) as [c|]; [|creation_lacks_a_key].
    destruct (ck_vaccine_type kwargs) as [vt|]; [|creation_lacks_a_key].
    destruct (ck_date_time kwargs) as [t|]; [|creation_lacks_a_key].
    creation_is_refused (create_vaccination_effect p v c vt t w). }
  destruct (String.eqb_spec ty "surgery") as [-> | H5].
  { unfold AppointmentService.create_appointment.
    destruct (ck_pet kwargs) as [p|]; [|creation_lacks_a_key].
    destruct (ck_vet kwargs) as [v|]; [|creation_lacks_a_key].
    destruct (ck_clinic_branch kwargs) as [c|]; [|creation_lacks_a_key].
    destruct (ck_surgery_type kwargs) as [st|]; [|creation_lacks_a_key].
    destruct (ck_date_time kwargs) as [t|]; [|creation_lacks_a_key].
    creation_is_refused
      (create_surgery_effect p v c st t (default "" (ck_pre_op_notes kwargs)) w). }
  exists (ValueError ("Unknown appointment type: " +:+ ty)). split.
  - unfold AppointmentService.create_appointment.
    rewrite (proj2 (String.eqb_neq _ _) H1), (proj2 (String.eqb_neq _ _) H2),
      (proj2 (String.eqb_neq _ _) H3), (proj2 (String.eqb_neq _ _) H4),
      (proj2 (String.eqb_neq _ _) H5).
    reflexivity.
  - split.
    + left. unfold AppointmentService.create_appointment.
      rewrite (proj2 (String.eqb_neq _ _) H1), (proj2 (String.eqb_neq _ _) H2),
        (proj2 (String.eqb_neq _ _) H3), (proj2 (String.eqb_neq _ _) H4),
        (proj2 (String.eqb_neq _ _) H5).
      reflexivity.
    + left. split; [|reflexivity]. rewrite elem_of_TYPES. tauto.
Qed.

(** X11. An emergency cannot be created: with its three keyword arguments
    given, [create_appointment('emergency', ...)] raises [ImportError] (the
    director imports [Veterinarian] from the module of the appointment
    models, which has no such class) and leaves the world exactly as it
    was; no veterinarian is looked for, nothing is stored, nobody is
    told. *)
Theorem emergency_creation_fails_on_import :
  forall (w : World) (kwargs : CreateKwargs) (p : Pet) (c : ClinicBranch)
         (description : string),
    ck_pet kwargs = Some p ->
    ck_clinic_branch kwargs = Some c ->
    ck_description kwargs = Some description ->
    AppointmentService.create_appointment "emergency" kwargs w
    = (Raise (ImportError "Veterinarian"), w).
Proof.
  intros w kwargs p c d Hp Hc Hd.
  unfold AppointmentService.create_appointment. rewrite Hp, Hc, Hd.
  reflexivity.
Qed.

Lemma emergency_creation_fails_on_import_witness :
  ck_pet Sample.emergency_kwargs = Some Sample.rex /\
  ck_clinic_branch Sample.emergency_kwargs = Some Sample.main_branch /\
  ck_description Sample.emergency_kwargs = Some "Sudden illness" /\
  AppointmentService.create_appointment "emergency" Sample.emergency_kwargs
    Sample.world
  = (Raise (ImportError "Veterinarian"), Sample.world).
Proof.
  split; [reflexivity|]. split; [reflexivity|]. split; [reflexivity|].
  exact (emergency_creation_fails_on_import Sample.world Sample.emergency_kwargs
           Sample.rex Sample.main_branch "Sudden illness" eq_refl eq_refl eq_refl).
Defined.

(** ** [book_appointment]: every outcome *)

Lemma get_object_or_404_missing {A} (table : World -> gmap Z A) (key : Z) (w : World) :
  table w !! key = None -> get_object_or_404 table key w = (Raise Http404, w).
Proof. intros H. unfold get_object_or_404. now rewrite H. Qed.

Lemma get_appointment_factory_bookable (name : string) :
  is_Some (get_appointment_factory name) <-> name ∈ BOOKABLE.
Proof.
  unfold get_appointment_factory, factories, BOOKABLE.
  rewrite !lookup_insert, lookup_empty, !elem_of_cons, elem_of_nil.
  repeat case_decide; subst; split; intros Hx; eauto 10;
    try (destruct Hx as [y Hy]; discriminate);
    try (destruct Hx as [Hx|[Hx|[Hx|[Hx|[]]]]]; congruence).
Qed.

Ltac booking_invoke name w :=
  rewrite (bind_ok _ _ _ _ _ (eq_refl : invoke name _ _ w = (Ok _, w))).

(** The booking fails at the first thing that is wrong, and has changed
    nothing by then. *)
Lemma book_appointment_fails_clean (w : World) (request : Request) :
  method request = "POST" ->
  pets w !! post_pet request = None \/
  service_types w !! post_service_type request = None \/
  users w !! post_veterinarian request = None \/
  post_date_time request = None \/
  clinic_branches w !! post_clinic_branch request = None \/
  (exists s, service_types w !! post_service_type request = Some s /\
             get_appointment_factory (service_name s) = None) ->
  exists e, book_appointment request w = (Ok (RedirectToBooking e), w) /\
            (pets w !! post_pet request = None -> e = Http404) /\
            (is_Some (pets w !! post_pet request) ->
             is_Some (users w !! post_veterinarian request) ->
             is_Some (post_date_time request) ->
             is_Some (clinic_branches w !! post_clinic_branch request) ->
             is_Some (service_types w !! post_service_type request) ->
             e = AttributeError "create_appointment").
Proof.
  intros Hm Hbad. unfold book_appointment. rewrite Hm.
  cbn [String.eqb Ascii.eqb Bool.eqb]. unfold try_except.
  destruct (pets w !! post_pet request) as [p|] eqn:Hp.
  2:{ rewrite (bind_raise _ _ _ _ _ (get_object_or_404_missing pets _ _ Hp)).
      eexists. split; [reflexivity|]. split; [reflexivity|].
      intros [? [=]]. }
  rewrite (bind_ok _ _ _ _ _ (get_object_or_404_found pets _ _ _ Hp)).
  booking_invoke "set_pet" w.
  destruct (service_types w !! post_service_type request) as [s|] eqn:Hs.
  2:{ rewrite (bind_raise _ _ _ _ _ (get_object_or_404_missing service_types _ _ Hs)).
      eexists. split; [reflexivity|]. split; [discriminate|].
      intros _ _ _ _ [? [=]]. }
  rewrite (bind_ok _ _ _ _ _ (get_object_or_404_found service_types _ _ _ Hs)).
  booking_invoke "set_service" w.
  destruct (users w !! post_veterinarian request) as [v|] eqn:Hv.
  2:{ rewrite (bind_raise _ _ _ _ _ (get_object_or_404_missing users _ _ Hv)).
      eexists. split; [reflexivity|]. split; [discriminate|].
      intros _ [? [=]]. }
  rewrite (bind_ok _ _ _ _ _ (get_object_or_404_found users _ _ _ Hv)).
  booking_invoke "set_veterinarian" w.
  destruct (post_date_time request) as [t|] eqn:Ht.
  2:{ eexists. split; [reflexivity|]. split; [discriminate|].
      intros _ _ [? [=]]. }
  rewrite (bind_ok _ _ _ _ _ (eq_refl : strptime (Some t) w = (Ok t, w))).
  booking_invoke "set_datetime" w.
  destruct (clinic_branches w !! post_clinic_branch request) as [c|] eqn:Hc.
  2:{ rewrite (bind_raise _ _ _ _ _
                 (get_object_or_404_missing clinic_branches _ _ Hc)).
      eexists. split; [reflexivity|]. split; [discriminate|].
      intros _ _ _ [? [=]]. }
  rewrite (bind_ok _ _ _ _ _ (get_object_or_404_found clinic_branches _ _ _ Hc)).
  booking_invoke "set_clinic_branch" w. booking_invoke "set_notes" w.
  destruct Hbad as [H|[H|[H|[H|[H|(s' & Hs' & Hf)]]]]]; try discriminate.
  injection Hs' as <-.
  erewrite bind_ok by reflexivity.
  cbn [init_service_type].
  rewrite (bind_ok _ _ _ _ _
             (eq_refl : service_type_name (VService s) w = (Ok (service_name s), w))).
  rewrite Hf.
  eexists. split; [reflexivity|]. split; [discriminate|]. reflexivity.
Qed.



(** X13. Only the four services that have a factory can be booked: for a
    service of any other name, a POST that is right in every other respect
    is sent back with an [AttributeError] (the missing factory is [None])
    and nothing is changed. *)
Theorem unlisted_service_cannot_be_booked :
  forall (w : World) (request : Request) (s : ServiceType),
    method request = "POST" ->
    is_Some (pets w !! post_pet request) ->
    service_types w !! post_service_type request = Some s ->
    is_Some (users w !! post_veterinarian request) ->
    is_Some (post_date_time request) ->
    is_Some (clinic_branches w !! post_clinic_branch request) ->
    service_name s ∉ BOOKABLE ->
    book_appointment request w
    = (Ok (RedirectToBooking (AttributeError "create_appointment")), w).
Proof.
  intros w request s Hm Hp Hs Hv Ht Hc Hname.
  destruct (book_appointment_fails_clean w request Hm) as (e & Hrun & _ & He).
  - do 5 right. exists s. split; [assumption|].
    destruct (get_appointment_factory (service_name s)) as [f|] eqn:Hf;
      [|reflexivity].
    exfalso. apply Hname. apply get_appointment_factory_bookable. eauto.
  - rewrite Hrun, He; eauto.
Qed.

Lemma unlisted_service_cannot_be_booked_witness :
  service_types Sample.dental_world !! 2 = Some Sample.dental /\
  (service_name Sample.dental ∉ BOOKABLE) /\
  book_appointment Sample.dental_request Sample.dental_world
  = (Ok (RedirectToBooking (AttributeError "create_appointment")),
     Sample.dental_world).
Proof.
  assert (Hname : service_name Sample.dental ∉ BOOKABLE).
  { unfold BOOKABLE. rewrite !not_elem_of_cons.
    repeat split; try discriminate. apply not_elem_of_nil. }
  split; [reflexivity|]. split; [exact Hname|].
  apply (unlisted_service_cannot_be_booked Sample.dental_world
           Sample.dental_request Sample.dental);
    try reflexivity; try exact Hname; eexists; reflexivity.
Defined.

(** ** Bookings and the two slot finders *)

Lemma slot_loop_ext (continue available available' : Z -> bool) (step : Z)
    (fuel : nat) (current : Z) (slots : list Z) :
  (forall t, available t = available' t) ->
  slot_loop fuel continue available step current slots
  = slot_loop fuel continue available' step current slots.
Proof.
  intros Hext. revert current slots.
  induction fuel as [|fuel IH]; intros current slots; [reflexivity|].
  cbn [slot_loop]. rewrite Hext. destruct (continue current); [apply IH | reflexivity].
Qed.

Lemma is_available_same_members (duration t : Z) (l l' : list Appointment) :
  (forall a, a ∈ l <-> a ∈ l') ->
  AppointmentRepository.is_available duration t l
  = AppointmentRepository.is_available duration t l'.
Proof.
  intros Hmem.
  destruct (AppointmentRepository.is_available duration t l) eqn:H1;
    destruct (AppointmentRepository.is_available duration t l') eqn:H2;
    try reflexivity.
  - rewrite is_available_true in H1.
    assert (H : AppointmentRepository.is_available duration t l' = true).
    { apply is_available_true. intros a Ha. apply H1, Hmem, Ha. }
    congruence.
  - rewrite is_available_true in H2.
    assert (H : AppointmentRepository.is_available duration t l = true).
    { apply is_available_true. intros a Ha. apply H2, Hmem, Ha. }
    congruence.
Qed.

(** The world after [book_appointment]: as before, or with one new row of
    status ['scheduled'] and the observers' mail and notification rows. *)
Lemma book_appointment_world_after (w : World) (request : Request) :
  snd (book_appointment request w) = w \/
  exists row mails logs,
    status row = "scheduled" /\
    snd (book_appointment request w)
    = adds mails logs
        (set_next_pk (next_pk w + 1)
           (set_appointments (<[next_pk w := row]> (appointments w)) w)).
Proof.
  destruct (String.eqb_spec (method request) "POST") as [Hm|Hm].
  2:{ left. unfold book_appointment.
      now rewrite (proj2 (String.eqb_neq _ _) Hm). }
  destruct (pets w !! post_pet request) as [p|] eqn:Hp.
  2:{ left. destruct (book_appointment_fails_clean w request Hm) as (e & -> & _);
        auto. }
  destruct (service_types w !! post_service_type request) as [s|] eqn:Hs.
  2:{ left. destruct (book_appointment_fails_clean w request Hm) as (e & -> & _);
        auto. }
  destruct (users w !! post_veterinarian request) as [v|] eqn:Hv.
  2:{ left. destruct (book_appointment_fails_clean w request Hm) as (e & -> & _);
        auto. }
  destruct (post_date_time request) as [t|] eqn:Ht.
  2:{ left. destruct (book_appointment_fails_clean w request Hm) as (e & -> & _);
        auto 10. }
  destruct (clinic_branches w !! post_clinic_branch request) as [c|] eqn:Hc.
  2:{ left. destruct (book_appointment_fails_clean w request Hm) as (e & -> & _);
        auto 10. }
  destruct (get_appointment_factory (service_name s)) as [f|] eqn:Hf.
  2:{ left. destruct (book_appointment_fails_clean w request Hm) as (e & -> & _);
        [|reflexivity].
      do 5 right. exists s. rewrite Hs. auto. }
  right.
  destruct (book_appointment_books w request p s v t c Hm Hp Hs
              (mk_is_Some _ _ Hf) Hv Ht Hc) as (mails & logs & ->).
  eexists _, mails, logs. split; [|reflexivity]. reflexivity.
Qed.

(** X14. An appointment booked through [book_appointment] is stored with
    status ['scheduled'], and [AppointmentRepository.get_available_slots]
    only looks at ['confirmed'] appointments: whatever the request, the
    slots offered for any veterinarian, date and duration are the same
    after the booking as before. The slot just booked is still offered. *)
Theorem booking_takes_no_slot_for_clients :
  forall (w : World) (request : Request) (fuel : nat) (vet : CustomUser)
         (d : date) (duration : timedelta),
    keys_below_next w ->
    AppointmentRepository.get_available_slots fuel
      (snd (book_appointment request w)) vet d duration
    = AppointmentRepository.get_available_slots fuel w vet d duration.
Proof.
  intros w request fuel vet d duration Hw.
  destruct (book_appointment_world_after w request)
    as [-> | (row & mails & logs & Hstatus & ->)]; [reflexivity|].
  - unfold AppointmentRepository.get_available_slots.
    apply slot_loop_ext. intros slot. apply is_available_same_members.
    intros a. rewrite !elem_of_existing_appointments.
    rewrite adds_appointments. cbn [appointments set_next_pk set_appointments].
    pose proof (keys_below_next_fresh w Hw) as Hfresh.
    split.
    + intros ((j & Hj) & Hv & Hd & Hst). repeat split; try assumption.
      rewrite lookup_insert in Hj. case_decide.
      * injection Hj as <-. congruence.
      * eauto.
    + intros ((j & Hj) & Hv & Hd & Hst). repeat split; try assumption.
      exists j. rewrite lookup_insert_ne; [assumption|]. congruence.
Qed.

Lemma booking_takes_no_slot_for_clients_witness :
  keys_below_next Sample.world /\
  fst (book_appointment Sample.ten_request Sample.world) = Ok (RedirectToSummary 2) /\
  AppointmentRepository.get_available_slots 20
    (snd (book_appointment Sample.ten_request Sample.world)) Sample.dr_vega 0
    AppointmentRepository.default_duration
  = AppointmentRepository.get_available_slots 20 Sample.world Sample.dr_vega 0
      AppointmentRepository.default_duration.
Proof.
  split; [exact sample_keys_below_next|]. split; [reflexivity|].
  apply booking_takes_no_slot_for_clients. exact sample_keys_below_next.
Defined.

Lemma grid_within_working_day (d t : datetime) :
  t ∈ grid (replace_hour d 8) (timedelta_minutes 30) 20 ->
  replace_hour d 8 <= t <= replace_hour d 18.
Proof.
  intros (k & Hk & ->)%elem_of_grid.
  unfold replace_hour, combine, timedelta_hours, timedelta_minutes. lia.
Qed.

(** X15. The slot finder of the vet dashboard does see such a booking: once
    [book_appointment] has booked veterinarian [v] at a half-hour start [t]
    of the working day, [DjangoAppointmentRepository.get_available_slots]
    for [v] no longer offers [t]. *)
Theorem booked_slot_is_taken_on_the_dashboard :
  forall (w : World) (request : Request) (p : Pet) (s : ServiceType)
         (v : CustomUser) (t : datetime) (c : ClinicBranch) (d : datetime)
         (fuel : nat) (slots : list datetime),
    method request = "POST" ->
    pets w !! post_pet request = Some p ->
    service_types w !! post_service_type request = Some s ->
    is_Some (get_appointment_factory (service_name s)) ->
    users w !! post_veterinarian request = Some v ->
    post_date_time request = Some t ->
    clinic_branches w !! post_clinic_branch request = Some c ->
    t ∈ grid (replace_hour d 8) (timedelta_minutes 30) 20 ->
    (21 <= fuel)%nat ->
    DjangoAppointmentRepository.get_available_slots fuel
      (snd (book_appointment request w)) (user_id v) d = Some slots ->
    t ∉ slots.
Proof.
  intros w request p s v t c d fuel slots Hm Hp Hs Hf Hv Ht Hc Hgrid Hfuel Hrun Hin.
  destruct (book_appointment_books w request p s v t c Hm Hp Hs Hf Hv Ht Hc)
    as (mails & logs & Hbook).
  rewrite Hbook in Hrun. cbn [snd] in Hrun.
  assert (Hex : exists slots',
             DjangoAppointmentRepository.get_available_slots fuel
               (adds mails logs
                  (set_next_pk (next_pk w + 1)
                     (set_appointments
                        (<[next_pk w :=
                             booked_row p s v t c (default "" (post_notes request))]>
                           (appointments w)) w))) (user_id v) d = Some slots' /\
             t ∈ slots') by eauto.
  apply django_excludes_equal_starts_only in Hex as [_ Hfree]; [|assumption].
  apply Hfree. exists (next_pk w), (booked_row p s v t c (default "" (post_notes request))).
  rewrite adds_appointments. cbn [appointments set_next_pk set_appointments].
  rewrite lookup_insert_eq. repeat split.
  - now apply grid_within_working_day.
  - now apply grid_within_working_day.
Qed.

Lemma booked_slot_is_taken_on_the_dashboard_witness :
  (Sample.ten ∈ grid (replace_hour Sample.nine 8) (timedelta_minutes 30) 20) /\
  DjangoAppointmentRepository.get_available_slots 21
    (snd (book_appointment Sample.ten_request Sample.world)) 1 Sample.nine
  = Some (filter (fun t => t <> Sample.ten)
            (grid (replace_hour Sample.nine 8) (timedelta_minutes 30) 20)) /\
  Sample.ten ∉ filter (fun t => t <> Sample.ten)
                 (grid (replace_hour Sample.nine 8) (timedelta_minutes 30) 20).
Proof.
  assert (Hgrid : Sample.ten ∈ grid (replace_hour Sample.nine 8)
                                 (timedelta_minutes 30) 20).
  { apply elem_of_grid. exists 4%nat. split; [lia | reflexivity]. }
  assert (Hrun : DjangoAppointmentRepository.get_available_slots 21
                   (snd (book_appointment Sample.ten_request Sample.world)) 1
                   Sample.nine
                 = Some (filter (fun t => t <> Sample.ten)
                           (grid (replace_hour Sample.nine 8)
                              (timedelta_minutes 30) 20)))
    by (vm_compute; reflexivity).
  split; [exact Hgrid|]. split; [exact Hrun|].
  apply (booked_slot_is_taken_on_the_dashboard Sample.world Sample.ten_request
           Sample.rex Sample.checkup Sample.dr_vega Sample.ten Sample.main_branch
           Sample.nine 21);
    try reflexivity; try exact Hgrid; try exact Hrun; try lia.
  eexists; reflexivity.
Defined.

(** ** Status changes and the dashboard's slot finder *)

Lemma django_slots_same_starts (w w' : World) (vet_id : Z) (d : datetime)
    (fuel : nat) :
  (forall t lo hi,
      t ∈ DjangoAppointmentRepository.existing_appointments w' vet_id lo hi <->
      t ∈ DjangoAppointmentRepository.existing_appointments w vet_id lo hi) ->
  DjangoAppointmentRepository.get_available_slots fuel w' vet_id d
  = DjangoAppointmentRepository.get_available_slots fuel w vet_id d.
Proof.
  intros Hsame. unfold DjangoAppointmentRepository.get_available_slots.
  apply slot_loop_ext. intros t. apply bool_decide_ext. now rewrite Hsame.
Qed.

Lemma django_existing_after_rewrite (w : World) (k : Z) (a row : Appointment)
    (mails : list Email) (vet_id t lo hi : Z) :
  appointments w !! k = Some a ->
  veterinarian row = veterinarian a ->
  date_time row = date_time a ->
  t ∈ DjangoAppointmentRepository.existing_appointments
        (adds mails [] (set_appointments (<[k := row]> (appointments w)) w))
        vet_id lo hi <->
  t ∈ DjangoAppointmentRepository.existing_appointments w vet_id lo hi.
Proof.
  intros Hk Hv Ht. rewrite !elem_of_django_existing.
  rewrite adds_appointments. cbn [appointments set_appointments].
  split.
  - intros (j & x & Hj & Hvet & Hwin & Htime).
    rewrite lookup_insert in Hj. case_decide as Hjk.
    + injection Hj as <-. subst j. exists k, a.
      rewrite <- Hv, <- Ht. auto.
    + exists j, x. auto.
  - intros (j & x & Hj & Hvet & Hwin & Htime).
    destruct (decide (k = j)) as [<- | Hjk].
    + exists k, row. rewrite lookup_insert_eq.
      assert (x = a) by congruence. subst x.
      rewrite Hv, Ht. auto.
    + exists j, x. rewrite lookup_insert_ne by assumption. auto.
Qed.

(** After an action that only changes the status, the row of the
    appointment, if there was one, has the veterinarian and the time it had. *)
Lemma status_action_shape (w : World) (appointment_id : Z) (action : string)
    (kwargs : Kwargs) :
  action ∈ STATUS_ACTIONS ->
  let after := snd (AppointmentService.process_appointment appointment_id action
                      kwargs w) in
  after = w \/
  exists a row mails,
    appointments w !! appointment_id = Some a /\
    veterinarian row = veterinarian a /\
    date_time row = date_time a /\
    after = adds mails []
              (set_appointments (<[appointment_id := row]> (appointments w)) w).
Proof.
  intros Hact after. subst after.
  destruct (appointments w !! appointment_id) as [a|] eqn:Hrow.
  2:{ left. now rewrite (process_appointment_missing _ _ _ _ Hrow). }
  right. exists a.
  unfold STATUS_ACTIONS in Hact. rewrite !elem_of_cons, elem_of_nil in Hact.
  destruct Hact as [-> | [-> | [-> | []]]].
  - destruct (kw_follow_up_date kwargs) as [d|] eqn:Hkw.
    + exists (with_status "completed" a), [].
      rewrite (complete_with_follow_up_fails _ _ _ _ _ Hrow Hkw). cbn [snd].
      rewrite adds_nothing. repeat split.
    + pose proof (complete_execute_plain (loaded appointment_id a) kwargs w Hkw)
        as Hexec.
      rewrite <- (adds_nothing (set_appointments _ w)) in Hexec.
      destruct (process_after_execute w appointment_id "complete" kwargs a
                  CompleteAppointment _ _ Hrow eq_refl Hexec eq_refl)
        as (mails & r & Hrun & _).
      exists (with_status "completed" a). eexists. rewrite Hrun.
      cbn [snd fields]. repeat split.
  - pose proof (cancellation_execute_effect (loaded appointment_id a) kwargs w)
      as Hexec. cbn zeta in Hexec.
    destruct (process_after_execute w appointment_id "cancel" kwargs a
                Cancellation _ _ Hrow eq_refl Hexec eq_refl)
      as (mails & r & Hrun & _).
    exists (with_status "cancelled" a). eexists. rewrite Hrun.
    cbn [snd fields loaded]. repeat split.
  - pose proof (no_show_execute_effect (loaded appointment_id a) kwargs w)
      as Hexec. cbn zeta in Hexec.
    destruct (process_after_execute w appointment_id "no_show" kwargs a
                NoShow _ _ Hrow eq_refl Hexec eq_refl)
      as (mails & r & Hrun & _).
    eexists (with_notes _ (with_status "no_show" a)). eexists. rewrite Hrun.
    cbn [snd fields loaded with_fields]. repeat split.
Qed.

(** X16. Completing, cancelling or marking as a no-show does not give the
    slot back on the vet dashboard: [DjangoAppointmentRepository.
    get_available_slots] does not look at the status, so for every
    veterinarian and day it returns the same slots after such an action as
    before, whether the action succeeded or raised. *)
Theorem status_change_frees_no_dashboard_slot :
  forall (w : World) (appointment_id : Z) (action : string) (kwargs : Kwargs)
         (fuel : nat) (vet_id : Z) (d : datetime),
    action ∈ STATUS_ACTIONS ->
    DjangoAppointmentRepository.get_available_slots fuel
      (snd (AppointmentService.process_appointment appointment_id action kwargs w))
      vet_id d
    = DjangoAppointmentRepository.get_available_slots fuel w vet_id d.
Proof.
  intros w k action kwargs fuel vet_id d Hact.
  destruct (status_action_shape w k action kwargs Hact)
    as [-> | (a & row & mails & Hrow & Hv & Ht & ->)]; [reflexivity|].
  apply django_slots_same_starts. intros t lo hi.
  now apply django_existing_after_rewrite with (a := a).
Qed.

Lemma status_change_frees_no_dashboard_slot_witness :
  ("cancel" ∈ STATUS_ACTIONS) /\
  status <$> (appointments
                (snd (AppointmentService.process_appointment 1 "cancel" no_kwargs
                        Sample.world)) !! 1) = Some "cancelled" /\
  DjangoAppointmentRepository.get_available_slots 21
    (snd (AppointmentService.process_appointment 1 "cancel" no_kwargs Sample.world))
    1 Sample.quarter_past_nine
  = DjangoAppointmentRepository.get_available_slots 21 Sample.world 1
      Sample.quarter_past_nine.
Proof.
  assert (H : "cancel" ∈ STATUS_ACTIONS).
  { unfold STATUS_ACTIONS. rewrite !elem_of_cons. auto. }
  split; [exact H|]. split; [vm_compute; reflexivity|].
  exact (status_change_frees_no_dashboard_slot Sample.world 1 "cancel" no_kwargs
           21 1 Sample.quarter_past_nine H).
Defined.

(** ** The list queries *)

Lemma elem_of_all_objects (w : World) (o : AppointmentObj) :
  o ∈ all_objects w <->
  appointments w !! pk o = Some (fields o) /\ o = loaded (pk o) (fields o).
Proof.
  unfold all_objects. rewrite list_elem_of_fmap. split.
  - intros ([k a] & -> & H%elem_of_map_to_list). cbn. auto.
  - intros [H Ho]. exists (pk o, fields o). split; [exact Ho|].
    now apply elem_of_map_to_list.
Qed.

Lemma NoDup_all_objects (w : World) : NoDup (all_objects w).
Proof.
  unfold all_objects. apply NoDup_fmap_2; [|apply NoDup_map_to_list].
  intros [k a] [k' a'] H. cbn in H. now injection H as -> ->.
Qed.

Global Instance obj_by_date_time_total : Total obj_by_date_time.
Proof. intros a b. unfold obj_by_date_time. lia. Qed.
Global Instance obj_by_date_time_trans : Transitive obj_by_date_time.
Proof. intros a b c. unfold obj_by_date_time. lia. Qed.
Global Instance obj_by_date_time_desc_total : Total obj_by_date_time_desc.
Proof. intros a b. unfold obj_by_date_time_desc. lia. Qed.
Global Instance obj_by_date_time_desc_trans : Transitive obj_by_date_time_desc.
Proof. intros a b c. unfold obj_by_date_time_desc. lia. Qed.

(** X17. [get_all_by_vet] returns the stored appointments of the
    veterinarian that start within the range, both ends of the range
    included, each exactly once, in the order of their start times;
    [get_all_by_pet] returns the stored appointments of the pet, each
    exactly once, latest first. *)
Theorem vet_and_pet_listings :
  forall (w : World) (vet_id pid : Z) (start_date end_date : datetime),
    (forall o,
        o ∈ DjangoQueries.get_all_by_vet w vet_id start_date end_date <->
        appointments w !! pk o = Some (fields o) /\
        o = loaded (pk o) (fields o) /\
        user_id (veterinarian (fields o)) = vet_id /\
        start_date <= date_time (fields o) <= end_date) /\
    NoDup (DjangoQueries.get_all_by_vet w vet_id start_date end_date) /\
    StronglySorted obj_by_date_time
      (DjangoQueries.get_all_by_vet w vet_id start_date end_date) /\
    (forall o,
        o ∈ DjangoQueries.get_all_by_pet w pid <->
        appointments w !! pk o = Some (fields o) /\
        o = loaded (pk o) (fields o) /\
        pet_id (pet (fields o)) = pid) /\
    NoDup (DjangoQueries.get_all_by_pet w pid) /\
    StronglySorted obj_by_date_time_desc (DjangoQueries.get_all_by_pet w pid).
Proof.
  intros w vet_id pid lo hi.
  unfold DjangoQueries.get_all_by_vet, DjangoQueries.get_all_by_pet.
  split; [|split; [|split; [|split; [|split]]]].
  - intros o. rewrite merge_sort_Permutation, list_elem_of_filter,
      elem_of_all_objects. tauto.
  - rewrite merge_sort_Permutation. apply NoDup_filter, NoDup_all_objects.
  - apply StronglySorted_merge_sort; apply _.
  - intros o. rewrite merge_sort_Permutation, list_elem_of_filter,
      elem_of_all_objects. tauto.
  - rewrite merge_sort_Permutation. apply NoDup_filter, NoDup_all_objects.
  - apply StronglySorted_merge_sort; apply _.
Qed.

Lemma elem_of_get_conflicts (w : World) (vet_id lo hi : Z) (a : Appointment) :
  a ∈ DjangoAppointmentRepository.get_conflicts w vet_id lo hi <->
  (exists k, appointments w !! k = Some a) /\
  user_id (veterinarian a) = vet_id /\
  lo <= date_time a <= hi.
Proof.
  unfold DjangoAppointmentRepository.get_conflicts.
  rewrite merge_sort_Permutation, list_elem_of_filter, elem_of_all_rows. tauto.
Qed.

(** X18. The dashboard's slot finder and [get_conflicts] agree on the
    half-hour starts: with enough fuel, a start [t] of the working day is
    offered for a veterinarian exactly when [get_conflicts] finds nothing for
    the range from [t] to [t]. For a longer range [get_conflicts] goes by
    start times too, with both ends included: an appointment that starts
    exactly at the end of the range is reported, one that started before the
    range and runs into it is not. *)
Theorem dashboard_slot_iff_no_conflict :
  forall (w : World) (vet_id : Z) (d t : datetime) (fuel : nat),
    (21 <= fuel)%nat ->
    t ∈ grid (replace_hour d 8) (timedelta_minutes 30) 20 ->
    ((exists slots,
         DjangoAppointmentRepository.get_available_slots fuel w vet_id d = Some slots /\
         t ∈ slots) <->
     DjangoAppointmentRepository.get_conflicts w vet_id t t = []) /\
    (forall lo hi a,
        a ∈ DjangoAppointmentRepository.get_conflicts w vet_id lo hi <->
        (exists k, appointments w !! k = Some a) /\
        user_id (veterinarian a) = vet_id /\
        lo <= date_time a <= hi).
Proof.
  intros w vet_id d t fuel Hfuel Hgrid.
  split; [|intros lo hi a; apply elem_of_get_conflicts].
  rewrite (django_excludes_equal_starts_only w vet_id d fuel t Hfuel).
  pose proof (grid_within_working_day d t Hgrid) as Hwin.
  split.
  - intros [_ Hfree].
    destruct (DjangoAppointmentRepository.get_conflicts w vet_id t t) as [|a l] eqn:Hc;
      [reflexivity|].
    exfalso. apply Hfree.
    assert (Ha : a ∈ DjangoAppointmentRepository.get_conflicts w vet_id t t)
      by (rewrite Hc; left).
    apply elem_of_get_conflicts in Ha as ((k & Hk) & Hv & Ht).
    exists k, a. repeat split; try assumption; lia.
  - intros Hnone. split; [assumption|].
    intros (k & a & Hk & Hv & _ & Ht).
    assert (Ha : a ∈ DjangoAppointmentRepository.get_conflicts w vet_id t t).
    { apply elem_of_get_conflicts. split; [eauto|]. split; [assumption | lia]. }
    rewrite Hnone in Ha. inversion Ha.
Qed.

Lemma dashboard_slot_iff_no_conflict_witness :
  (Sample.ten ∈ grid (replace_hour Sample.nine 8) (timedelta_minutes 30) 20) /\
  DjangoAppointmentRepository.get_conflicts Sample.world 1 Sample.ten Sample.ten = [] /\
  exists slots,
    DjangoAppointmentRepository.get_available_slots 21 Sample.world 1 Sample.nine
    = Some slots /\ Sample.ten ∈ slots.
Proof.
  assert (Hgrid : Sample.ten ∈ grid (replace_hour Sample.nine 8)
                                 (timedelta_minutes 30) 20).
  { apply elem_of_grid. exists 4%nat. split; [lia | reflexivity]. }
  assert (Hnone : DjangoAppointmentRepository.get_conflicts Sample.world 1
                    Sample.ten Sample.ten = []) by (vm_compute; reflexivity).
  split; [exact Hgrid|]. split; [exact Hnone|].
  apply (proj1 (dashboard_slot_iff_no_conflict Sample.world 1 Sample.nine
                  Sample.ten 21 ltac:(lia) Hgrid)).
  exact Hnone.
Defined.

Lemma elem_of_limited {A} (limit : option nat) (l : list A) (x : A) :
  x ∈ limited limit l -> x ∈ l.
Proof.
  unfold limited. destruct limit as [[|n]|]; try (intros H; exact H).
  intros H. apply elem_of_take in H as (i & Hi & _).
  eapply list_elem_of_lookup_2; exact Hi.
Qed.

Lemma elem_of_client_upcoming (w : World) (user : CustomUser) (o : AppointmentObj) :
  o ∈ ClientQueries.get_upcoming_appointments w user None <->
  appointments w !! pk o = Some (fields o) /\
  o = loaded (pk o) (fields o) /\
  (user_id (owner (pet (fields o))) = user_id user \/
   user_id (veterinarian (fields o)) = user_id user) /\
  clock w <= date_time (fields o) /\
  (status (fields o) = "pending" \/ status (fields o) = "confirmed").
Proof.
  unfold ClientQueries.get_upcoming_appointments, limited.
  rewrite merge_sort_Permutation, list_elem_of_filter, elem_of_all_objects,
    !elem_of_cons, elem_of_nil.
  tauto.
Qed.

Lemma elem_of_client_history (w : World) (user : CustomUser) (o : AppointmentObj) :
  o ∈ ClientQueries.get_appointment_history w user None <->
  appointments w !! pk o = Some (fields o) /\
  o = loaded (pk o) (fields o) /\
  (user_id (owner (pet (fields o))) = user_id user \/
   user_id (veterinarian (fields o)) = user_id user) /\
  date_time (fields o) < clock w.
Proof.
  unfold ClientQueries.get_appointment_history, limited.
  rewrite merge_sort_Permutation, list_elem_of_filter, elem_of_all_objects.
  tauto.
Qed.

(** X19. The upcoming list of a user holds the pending and confirmed
    appointments, not yet past, of which the user is the pet's owner or the
    veterinarian, soonest first. A positive [limit] cuts the list to its
    first [limit] entries; a limit of [0] is taken for no limit and gives
    the whole list. No appointment is both in the upcoming list and in the
    history of past appointments. *)
Theorem upcoming_list_and_its_limit :
  forall (w : World) (user : CustomUser) (n : nat),
    let everything := ClientQueries.get_upcoming_appointments w user None in
    (forall o,
        o ∈ everything <->
        appointments w !! pk o = Some (fields o) /\
        o = loaded (pk o) (fields o) /\
        (user_id (owner (pet (fields o))) = user_id user \/
         user_id (veterinarian (fields o)) = user_id user) /\
        clock w <= date_time (fields o) /\
        (status (fields o) = "pending" \/ status (fields o) = "confirmed")) /\
    StronglySorted obj_by_date_time everything /\
    ClientQueries.get_upcoming_appointments w user (Some (S n)) = take (S n) everything /\
    length (ClientQueries.get_upcoming_appointments w user (Some (S n)))
    = Nat.min (S n) (length everything) /\
    ClientQueries.get_upcoming_appointments w user (Some O) = everything /\
    (forall limit limit' o,
        o ∈ ClientQueries.get_upcoming_appointments w user limit ->
        o ∉ ClientQueries.get_appointment_history w user limit').
Proof.
  intros w user n everything. subst everything.
  split; [intros o; apply elem_of_client_upcoming|].
  split; [apply StronglySorted_merge_sort; apply _|].
  split; [reflexivity|]. split; [apply length_take|]. split; [reflexivity|].
  intros limit limit' o Hup Hhist.
  apply elem_of_limited in Hup. apply elem_of_limited in Hhist.
  change (o ∈ ClientQueries.get_upcoming_appointments w user None) in Hup.
  change (o ∈ ClientQueries.get_appointment_history w user None) in Hhist.
  apply elem_of_client_upcoming in Hup as (_ & _ & _ & Hfuture & _).
  apply elem_of_client_history in Hhist as (_ & _ & _ & Hpast).
  lia.
Qed.

Lemma elem_of_django_upcoming (w : World) (vet_id : Z) (o : AppointmentObj) :
  o ∈ DjangoQueries.get_upcoming_appointments w vet_id <->
  appointments w !! pk o = Some (fields o) /\
  o = loaded (pk o) (fields o) /\
  user_id (veterinarian (fields o)) = vet_id /\
  clock w <= date_time (fields o).
Proof.
  unfold DjangoQueries.get_upcoming_appointments.
  rewrite merge_sort_Permutation, list_elem_of_filter, elem_of_all_objects.
  tauto.
Qed.

(** X20. A cancelled appointment that lies ahead stays in the
    veterinarian's upcoming list, whose query does not look at the status,
    and is gone from the upcoming list of every user on the client side,
    whose query asks for pending or confirmed. *)
Theorem cancelled_is_still_upcoming_for_the_vet :
  forall (w : World) (appointment_id : Z) (a : Appointment) (kwargs : Kwargs),
    appointments w !! appointment_id = Some a ->
    clock w <= date_time a ->
    let after := snd (AppointmentService.process_appointment appointment_id "cancel"
                        kwargs w) in
    loaded appointment_id (with_status "cancelled" a)
      ∈ DjangoQueries.get_upcoming_appointments after (user_id (veterinarian a)) /\
    (forall user limit o,
        o ∈ ClientQueries.get_upcoming_appointments after user limit ->
        pk o <> appointment_id).
Proof.
  intros w k a kwargs Hrow Hfuture after.
  assert (Hafter : appointments after = <[k := with_status "cancelled" a]> (appointments w)
                   /\ clock after = clock w).
  { subst after.
    pose proof (cancellation_execute_effect (loaded k a) kwargs w) as Hexec.
    cbn zeta in Hexec.
    destruct (process_after_execute w k "cancel" kwargs a Cancellation _ _
                Hrow eq_refl Hexec eq_refl) as (mails & r & -> & _).
    split; reflexivity. }
  destruct Hafter as [Happ Hclock]. split.
  - apply elem_of_django_upcoming. cbn [pk fields loaded].
    rewrite Happ, Hclock, lookup_insert_eq. repeat split. exact Hfuture.
  - intros user limit o Hin Hpk. apply elem_of_limited in Hin.
    change (o ∈ ClientQueries.get_upcoming_appointments after user None) in Hin.
    apply elem_of_client_upcoming in Hin as (Hlook & _ & _ & _ & Hst).
    rewrite Happ, Hpk, lookup_insert_eq in Hlook.
    injection Hlook as Hf. rewrite <- Hf in Hst. cbn in Hst.
    destruct Hst; discriminate.
Qed.

Lemma cancelled_is_still_upcoming_for_the_vet_witness :
  appointments Sample.world !! 1 = Some Sample.booked /\
  clock Sample.world <= date_time Sample.booked /\
  loaded 1 (with_status "cancelled" Sample.booked)
    ∈ DjangoQueries.get_upcoming_appointments
        (snd (AppointmentService.process_appointment 1 "cancel" no_kwargs
                Sample.world)) 1.
Proof.
  assert (H : clock Sample.world <= date_time Sample.booked)
    by (vm_compute; discriminate).
  split; [reflexivity|]. split; [exact H|].
  exact (proj1 (cancelled_is_still_upcoming_for_the_vet Sample.world 1
                  Sample.booked no_kwargs eq_refl H)).
Defined.

(** X21. An appointment just booked through [book_appointment] is in
    nobody's upcoming list on the client side: its status is ['scheduled'],
    and the list asks for ['pending'] or ['confirmed']. Whatever the list
    shows after the booking was there before. *)
Theorem booking_is_not_upcoming :
  forall (w : World) (request : Request) (user : CustomUser)
         (limit : option nat) (o : AppointmentObj),
    keys_below_next w ->
    o ∈ ClientQueries.get_upcoming_appointments
          (snd (book_appointment request w)) user limit ->
    pk o <> next_pk w /\
    o ∈ ClientQueries.get_upcoming_appointments w user None.
Proof.
  intros w request user limit o Hw Hin.
  apply elem_of_limited in Hin.
  change (o ∈ ClientQueries.get_upcoming_appointments
                (snd (book_appointment request w)) user None) in Hin.
  pose proof (keys_below_next_fresh w Hw) as Hfresh.
  destruct (book_appointment_world_after w request)
    as [Hsame | (row & mails & logs & Hstatus & Hnew)].
  - rewrite Hsame in Hin. split; [|exact Hin].
    apply elem_of_client_upcoming in Hin as (Hlook & _).
    intros Hpk. rewrite Hpk, Hfresh in Hlook. discriminate.
  - rewrite Hnew in Hin.
    apply elem_of_client_upcoming in Hin as (Hlook & Ho & Huser & Hclock & Hst).
    rewrite adds_appointments in Hlook.
    cbn [appointments set_next_pk set_appointments] in Hlook.
    rewrite lookup_insert in Hlook. case_decide as Hk.
    + injection Hlook as Hrow. rewrite <- Hrow, Hstatus in Hst.
      destruct Hst; discriminate.
    + split; [congruence|]. apply elem_of_client_upcoming. auto.
Qed.

Lemma booking_is_not_upcoming_witness :
  keys_below_next Sample.world /\
  fst (book_appointment Sample.booking_request Sample.world)
  = Ok (RedirectToSummary 2) /\
  ClientQueries.get_upcoming_appointments
    (snd (book_appointment Sample.booking_request Sample.world)) Sample.pat None
  = [loaded 1 Sample.booked] /\
  pk (loaded 1 Sample.booked) <> next_pk Sample.world.
Proof.
  assert (Hlist : ClientQueries.get_upcoming_appointments
                    (snd (book_appointment Sample.booking_request Sample.world))
                    Sample.pat None = [loaded 1 Sample.booked])
    by (vm_compute; reflexivity).
  split; [exact sample_keys_below_next|]. split; [reflexivity|].
  split; [exact Hlist|].
  apply (booking_is_not_upcoming Sample.world Sample.booking_request Sample.pat
           None (loaded 1 Sample.booked) sample_keys_below_next).
  rewrite Hlist. left.
Defined.

(** ** The client's views for rescheduling and cancelling *)

Lemma notify_adds (appointment : AppointmentObj) (w : World) :
  exists mails logs,
    Observers.AppointmentSubject.notify appointment w = (Ok tt, adds mails logs w).
Proof.
  unfold Observers.AppointmentSubject.notify. unfold bind at 1. unfold get_world.
  apply notify_each_adds.
Qed.

Lemma notify_two_effect (w : World) (o1 o2 : Observer) (appointment : AppointmentObj) :
  subject_observers w = [o1; o2] ->
  observer_class o1 = EmailNotificationObserver ->
  observer_class o2 = ReminderObserver ->
  Observers.AppointmentSubject.notify appointment w
  = (Ok tt,
     if String.eqb (status (fields appointment)) "confirmed"
     then adds [update_mail appointment w; reminder_mail appointment w]
               [update_log appointment; reminder_log appointment] w
     else adds [update_mail appointment w] [update_log appointment] w).
Proof.
  intros Hobs H1 H2.
  unfold Observers.AppointmentSubject.notify.
  unfold bind at 1. unfold get_world. rewrite Hobs.
  unfold Observers.AppointmentSubject.notify_each. cbn [for_each].
  unfold Observers.update. rewrite H1, H2.
  rewrite (bind_ok _ _ _ _ _ (email_update_effect appointment w)).
  rewrite (bind_ok _ _ _ _ _ (reminder_update_effect appointment _)).
  destruct (String.eqb (status (fields appointment)) "confirmed").
  - rewrite adds_adds. reflexivity.
  - reflexivity.
Qed.


(** What both views do once they have changed the instance: write all its
    columns, tell the observers, answer. *)
Lemma view_save_notify (o : AppointmentObj) (r : ChangeResponse) (w : World) :
  let saved := set_appointments (<[pk o := fields o]> (appointments w)) w in
  (save o ;;; Observers.AppointmentSubject.notify o ;;; ret r) w
  = (Ok r, snd (Observers.AppointmentSubject.notify o saved)) /\
  exists mails logs,
    snd (Observers.AppointmentSubject.notify o saved) = adds mails logs saved.
Proof.
  intros saved.
  destruct (notify_adds o saved) as (mails & logs & Hn).
  split.
  - rewrite (bind_ok _ _ _ _ _ (eq_refl : save o w = (Ok tt, saved))).
    rewrite (bind_ok _ _ _ _ _ Hn). now rewrite Hn.
  - exists mails, logs. now rewrite Hn.
Qed.

(** X22. [cancel_appointment] answers a request that is not a POST with
    "method not allowed" and raises [Http404] for an id without a row, in
    both cases without changing anything. For a stored appointment it sets
    the status to ['cancelled'] whatever the status was, rewrites no other
    column and no other row, tells the observers and redirects to the list;
    with the two observers of the views module attached the owner gets
    exactly one mail, the cancellation text, and one ['update'] row is
    logged. *)
Theorem cancel_view_outcomes :
  forall (w : World) (request : ChangeRequest) (appointment_id : Z),
    let run := cancel_appointment request appointment_id w in
    if String.eqb (change_method request) "POST" then
      match appointments w !! appointment_id with
      | None => run = (Raise Http404, w)
      | Some a =>
          let appointment := loaded appointment_id (with_status "cancelled" a) in
          let saved :=
            set_appointments
              (<[appointment_id := with_status "cancelled" a]> (appointments w)) w in
          (exists mails logs, run = (Ok RedirectToList, adds mails logs saved)) /\
          (forall o1 o2,
              subject_observers w = [o1; o2] ->
              observer_class o1 = EmailNotificationObserver ->
              observer_class o2 = ReminderObserver ->
              run = (Ok RedirectToList,
                     adds [update_mail appointment w] [update_log appointment] saved) /\
              mail_message (update_mail appointment w)
              = MsgCancelled (get_full_name (veterinarian a)) (date_time a) /\
              mail_to (update_mail appointment w) = [email (owner (pet a))] /\
              notification_type (update_log appointment) = "update")
      end
    else run = (Ok MethodNotAllowed, w).
Proof.
  intros w request k run. subst run. unfold cancel_appointment.
  destruct (String.eqb (change_method request) "POST"); cbn [negb]; [|reflexivity].
  destruct (appointments w !! k) as [a|] eqn:Hrow.
  - cbn zeta.
    rewrite (bind_ok _ _ _ _ _ (get_object_or_404_found appointments k a w Hrow)).
    cbn [fields loaded].
    change (with_fields (with_status "cancelled" a) (loaded k a))
      with (loaded k (with_status "cancelled" a)).
    destruct (view_save_notify (loaded k (with_status "cancelled" a)) RedirectToList w)
      as (Hrun & mails & logs & Hadds).
    cbn [pk fields loaded] in Hrun, Hadds. rewrite Hrun.
    split.
    + exists mails, logs. now rewrite Hadds.
    + intros o1 o2 Hobs H1 H2.
      rewrite (notify_two_effect
                 (set_appointments (<[k := with_status "cancelled" a]> (appointments w)) w)
                 o1 o2 _ Hobs H1 H2).
      repeat split.
  - now rewrite (bind_raise _ _ _ _ _ (get_object_or_404_missing appointments k w Hrow)).
Qed.


(** ** The emergency list *)

Lemma elem_of_emergency_list (w : World) (clinic_branch_id : Z) (o : AppointmentObj) :
  o ∈ DjangoQueries.get_emergency_appointments w clinic_branch_id <->
  appointments w !! pk o = Some (fields o) /\
  o = loaded (pk o) (fields o) /\
  branch_id (clinic_branch (fields o)) = clinic_branch_id /\
  service_name_icontains "emergency" (service_type (fields o)) = true /\
  (status (fields o) = "pending" \/ status (fields o) = "confirmed").
Proof.
  unfold DjangoQueries.get_emergency_appointments.
  rewrite merge_sort_Permutation, list_elem_of_filter, elem_of_all_objects,
    !elem_of_cons, elem_of_nil.
  tauto.
Qed.

Lemma update_status_world (w : World) (appointment_id : Z) (a : Appointment)
    (new_status : string) :
  appointments w !! appointment_id = Some a ->
  DjangoAppointmentRepository.update_status appointment_id new_status w
  = (Ok true,
     set_appointments (<[appointment_id := with_status new_status a]> (appointments w)) w).
Proof.
  intros Hrow.
  unfold DjangoAppointmentRepository.update_status, try_except, bind.
  rewrite (objects_get_found _ _ _ Hrow).
  unfold save_update_fields. cbn [pk with_fields loaded fields].
  rewrite Hrow. reflexivity.
Qed.

Lemma update_status_missing (w : World) (appointment_id : Z) (new_status : string) :
  appointments w !! appointment_id = None ->
  DjangoAppointmentRepository.update_status appointment_id new_status w = (Ok false, w).
Proof.
  intros Hrow.
  unfold DjangoAppointmentRepository.update_status, try_except, bind.
  rewrite (objects_get_missing _ _ Hrow). reflexivity.
Qed.

(** None of the names [get_appointment_factory] knows has ['emergency'] in
    it. *)
Lemma bookable_is_no_emergency (s : ServiceType) :
  service_name s ∈ BOOKABLE -> service_name_icontains "emergency" s = false.
Proof.
  unfold BOOKABLE, service_name_icontains.
  rewrite !elem_of_cons, elem_of_nil.
  intros [-> | [-> | [-> | [-> | []]]]]; vm_compute; reflexivity.
Qed.

(** The world after [book_appointment], with the row it wrote. *)
Lemma book_appointment_row_after (w : World) (request : Request) :
  snd (book_appointment request w) = w \/
  exists p s v t c mails logs,
    service_name s ∈ BOOKABLE /\
    snd (book_appointment request w)
    = adds mails logs
        (set_next_pk (next_pk w + 1)
           (set_appointments
              (<[next_pk w := booked_row p s v t c (default "" (post_notes request))]>
                 (appointments w)) w)).
Proof.
  destruct (String.eqb_spec (method request) "POST") as [Hm|Hm].
  2:{ left. unfold book_appointment.
      now rewrite (proj2 (String.eqb_neq _ _) Hm). }
  destruct (pets w !! post_pet request) as [p|] eqn:Hp.
  2:{ left. destruct (book_appointment_fails_clean w request Hm) as (e & -> & _);
        auto. }
  destruct (service_types w !! post_service_type request) as [s|] eqn:Hs.
  2:{ left. destruct (book_appointment_fails_clean w request Hm) as (e & -> & _);
        auto. }
  destruct (users w !! post_veterinarian request) as [v|] eqn:Hv.
  2:{ left. destruct (book_appointment_fails_clean w request Hm) as (e & -> & _);
        auto. }
  destruct (post_date_time request) as [t|] eqn:Ht.
  2:{ left. destruct (book_appointment_fails_clean w request Hm) as (e & -> & _);
        auto 10. }
  destruct (clinic_branches w !! post_clinic_branch request) as [c|] eqn:Hc.
  2:{ left. destruct (book_appointment_fails_clean w request Hm) as (e & -> & _);
        auto 10. }
  destruct (get_appointment_factory (service_name s)) as [f|] eqn:Hf.
  2:{ left. destruct (book_appointment_fails_clean w request Hm) as (e & -> & _);
        [|reflexivity].
      do 5 right. exists s. rewrite Hs. auto. }
  right.
  destruct (book_appointment_books w request p s v t c Hm Hp Hs
              (mk_is_Some _ _ Hf) Hv Ht Hc) as (mails & logs & ->).
  exists p, s, v, t, c, mails, logs. split; [|reflexivity].
  apply get_appointment_factory_bookable. eauto.
Qed.

(** X24. An appointment booked through [book_appointment] does not show in
    the emergency list, neither right after the booking nor after
    [update_status] has given it another status.
    [get_emergency_appointments] lists the pending and confirmed
    appointments of a branch whose service has ['emergency'] in its name, in
    any letter case; a booking is stored as ['scheduled'], and the view
    books only the four services that have a factory, none of whose names
    has ['emergency'] in it. Whatever the list shows afterwards was in it
    before. *)
Theorem booking_is_never_an_emergency :
  forall (w : World) (request : Request) (new_status : string)
         (clinic_branch_id : Z) (o : AppointmentObj),
    keys_below_next w ->
    let booked := snd (book_appointment request w) in
    let updated :=
      snd (DjangoAppointmentRepository.update_status (next_pk w) new_status booked) in
    (o ∈ DjangoQueries.get_emergency_appointments booked clinic_branch_id ->
     pk o <> next_pk w /\
     o ∈ DjangoQueries.get_emergency_appointments w clinic_branch_id) /\
    (o ∈ DjangoQueries.get_emergency_appointments updated clinic_branch_id ->
     pk o <> next_pk w /\
     o ∈ DjangoQueries.get_emergency_appointments w clinic_branch_id).
Proof.
  intros w request s' b o Hw booked updated. subst updated booked.
  pose proof (keys_below_next_fresh w Hw) as Hfresh.
  assert (Hold : forall m : gmap Z Appointment,
             (forall j, j <> next_pk w -> m !! j = appointments w !! j) ->
             (forall a, m !! next_pk w = Some a ->
                        service_name_icontains "emergency" (service_type a) = false) ->
             forall w', appointments w' = m ->
             o ∈ DjangoQueries.get_emergency_appointments w' b ->
             pk o <> next_pk w /\ o ∈ DjangoQueries.get_emergency_appointments w b).
  { intros m Hother Hnew w' Hm Hin.
    apply elem_of_emergency_list in Hin as (Hlook & Ho & Hb & Hname & Hst).
    rewrite Hm in Hlook.
    assert (Hpk : pk o <> next_pk w).
    { intros Hpk. rewrite Hpk in Hlook. rewrite (Hnew _ Hlook) in Hname.
      discriminate. }
    split; [exact Hpk|]. apply elem_of_emergency_list.
    rewrite <- (Hother _ Hpk). auto. }
  destruct (book_appointment_row_after w request)
    as [-> | (p & s & v & t & c & mails & logs & Hname & ->)].
  - rewrite (update_status_missing w (next_pk w) s' Hfresh). cbn [snd].
    assert (H : o ∈ DjangoQueries.get_emergency_appointments w b ->
                pk o <> next_pk w /\
                o ∈ DjangoQueries.get_emergency_appointments w b).
    { apply (Hold (appointments w)); [reflexivity | | reflexivity].
      intros a Ha. rewrite Hfresh in Ha. discriminate. }
    split; exact H.
  - set (row := booked_row p s v t c (default "" (post_notes request))).
    set (after := adds mails logs _).
    assert (Hrow : appointments after !! next_pk w = Some row).
    { subst after. rewrite adds_appointments.
      cbn [appointments set_next_pk set_appointments]. apply lookup_insert_eq. }
    rewrite (update_status_world after (next_pk w) row s' Hrow). cbn [snd].
    split.
    + apply (Hold (appointments after)); [| |reflexivity].
      * intros j Hj. subst after. rewrite adds_appointments.
        cbn [appointments set_next_pk set_appointments].
        now apply lookup_insert_ne.
      * intros a Ha. rewrite Hrow in Ha. injection Ha as <-.
        now apply bookable_is_no_emergency.
    + apply (Hold (<[next_pk w := with_status s' row]> (appointments after)));
        [| |reflexivity].
      * intros j Hj. rewrite lookup_insert_ne by congruence.
        subst after. rewrite adds_appointments.
        cbn [appointments set_next_pk set_appointments].
        now apply lookup_insert_ne.
      * intros a Ha. rewrite lookup_insert_eq in Ha. injection Ha as <-.
        now apply bookable_is_no_emergency.
Qed.

Lemma booking_is_never_an_emergency_witness :
  keys_below_next Sample.world /\
  fst (book_appointment Sample.ten_request Sample.world) = Ok (RedirectToSummary 2) /\
  DjangoQueries.get_emergency_appointments
    (snd (DjangoAppointmentRepository.update_status 2 "confirmed"
            (snd (book_appointment Sample.ten_request Sample.world)))) 1
  = [] /\
  (loaded 2 (with_status "confirmed"
               (booked_row Sample.rex Sample.checkup Sample.dr_vega Sample.ten
                  Sample.main_branch ""))
     ∈ DjangoQueries.get_emergency_appointments
         (snd (DjangoAppointmentRepository.update_status (next_pk Sample.world)
                 "confirmed"
                 (snd (book_appointment Sample.ten_request Sample.world)))) 1 ->
   2 <> next_pk Sample.world).
Proof.
  split; [exact sample_keys_below_next|]. split; [reflexivity|].
  split; [vm_compute; reflexivity|].
  intros Hin.
  exact (proj1 (proj2 (booking_is_never_an_emergency Sample.world Sample.ten_request
                         "confirmed" 1 _ sample_keys_below_next) Hin)).
Defined.

(** ** Status lists of the dashboard *)

Lemma elem_of_by_status (w : World) (vet_id : Z) (wanted : string)
    (o : AppointmentObj) :
  o ∈ DjangoQueries.get_appointments_by_status w vet_id wanted <->
  appointments w !! pk o = Some (fields o) /\
  o = loaded (pk o) (fields o) /\
  user_id (veterinarian (fields o)) = vet_id /\
  status (fields o) = wanted.
Proof.
  unfold DjangoQueries.get_appointments_by_status.
  rewrite merge_sort_Permutation, list_elem_of_filter, elem_of_all_objects.
  tauto.
Qed.

Lemma elem_of_overdue (w : World) (vet_id : Z) (o : AppointmentObj) :
  o ∈ DjangoQueries.get_overdue_appointments w vet_id <->
  appointments w !! pk o = Some (fields o) /\
  o = loaded (pk o) (fields o) /\
  user_id (veterinarian (fields o)) = vet_id /\
  date_time (fields o) < clock w /\
  status (fields o) = "pending".
Proof.
  unfold DjangoQueries.get_overdue_appointments.
  rewrite merge_sort_Permutation, list_elem_of_filter, elem_of_all_objects.
  tauto.
Qed.

(** X25. [update_status] moves a stored appointment between the status
    lists of its veterinarian: afterwards the appointment is in the list of
    the new status and in no other status list of anybody, and the status
    lists keep their other entries. Since the overdue list is part of the
    ['pending'] list, giving an overdue appointment any other status takes
    it off the overdue list. *)
Theorem update_status_moves_between_lists :
  forall (w : World) (appointment_id : Z) (a : Appointment) (new_status : string),
    appointments w !! appointment_id = Some a ->
    let after :=
      snd (DjangoAppointmentRepository.update_status appointment_id new_status w) in
    loaded appointment_id (with_status new_status a)
      ∈ DjangoQueries.get_appointments_by_status after (user_id (veterinarian a))
          new_status /\
    (forall vet_id wanted o,
        o ∈ DjangoQueries.get_appointments_by_status after vet_id wanted ->
        pk o = appointment_id ->
        vet_id = user_id (veterinarian a) /\ wanted = new_status) /\
    (forall vet_id wanted o,
        pk o <> appointment_id ->
        o ∈ DjangoQueries.get_appointments_by_status after vet_id wanted <->
        o ∈ DjangoQueries.get_appointments_by_status w vet_id wanted) /\
    (forall vet_id o,
        o ∈ DjangoQueries.get_overdue_appointments after vet_id ->
        o ∈ DjangoQueries.get_appointments_by_status after vet_id "pending") /\
    (new_status <> "pending" ->
     forall vet_id o,
       o ∈ DjangoQueries.get_overdue_appointments after vet_id ->
       pk o <> appointment_id).
Proof.
  intros w k a s Hrow after.
  assert (Happ : appointments after = <[k := with_status s a]> (appointments w)).
  { subst after. now rewrite (update_status_world w k a s Hrow). }
  split; [|split; [|split; [|split]]].
  - apply elem_of_by_status. cbn [pk fields loaded].
    rewrite Happ, lookup_insert_eq. repeat split.
  - intros v wanted o Hin Hpk.
    apply elem_of_by_status in Hin as (Hlook & _ & Hv & Hst).
    rewrite Happ, Hpk, lookup_insert_eq in Hlook. injection Hlook as Hf.
    rewrite <- Hf in Hv, Hst. cbn in Hv, Hst. auto.
  - intros v wanted o Hpk. rewrite !elem_of_by_status, Happ.
    now rewrite lookup_insert_ne by congruence.
  - intros v o Hin. apply elem_of_overdue in Hin as (H1 & H2 & H3 & _ & H5).
    apply elem_of_by_status. auto.
  - intros Hs v o Hin Hpk.
    apply elem_of_overdue in Hin as (Hlook & _ & _ & _ & Hst).
    rewrite Happ, Hpk, lookup_insert_eq in Hlook. injection Hlook as Hf.
    rewrite <- Hf in Hst. cbn in Hst. congruence.
Qed.

Lemma update_status_moves_between_lists_witness :
  appointments Sample.world !! 1 = Some Sample.booked /\
  DjangoQueries.get_appointments_by_status Sample.world 1 "confirmed"
  = [loaded 1 Sample.booked] /\
  loaded 1 (with_status "completed" Sample.booked)
    ∈ DjangoQueries.get_appointments_by_status
        (snd (DjangoAppointmentRepository.update_status 1 "completed" Sample.world))
        (user_id (veterinarian Sample.booked)) "completed".
Proof.
  split; [reflexivity|]. split; [vm_compute; reflexivity|].
  exact (proj1 (update_status_moves_between_lists Sample.world 1 Sample.booked
                  "completed" eq_refl)).
Defined.

(** ** Saving a whole instance *)

(** X26. [save] of the repository writes every column of the instance it
    is given and returns that instance; the row read back by [get_by_id] has
    the values of the instance, and no other row is touched. What the store
    held under that key does not matter: a status written by
    [update_status] after the instance was loaded is overwritten, and an
    appointment deleted in the meantime is stored again. *)
Theorem save_writes_the_whole_instance :
  forall (w : World) (o : AppointmentObj) (new_status : string),
    let after := snd (DjangoAppointmentRepository.save o w) in
    DjangoAppointmentRepository.save o w
    = (Ok o, set_appointments (<[pk o := fields o]> (appointments w)) w) /\
    DjangoAppointmentRepository.get_by_id (pk o) after
    = (Ok (Some (loaded (pk o) (fields o))), after) /\
    (forall other, other <> pk o ->
        appointments after !! other = appointments w !! other) /\
    appointments
      (snd (DjangoAppointmentRepository.save o
              (snd (DjangoAppointmentRepository.update_status (pk o) new_status w))))
    = appointments after /\
    appointments
      (snd (DjangoAppointmentRepository.save o
              (snd (DjangoAppointmentRepository.delete (pk o) w))))
    = appointments after.
Proof.
  intros w o s after.
  assert (Hsave : forall w0, DjangoAppointmentRepository.save o w0
                    = (Ok o, set_appointments (<[pk o := fields o]> (appointments w0)) w0))
    by reflexivity.
  assert (Happ : appointments after = <[pk o := fields o]> (appointments w))
    by reflexivity.
  split; [apply Hsave|]. split; [|split; [|split]].
  - apply get_by_id_found. rewrite Happ. apply lookup_insert_eq.
  - intros other Hne. rewrite Happ. now apply lookup_insert_ne.
  - rewrite Hsave, Happ. cbn [snd appointments set_appointments].
    destruct (appointments w !! pk o) as [a|] eqn:Hrow.
    + rewrite (update_status_world w (pk o) a s Hrow).
      cbn [snd appointments set_appointments]. apply insert_insert_eq.
    + unfold DjangoAppointmentRepository.update_status, try_except, bind.
      rewrite (objects_get_missing _ _ Hrow). reflexivity.
  - rewrite Hsave, Happ. cbn [snd appointments set_appointments].
    destruct (appointments w !! pk o) as [a|] eqn:Hrow.
    + unfold DjangoAppointmentRepository.delete, try_except, bind.
      rewrite (objects_get_found _ _ _ Hrow).
      cbn. apply insert_delete_eq.
    + unfold DjangoAppointmentRepository.delete, try_except, bind.
      rewrite (objects_get_missing _ _ Hrow). reflexivity.
Qed.

(** ** A registered emergency observer *)

Lemma notify_observers_raises (o : AppointmentObj) (event : string) (w : World) :
  event ∈ EVENTS ->
  has_emergency_observer w ->
  AppointmentComponentFactory.notify_observers o event w
  = (Raise (AttributeError "is_emergency"), w).
Proof.
  intros Hev Hhas.
  unfold AppointmentComponentFactory.notify_observers.
  unfold bind at 1. unfold get_world.
  unfold has_emergency_observer in Hhas.
  generalize dependent (factory_observers w). intros observers Hhas.
  induction observers as [|ob rest IH]; [inversion Hhas|].
  cbn [for_each].
  destruct (decide (vet_observer_class ob = EmergencyAlertObserver)) as [Hob|Hob].
  - apply bind_raise. unfold VetObservers.update. rewrite Hob. reflexivity.
  - rewrite (bind_ok _ _ _ _ _ (vet_update_silent ob o event w Hev Hob)).
    apply IH. inversion Hhas; [contradiction | assumption].
Qed.

(** X27. Once an [EmergencyAlertObserver] is registered, [notify_observers]
    raises [AttributeError] for every event the service emits (the observer
    reads [is_emergency], which an appointment does not have) and leaves the
    world as it is. The service notifies after it has written: cancelling a
    stored appointment then raises that error although the appointment has
    been stored as cancelled and the owner has been sent the mail. *)
Theorem emergency_observer_breaks_the_service :
  forall (w : World) (appointment_id : Z) (a : Appointment) (kwargs : Kwargs),
    has_emergency_observer w ->
    appointments w !! appointment_id = Some a ->
    (forall o event,
        event ∈ EVENTS ->
        AppointmentComponentFactory.notify_observers o event w
        = (Raise (AttributeError "is_emergency"), w)) /\
    let run :=
      AppointmentService.process_appointment appointment_id "cancel" kwargs w in
    let row := with_status "cancelled" a in
    fst run = Raise (AttributeError "is_emergency") /\
    appointments (snd run) = <[appointment_id := row]> (appointments w) /\
    outbox (snd run)
    = (outbox w ++
       (if default true (kw_notify_client kwargs)
        then [cancellation_mail row (default "" (kw_reason kwargs)) w]
        else []))%list.
Proof.
  intros w k a kwargs Hhas Hrow.
  split; [intros o event Hev; now apply notify_observers_raises|].
  cbn zeta.
  rewrite (process_appointment_dispatch w k "cancel" kwargs a Cancellation Hrow eq_refl).
  unfold run_strategy.
  pose proof (cancellation_execute_effect (loaded k a) kwargs w) as Hexec.
  cbn zeta in Hexec. cbn [pk fields loaded] in Hexec.
  change (execute Cancellation (loaded k a) kwargs)
    with (CancellationStrategy.execute (loaded k a) kwargs).
  rewrite (bind_ok _ _ _ _ _ Hexec).
  rewrite (bind_ok _ _ _ _ _ (repository_save_effect _ _)).
  erewrite bind_raise.
  2:{ apply notify_observers_raises; [|exact Hhas].
      unfold EVENTS, ACTIONS. rewrite !elem_of_cons. auto. }
  cbn [fst snd pk fields].
  split; [reflexivity|]. split.
  - cbn [appointments set_appointments adds set_notification_log set_outbox].
    apply insert_insert_eq.
  - reflexivity.
Qed.

Lemma emergency_observer_breaks_the_service_witness :
  let o := {| vet_observer_oid := 8; vet_observer_class := EmergencyAlertObserver |} in
  let w := snd (AppointmentComponentFactory.register_observer o Sample.world) in
  has_emergency_observer w /\
  appointments w !! 1 = Some Sample.booked /\
  fst (AppointmentService.process_appointment 1 "cancel" no_kwargs w)
  = Raise (AttributeError "is_emergency") /\
  appointments (snd (AppointmentService.process_appointment 1 "cancel" no_kwargs w))
  = <[1 := with_status "cancelled" Sample.booked]> (appointments w).
Proof.
  cbn zeta.
  assert (Hhas : has_emergency_observer
                   (snd (AppointmentComponentFactory.register_observer
                           {| vet_observer_oid := 8;
                              vet_observer_class := EmergencyAlertObserver |}
                           Sample.world)))
    by (constructor; reflexivity).
  pose proof (emergency_observer_breaks_the_service _ 1 Sample.booked no_kwargs
                Hhas eq_refl) as (_ & Hraise & Hstored & _).
  split; [exact Hhas|]. split; [reflexivity|]. split; [exact Hraise | exact Hstored].
Defined.
